(** * NewsSnifferLast: the polling / dedup / forward pipeline

    A shallow embedding of [src/database.py] (class [DatabaseManager]),
    [src/telegram_client.py] (class [TelegramNewsClient]), of the
    collection cycle, the liveness check and the purge of
    [src/scheduler.py] and of the channel maintenance of [src/utils.py],
    followed by the properties of the specification that concern them.

    Modelling conventions.
    - Python integers are [Z]; instants ([datetime]) are seconds on the UTC
      time line, as [Z]; [CURRENT_DATE] is the day number of such an instant.
    - A table of the SQLite file is the list of its rows in rowid order.  The
      surrogate column [id] (AUTOINCREMENT), which no query of the program
      reads, is not represented; a new row goes to the end of the list.
    - In [Database] the statements are given their relational meaning, and
      [Client] and [Lifecycle] are the client as long as every statement
      goes through.  The handlers for [sqlite3.Error] are in [Store];
      [Degraded] is the client on a database file that may be out of
      reach, and that the maintenance operations of scheduler.py and
      utils.py write as well.
    - Telethon is the environment: what its calls yield or raise is read from
      an oracle indexed by a counter of the interactions made so far, so
      that successive calls may answer differently.
    - Observable effects (transport calls, sleeps, the retrieval log line)
      are appended to a trace. *)

From Stdlib Require Import ZArith List Ascii String Bool Lia Sorted.
Import ListNotations.
Local Open Scope string_scope.
Local Open Scope list_scope.
Local Open Scope Z_scope.

(** ** Telethon messages (consumed shape: [message.id], [message.text],
       [message.date]) *)

Module Message.
Record t : Type := Build
  { id : Z;
    text : option string;
    date : option Z }.
End Message.

(** ** database.py *)

Module Database.

(** [CURRENT_DATE] for the instant [now]. *)
Definition CURRENT_DATE (now : Z) : Z := now / 86400.

Module ProcessedPosts.
Record row : Type := Build
  { channel_username : string;
    message_id : Z;
    message_text : string;
    post_date : option Z;
    processed_date : Z;
    is_published : bool;
    summary : option string }.
End ProcessedPosts.

Module ChannelSettings.
Record row : Type := Build
  { channel_username : string;
    last_message_id : Z;
    is_active : bool;
    added_date : Z }.
End ChannelSettings.

Module Statistics.
Record row : Type := Build
  { date : Z;
    posts_processed : Z;
    posts_published : Z;
    posts_filtered : Z }.
End Statistics.

(** The three tables created by [init_database]. *)
Record DatabaseManager : Type := Build
  { processed_posts : list ProcessedPosts.row;
    channel_settings : list ChannelSettings.row;
    statistics : list Statistics.row }.

(** [init_database] on a fresh file. *)
Definition init_database : DatabaseManager :=
  {| processed_posts := []; channel_settings := []; statistics := [] |}.

(** [cursor.fetchone()]: the first row of a result, if any. *)
Definition fetchone {A : Type} (result : list A) : option A := hd_error result.

(** [WHERE channel_username = ? AND message_id = ?] on [processed_posts]. *)
Definition post_key (channel_username : string) (message_id : Z)
    (r : ProcessedPosts.row) : bool :=
  (ProcessedPosts.channel_username r =? channel_username)%string
  && (ProcessedPosts.message_id r =? message_id).

(** [WHERE channel_username = ?] on [channel_settings]. *)
Definition channel_key (channel_username : string)
    (r : ChannelSettings.row) : bool :=
  (ChannelSettings.channel_username r =? channel_username)%string.

(** [WHERE date = CURRENT_DATE] on [statistics]. *)
Definition date_key (today : Z) (r : Statistics.row) : bool :=
  Statistics.date r =? today.

Definition is_post_processed (db : DatabaseManager)
    (channel_username : string) (message_id : Z) : bool :=
  match fetchone (filter (post_key channel_username message_id)
                         (processed_posts db)) with
  | Some _ => true
  | None => false
  end.

(** [INSERT OR REPLACE]: the rows that collide with the new one on
    [UNIQUE(channel_username, message_id)] are deleted, then the new row
    is inserted; [processed_date] takes its default. *)
Definition add_processed_post (now : Z) (db : DatabaseManager)
    (channel_username : string) (message_id : Z) (message_text : string)
    (post_date : option Z) (summary : option string) (is_published : bool)
    : DatabaseManager :=
  {| processed_posts :=
       filter (fun r => negb (post_key channel_username message_id r))
              (processed_posts db)
       ++ [ {| ProcessedPosts.channel_username := channel_username;
               ProcessedPosts.message_id := message_id;
               ProcessedPosts.message_text := message_text;
               ProcessedPosts.post_date := post_date;
               ProcessedPosts.processed_date := now;
               ProcessedPosts.is_published := is_published;
               ProcessedPosts.summary := summary |} ];
     channel_settings := channel_settings db;
     statistics := statistics db |}.

Definition get_last_message_id (db : DatabaseManager)
    (channel_username : string) : Z :=
  match fetchone (filter (channel_key channel_username)
                         (channel_settings db)) with
  | Some r => ChannelSettings.last_message_id r
  | None => 0
  end.

(** [INSERT OR REPLACE INTO channel_settings (channel_username,
    last_message_id)]: the row that collides on the UNIQUE
    [channel_username] is deleted and a new row is inserted, whose
    unlisted columns take their defaults ([is_active] TRUE, [added_date]
    CURRENT_TIMESTAMP). *)
Definition update_last_message_id (now : Z) (db : DatabaseManager)
    (channel_username : string) (message_id : Z) : DatabaseManager :=
  {| processed_posts := processed_posts db;
     channel_settings :=
       filter (fun r => negb (channel_key channel_username r))
              (channel_settings db)
       ++ [ {| ChannelSettings.channel_username := channel_username;
               ChannelSettings.last_message_id := message_id;
               ChannelSettings.is_active := true;
               ChannelSettings.added_date := now |} ];
     statistics := statistics db |}.

(** [INSERT OR IGNORE INTO channel_settings (channel_username)]. *)
Definition add_channel (now : Z) (db : DatabaseManager)
    (channel_username : string) : DatabaseManager :=
  if existsb (channel_key channel_username) (channel_settings db)
  then db
  else
    {| processed_posts := processed_posts db;
       channel_settings :=
         channel_settings db
         ++ [ {| ChannelSettings.channel_username := channel_username;
                 ChannelSettings.last_message_id := 0;
                 ChannelSettings.is_active := true;
                 ChannelSettings.added_date := now |} ];
       statistics := statistics db |}.

(** [COALESCE((SELECT col FROM statistics WHERE date = CURRENT_DATE), 0)]:
    a scalar subquery is the first row of its result, NULL when there is
    none. *)
Definition todays (col : Statistics.row -> Z) (today : Z)
    (rows : list Statistics.row) : Z :=
  match fetchone (filter (date_key today) rows) with
  | Some r => col r
  | None => 0
  end.

(** [INSERT OR REPLACE INTO statistics (date, ...)]: the table declares no
    uniqueness on [date] (its only key is the generated [id]), so no row
    ever collides with the new one, and the statement inserts. *)
Definition update_statistics (now : Z) (db : DatabaseManager)
    (posts_processed posts_published posts_filtered : Z) : DatabaseManager :=
  let today := CURRENT_DATE now in
  {| processed_posts := processed_posts db;
     channel_settings := channel_settings db;
     statistics :=
       statistics db
       ++ [ {| Statistics.date := today;
               Statistics.posts_processed :=
                 todays Statistics.posts_processed today (statistics db)
                 + posts_processed;
               Statistics.posts_published :=
                 todays Statistics.posts_published today (statistics db)
                 + posts_published;
               Statistics.posts_filtered :=
                 todays Statistics.posts_filtered today (statistics db)
                 + posts_filtered |} ] |}.

End Database.

(** ** Python control flow: a state monad with exceptions *)

Module Python.

(** What an awaited Telethon call may raise: the rate-limit signal, which
    carries the wait in seconds, or any other [Exception]. *)
Inductive error : Type :=
| FloodWaitError (seconds : Z)
| Exception.

Inductive outcome (A : Type) : Type :=
| Return (a : A)
| Raise (e : error).
Arguments Return {A} a.
Arguments Raise {A} e.

(** A computation over the mutable state [S]: it returns or raises, and
    the state changes made before a [Raise] stay. *)
Definition M (S A : Type) : Type := S -> outcome A * S.

Definition ret {S A : Type} (a : A) : M S A := fun s => (Return a, s).

Definition bind {S A B : Type} (m : M S A) (k : A -> M S B) : M S B :=
  fun s =>
    match m s with
    | (Return a, s') => k a s'
    | (Raise e, s') => (Raise e, s')
    end.

(** [try: m except ... as e: handler e] *)
Definition try_except {S A : Type} (m : M S A) (handler : error -> M S A)
    : M S A :=
  fun s =>
    match m s with
    | (Return a, s') => (Return a, s')
    | (Raise e, s') => handler e s'
    end.

Definition gets {S A : Type} (f : S -> A) : M S A := fun s => (Return (f s), s).

Definition modify {S : Type} (f : S -> S) : M S unit :=
  fun s => (Return tt, f s).

(** The result of a pure sub-computation that may have raised. *)
Definition reraise {S A : Type} (o : outcome A) : M S A := fun s => (o, s).

(** [for x in l: body x]; a [continue] is an early [ret tt] of the body. *)
Fixpoint for_each {S A : Type} (l : list A) (body : A -> M S unit)
    : M S unit :=
  match l with
  | [] => ret tt
  | x :: rest => bind (body x) (fun _ => for_each rest body)
  end.

(** The state a computation leaves. *)
Definition exec {S A : Type} (m : M S A) (s : S) : S := snd (m s).

(** [not l] for a list. *)
Definition is_empty {A : Type} (l : list A) : bool :=
  match l with [] => true | _ :: _ => false end.

End Python.

Import Python.

Notation "x <- m ;; k" := (bind m (fun x => k))
  (at level 61, m at next level, right associativity).
Notation "m ;; k" := (bind m (fun _ => k))
  (at level 61, right associativity).

(** ** config.py *)

Module Config.
Record t : Type := Build
  { TARGET_CHANNEL : string;
    SOURCE_CHANNELS : list string }.
End Config.

(** ** The environment: Telethon and the wall clock *)

Module Telethon.

(** Every field answers the call made when [n] interactions have already
    taken place.  [iter_messages] gives the messages the iterator yields,
    in order, and how it ends once they are consumed: exhausted ([None])
    or raising. *)
Record Environment : Type := Build
  { start : nat -> outcome unit;
    is_user_authorized : nat -> outcome bool;
    get_me : nat -> outcome unit;
    iter_messages : nat -> string -> nat -> list Message.t * option error;
    forward_messages : nat -> string -> Message.t -> string -> outcome unit;
    utcnow : nat -> Z }.

End Telethon.

(** ** telegram_client.py *)

Module Client.

Import Database.

(** [self.stats] *)
Record Stats : Type := BuildStats
  { posts_processed : Z;
    posts_forwarded : Z }.

(** The dictionary [results] of [process_all_channels]. *)
Record Results : Type := BuildResults
  { processed : Z;
    forwarded : Z }.

Inductive event : Type :=
| IterMessages (channel_username : string) (limit : nat)
    (** [client.iter_messages] was called *)
| Retrieved (channel_username : string) (count : nat)
    (** the retrieval loop ended normally with [count] messages kept *)
| Forwarded (target : string) (message_id : Z) (from_peer : string)
    (** [client.forward_messages] returned *)
| ForwardFailed (message_id : Z) (from_peer : string)
    (** [client.forward_messages] raised *)
| Sleep (seconds : Z).
    (** [asyncio.sleep] *)

(** The object [TelegramNewsClient]: its database, [start_time] and
    [stats]; [self.client] is the environment.  [ticks] counts the
    interactions with the environment and [trace] records the effects. *)
Record TelegramNewsClient : Type := Build
  { db : DatabaseManager;
    start_time : option Z;
    stats : Stats;
    ticks : nat;
    trace : list event }.

(** [__init__] *)
Definition init : TelegramNewsClient :=
  {| db := init_database;
     start_time := None;
     stats := {| posts_processed := 0; posts_forwarded := 0 |};
     ticks := 0%nat;
     trace := [] |}.

Definition set_db (f : DatabaseManager -> DatabaseManager)
    (self : TelegramNewsClient) : TelegramNewsClient :=
  {| db := f (db self); start_time := start_time self; stats := stats self;
     ticks := ticks self; trace := trace self |}.

Definition set_start_time (t : option Z) (self : TelegramNewsClient)
    : TelegramNewsClient :=
  {| db := db self; start_time := t; stats := stats self;
     ticks := ticks self; trace := trace self |}.

Definition set_stats (st : Stats) (self : TelegramNewsClient)
    : TelegramNewsClient :=
  {| db := db self; start_time := start_time self; stats := st;
     ticks := ticks self; trace := trace self |}.

Definition set_ticks (n : nat) (self : TelegramNewsClient)
    : TelegramNewsClient :=
  {| db := db self; start_time := start_time self; stats := stats self;
     ticks := n; trace := trace self |}.

Definition log (e : event) (self : TelegramNewsClient) : TelegramNewsClient :=
  {| db := db self; start_time := start_time self; stats := stats self;
     ticks := ticks self; trace := trace self ++ [e] |}.

(** The local variables of [process_all_channels] next to [self]. *)
Record Frame : Type := BuildFrame
  { self_ : TelegramNewsClient;
    results : Results }.

(** A method of [self] called from [process_all_channels]. *)
Definition on_self {A : Type} (m : M TelegramNewsClient A) : M Frame A :=
  fun f =>
    match m (self_ f) with
    | (o, self') => (o, {| self_ := self'; results := results f |})
    end.

Definition set_results (g : Results -> Results) (f : Frame) : Frame :=
  {| self_ := self_ f; results := g (results f) |}.

(** [message.text and not message.text.startswith('/')] *)
Definition has_plain_text (message : Message.t) : bool :=
  match Message.text message with
  | None => false
  | Some EmptyString => false
  | Some (String c _) => negb (Ascii.eqb c "/"%char)
  end.

(** The body of [async for message in ...] of [get_channel_messages], on
    the messages still to be yielded; [messages] is the list built so far
    and [finish] what the iterator does when it has no more to yield. *)
Fixpoint collect (start_time : Z) (yielded : list Message.t)
    (finish : option error) (messages : list Message.t)
    : outcome (list Message.t) :=
  match yielded with
  | [] =>
      match finish with
      | None => Return messages
      | Some e => Raise e
      end
  | message :: rest =>
      match Message.date message with
      | Some d =>
          if start_time <? d then
            if has_plain_text message
            then collect start_time rest finish (messages ++ [message])
            else collect start_time rest finish messages
          else (* d <= start_time: break *)
            Return messages
      | None => collect start_time rest finish messages
      end
  end.

(** [max(msg.id for msg in messages)], on a non-empty list. *)
Definition max_id (first : Message.t) (rest : list Message.t) : Z :=
  fold_left Z.max (map Message.id rest) (Message.id first).

Section Methods.

Variable cfg : Config.t.
Variable env : Telethon.Environment.

(** Consult the environment: the answer for the current count of
    interactions, which then advances. *)
Definition await {A : Type} (oracle : nat -> outcome A)
    : M TelegramNewsClient A :=
  fun self => (oracle (ticks self), set_ticks (S (ticks self)) self).

Definition now : M TelegramNewsClient Z :=
  await (fun n => Return (Telethon.utcnow env n)).

Definition sleep (seconds : Z) : M TelegramNewsClient unit :=
  modify (log (Sleep seconds)).

(** [self.db.add_channel(channel)] *)
Definition register_channel (channel : string) : M TelegramNewsClient unit :=
  t <- now ;;
  modify (set_db (fun d => add_channel t d channel)).

Definition initialize : M TelegramNewsClient bool :=
  try_except
    (await (Telethon.start env) ;;
     authorized <- await (Telethon.is_user_authorized env) ;;
     if negb authorized then ret false
     else
       await (Telethon.get_me env) ;;
       st <- gets start_time ;;
       match st with
       | None => t <- now ;; modify (set_start_time (Some t))
       | Some _ => ret tt
       end ;;
       for_each (Config.SOURCE_CHANNELS cfg) register_channel ;;
       ret true)
    (fun _ => ret false).

Definition get_channel_messages (channel_username : string) (limit : nat)
    : M TelegramNewsClient (list Message.t) :=
  try_except
    (st <- gets start_time ;;
     match st with
     | None => ret []
     | Some t0 =>
         modify (log (IterMessages channel_username limit)) ;;
         it <- await (fun n =>
                 Return (Telethon.iter_messages env n channel_username limit)) ;;
         messages <- reraise (collect t0 (fst it) (snd it) []) ;;
         modify (log (Retrieved channel_username (List.length messages))) ;;
         ret messages
     end)
    (fun e =>
       match e with
       | FloodWaitError seconds => sleep seconds ;; ret []
       | Exception => ret []
       end).

Definition forward_message (message : Message.t) (channel_username : string)
    : M TelegramNewsClient bool :=
  try_except
    (await (fun n => Telethon.forward_messages env n
                       (Config.TARGET_CHANNEL cfg) message channel_username) ;;
     modify (log (Forwarded (Config.TARGET_CHANNEL cfg)
                            (Message.id message) channel_username)) ;;
     t <- now ;;
     modify (set_db (fun d =>
       add_processed_post t d channel_username (Message.id message)
         (match Message.text message with
          | Some (String c s) => String c s
          | _ => "[Медиа сообщение]"
          end)
         (Message.date message) (Some "Переслано") true)) ;;
     modify (fun self => set_stats
       {| posts_processed := posts_processed (stats self) + 1;
          posts_forwarded := posts_forwarded (stats self) + 1 |} self) ;;
     ret true)
    (fun _ =>
       modify (log (ForwardFailed (Message.id message) channel_username)) ;;
       ret false).

Definition test_connection : M TelegramNewsClient bool :=
  try_except
    (await (Telethon.get_me env) ;; ret true)
    (fun _ => ret false).

(** The body of [for message in messages:] in [process_all_channels]. *)
Definition forward_new (channel_username : string) (message : Message.t)
    : M Frame unit :=
  seen <- on_self (gets (fun self =>
            is_post_processed (db self) channel_username
                              (Message.id message))) ;;
  if seen then ret tt (* continue *)
  else
    ok <- on_self (forward_message message channel_username) ;;
    if ok then
      modify (set_results (fun r =>
        {| processed := processed r; forwarded := forwarded r + 1 |})) ;;
      on_self (sleep 1)
    else ret tt.

(** The body of [for channel_username in Config.SOURCE_CHANNELS:], a
    [try] with its handler. *)
Definition process_channel (channel_username : string) : M Frame unit :=
  try_except
    (messages <- on_self (get_channel_messages channel_username 50) ;;
     if is_empty messages then ret tt (* continue *)
     else
       match messages with
       | first :: others =>
           on_self (t <- now ;;
                    modify (set_db (fun d =>
                      update_last_message_id t d channel_username
                                             (max_id first others))))
       | [] => ret tt
       end ;;
       for_each messages (forward_new channel_username) ;;
       modify (set_results (fun r =>
         {| processed := processed r + Z.of_nat (List.length messages);
            forwarded := forwarded r |})) ;;
       on_self (sleep 2))
    (fun _ => ret tt (* continue *)).

Definition process_all_channels : M TelegramNewsClient Results :=
  fun self =>
    match for_each (Config.SOURCE_CHANNELS cfg) process_channel
            {| self_ := self;
               results := {| processed := 0; forwarded := 0 |} |} with
    | (Raise e, f) => (Raise e, self_ f)
    | (Return _, f) =>
        (t <- now ;;
         modify (fun self => set_db (fun d =>
           update_statistics t d (posts_processed (stats self))
                             (posts_forwarded (stats self)) 0) self) ;;
         modify (set_stats {| posts_processed := 0; posts_forwarded := 0 |}) ;;
         ret (results f)) (self_ f)
    end.

(** [NewsScheduler._health_check] of scheduler.py, as far as it touches
    the client: the probe of the database file leaves no trace. *)
Definition health_check : M TelegramNewsClient unit :=
  try_except
    (is_connected <- test_connection ;;
     if negb is_connected then initialize ;; ret tt else ret tt)
    (fun _ => ret tt).

End Methods.

End Client.

(** ** The life of a process: sequences of calls on the client *)

Module Lifecycle.

Import Client.

(** The methods of the client that main.py and scheduler.py invoke, and the
    liveness check. *)
Inductive call : Type :=
| Initialize
| TestConnection
| ProcessAllChannels
| HealthCheck.

Definition perform (cfg : Config.t) (env : Telethon.Environment) (c : call)
    : M TelegramNewsClient unit :=
  match c with
  | Initialize => initialize cfg env ;; ret tt
  | TestConnection => test_connection env ;; ret tt
  | ProcessAllChannels => process_all_channels cfg env ;; ret tt
  | HealthCheck => health_check cfg env
  end.

Definition run (cfg : Config.t) (env : Telethon.Environment)
    (calls : list call) : M TelegramNewsClient unit :=
  for_each calls (perform cfg env).

End Lifecycle.

(** ** Vocabulary of the properties *)

Module Properties.

Import Client.

(** The candidate test in the words of the specification: the timestamp is
    strictly after the run boundary, and the text is present, non-empty
    and does not begin with the command prefix. *)
Definition retained (boundary : Z) (m : Message.t) : bool :=
  match Message.date m with
  | Some d => boundary <? d
  | None => false
  end
  && match Message.text m with
     | Some s => negb (s =? "")%string && negb (String.prefix "/" s)
     | None => false
     end.

(** The timestamp is at or before the run boundary. *)
Definition at_or_before (boundary : Z) (m : Message.t) : bool :=
  match Message.date m with
  | Some d => d <=? boundary
  | None => false
  end.

(** A batch delivered newest first: no message is older than one that
    comes after it. *)
Definition no_older (a b : Message.t) : Prop :=
  forall da db, Message.date a = Some da -> Message.date b = Some db -> db <= da.

Definition newest_first (batch : list Message.t) : Prop :=
  StronglySorted no_older batch.

(** A message of the spec's scenarios. *)
Definition message (id : Z) (text : string) (date : Z) : Message.t :=
  {| Message.id := id; Message.text := Some text; Message.date := Some date |}.



(** An established run boundary is still the boundary afterwards. *)
Definition boundary_kept (s s' : TelegramNewsClient) : Prop :=
  forall t, start_time s = Some t -> start_time s' = Some t.

(** A relation on clients, read on the frames of a pass. *)
Definition on_frames (R : TelegramNewsClient -> TelegramNewsClient -> Prop)
    (f f' : Frame) : Prop :=
  R (self_ f) (self_ f').

(** The state in which a successful [forward_message] ends. *)
Definition after_forward (cfg : Config.t) (env : Telethon.Environment)
    (m : Message.t) (ch : string) (s : TelegramNewsClient)
    : TelegramNewsClient :=
  {| db := Database.add_processed_post
             (Telethon.utcnow env (S (ticks s))) (db s)
             ch (Message.id m)
             (match Message.text m with
              | Some (String c r) => String c r
              | _ => "[Медиа сообщение]"
              end)
             (Message.date m) (Some "Переслано") true;
     start_time := start_time s;
     stats := {| posts_processed := posts_processed (stats s) + 1;
                 posts_forwarded := posts_forwarded (stats s) + 1 |};
     ticks := S (S (ticks s));
     trace := trace s ++ [Forwarded (Config.TARGET_CHANNEL cfg)
                                    (Message.id m) ch] |}.

(** The state after a retrieval that kept [first :: others] and the
    watermark update that follows it. *)
Definition after_retrieval (env : Telethon.Environment) (ch : string)
    (first : Message.t) (others : list Message.t) (s : TelegramNewsClient)
    : TelegramNewsClient :=
  {| db := Database.update_last_message_id
             (Telethon.utcnow env (S (ticks s))) (db s)
             ch (max_id first others);
     start_time := start_time s;
     stats := stats s;
     ticks := S (S (ticks s));
     trace := (trace s ++ [IterMessages ch 50])
                ++ [Retrieved ch (List.length (first :: others))] |}.

(** The end of a pass: the counters of [self.stats] go to the statistics
    table and are reset. *)
Definition finish_pass (env : Telethon.Environment)
    (s : TelegramNewsClient) : TelegramNewsClient :=
  {| db := Database.update_statistics (Telethon.utcnow env (ticks s)) (db s)
             (posts_processed (stats s)) (posts_forwarded (stats s)) 0;
     start_time := start_time s;
     stats := {| posts_processed := 0; posts_forwarded := 0 |};
     ticks := S (ticks s);
     trace := trace s |}.

(** The trace only grows. *)
Definition extends (s s' : TelegramNewsClient) : Prop :=
  exists delta, trace s' = trace s ++ delta.

(** The channels whose retrieval was invoked, in the order of the calls. *)
Definition retrievals (tr : list event) : list string :=
  flat_map (fun e => match e with
                     | IterMessages ch _ => [ch]
                     | _ => []
                     end) tr.

(** The boundary is untouched and no retrieval was invoked. *)
Definition no_retrieval (s s' : TelegramNewsClient) : Prop :=
  start_time s' = start_time s
  /\ retrievals (trace s') = retrievals (trace s).

(** A transport call was made to forward message [id] of channel [ch]. *)
Definition is_attempt_of (ch : string) (id : Z) (e : event) : bool :=
  match e with
  | Forwarded _ i from_peer => (from_peer =? ch)%string && (i =? id)
  | ForwardFailed i from_peer => (from_peer =? ch)%string && (i =? id)
  | _ => false
  end.

(** The state in which a failed [forward_message] ends. *)
Definition after_failure (m : Message.t) (ch : string)
    (s : TelegramNewsClient) : TelegramNewsClient :=
  {| db := db s;
     start_time := start_time s;
     stats := stats s;
     ticks := S (ticks s);
     trace := trace s ++ [ForwardFailed (Message.id m) ch] |}.

(** The state in which a retrieval cut short by the rate limit ends. *)
Definition after_flood_wait (ch : string) (seconds : Z)
    (s : TelegramNewsClient) : TelegramNewsClient :=
  {| db := db s;
     start_time := start_time s;
     stats := stats s;
     ticks := S (ticks s);
     trace := (trace s ++ [IterMessages ch 50]) ++ [Sleep seconds] |}.

(** The pacing as the specification words it: between the retrievals of
    two channels of a pass lies a delay of two seconds. *)
Definition paced (tr : list event) : Prop :=
  forall pre c1 l1 mid c2 l2 post,
    tr = pre ++ IterMessages c1 l1 :: mid ++ IterMessages c2 l2 :: post ->
    In (Sleep 2) mid.

(** The candidates counted by the retrievals of a trace, and its
    successful forwards. *)
Definition retrieved_total (tr : list event) : Z :=
  fold_right (fun e acc => match e with
                           | Retrieved _ n => Z.of_nat n + acc
                           | _ => acc
                           end) 0 tr.

Definition forwarded_total (tr : list event) : Z :=
  fold_right (fun e acc => match e with
                           | Forwarded _ _ _ => 1 + acc
                           | _ => acc
                           end) 0 tr.

(** What a stretch of a pass does to the counts: the events it adds to the
    trace account for the changes of [results] and of [self.stats], and
    the statistics table is not written. *)
Definition accounted (f f' : Frame) : Prop :=
  exists delta,
    trace (self_ f') = trace (self_ f) ++ delta
    /\ processed (results f') = processed (results f) + retrieved_total delta
    /\ forwarded (results f') = forwarded (results f) + forwarded_total delta
    /\ posts_processed (stats (self_ f'))
       = posts_processed (stats (self_ f)) + forwarded_total delta
    /\ posts_forwarded (stats (self_ f'))
       = posts_forwarded (stats (self_ f)) + forwarded_total delta
    /\ Database.statistics (db (self_ f'))
       = Database.statistics (db (self_ f)).

(** The accounting as the specification words it: the counts the pass
    returns are the counts it writes to the daily counters, with a
    filtered count of zero. *)
Definition accounting_as_specified (cfg : Config.t)
    (env : Telethon.Environment) (s : TelegramNewsClient) : Prop :=
  forall res s',
    process_all_channels cfg env s = (Return res, s') ->
    Database.statistics (db s')
    = Database.statistics
        (Database.update_statistics (Telethon.utcnow env (pred (ticks s')))
           (db s) (processed res) (forwarded res) 0).

(** The candidates a retrieval made at interaction [n] keeps. *)
Definition candidates (env : Telethon.Environment) (boundary : Z)
    (ch : string) (n : nat) : list Message.t :=
  match collect boundary (fst (Telethon.iter_messages env n ch 50))
                (snd (Telethon.iter_messages env n ch 50)) [] with
  | Return ms => ms
  | Raise _ => []
  end.

(** The greatest id of a list of messages, if it has one. *)
Definition top_id (ms : list Message.t) : option Z :=
  match ms with
  | [] => None
  | first :: others => Some (max_id first others)
  end.

(** The transport never takes back the newest candidate of a channel: of
    two retrievals that keep something, the later keeps an id at least as
    great. *)
Definition top_never_drops (env : Telethon.Environment) (boundary : Z)
    (ch : string) : Prop :=
  forall n n' x x',
    (n <= n')%nat ->
    top_id (candidates env boundary ch n) = Some x ->
    top_id (candidates env boundary ch n') = Some x' ->
    x <= x'.

(** The stored watermark is not above what a retrieval from now on keeps. *)
Definition watermark_below (env : Telethon.Environment) (boundary : Z)
    (ch : string) (s : TelegramNewsClient) : Prop :=
  forall n x,
    (ticks s <= n)%nat ->
    top_id (candidates env boundary ch n) = Some x ->
    Database.get_last_message_id (db s) ch <= x.

(** The watermark of [ch] does not regress, under the boundary [boundary]
    and the two conditions above. *)
Definition watermark_advances (env : Telethon.Environment) (boundary : Z)
    (ch : string) (s s' : TelegramNewsClient) : Prop :=
  start_time s = Some boundary ->
  watermark_below env boundary ch s ->
  start_time s' = Some boundary
  /\ watermark_below env boundary ch s'
  /\ (ticks s <= ticks s')%nat
  /\ Database.get_last_message_id (db s) ch
     <= Database.get_last_message_id (db s') ch.

(** The monotonic watermark as the specification words it: over every
    sequence of calls the stored watermark never regresses. *)
Definition watermark_never_regresses (cfg : Config.t)
    (env : Telethon.Environment) (s : TelegramNewsClient) (ch : string)
    : Prop :=
  forall calls1 calls2,
    Database.get_last_message_id
      (db (exec (Lifecycle.run cfg env calls1) s)) ch
    <= Database.get_last_message_id
         (db (exec (Lifecycle.run cfg env (calls1 ++ calls2)) s)) ch.

(** The watermark of [ch] is left as it was. *)
Definition watermark_kept (ch : string) (s s' : TelegramNewsClient) : Prop :=
  Database.get_last_message_id (db s') ch
  = Database.get_last_message_id (db s) ch.

End Properties.

(** ** Concrete runs *)

Module Scenario.

Import Client Properties.

(** A transport that authorises the session and otherwise answers from the
    given [iter_messages] and [forward_messages]; the wall clock shows
    [1000 + n] seconds at the [n]-th interaction. *)
Definition transport
    (iter : nat -> string -> nat -> list Message.t * option error)
    (forward : nat -> string -> Message.t -> string -> outcome unit)
    : Telethon.Environment :=
  {| Telethon.start := fun _ => Return tt;
     Telethon.is_user_authorized := fun _ => Return true;
     Telethon.get_me := fun _ => Return tt;
     Telethon.iter_messages := iter;
     Telethon.forward_messages := forward;
     Telethon.utcnow := fun n => 1000 + Z.of_nat n |}.

Definition two_channels : Config.t :=
  {| Config.TARGET_CHANNEL := "@target";
     Config.SOURCE_CHANNELS := ["@a"; "@b"] |}.

Definition one_channel : Config.t :=
  {| Config.TARGET_CHANNEL := "@target";
     Config.SOURCE_CHANNELS := ["@a"] |}.

(** Nothing new anywhere. *)
Definition quiet : Telethon.Environment :=
  transport (fun _ _ _ => ([], None)) (fun _ _ _ _ => Return tt).

(** The scenario of the specification: three messages in "@a" around the
    boundary [T0], and a rate limit of 30 seconds on "@b". *)
Definition spec_batch (T0 : Z) : list Message.t :=
  [message 105 "hi" (T0 + 5); message 104 "/cmd" (T0 + 3);
   message 103 "old" (T0 - 1)].

Definition spec_transport (T0 : Z) : Telethon.Environment :=
  transport
    (fun _ ch _ => if (ch =? "@a")%string then (spec_batch T0, None)
                   else ([], Some (FloodWaitError 30)))
    (fun _ _ _ _ => Return tt).

(** Messages 105 and 104 are new in "@a" and stay there; forwarding
    works. *)
Definition steady : Telethon.Environment :=
  transport
    (fun _ _ _ => ([message 105 "hi" 2005; message 104 "yo" 2003], None))
    (fun _ _ _ _ => Return tt).

(** Message 105 is new in "@a", and forwarding is refused. *)
Definition refusing : Telethon.Environment :=
  transport
    (fun _ _ _ => ([message 105 "hi" 2005; message 104 "yo" 2003], None))
    (fun _ _ _ _ => Raise Exception).

(** Message 105 of "@a" is gone from the channel after the eighth
    interaction; message 104, older, is still there. *)
Definition deleting : Telethon.Environment :=
  transport
    (fun n _ _ =>
       if (n <? 8)%nat
       then ([message 105 "hi" 2005; message 104 "yo" 2003], None)
       else ([message 104 "yo" 2003], None))
    (fun _ _ _ _ => Return tt).

(** The client once [initialize] has returned. *)
Definition started (cfg : Config.t) (env : Telethon.Environment)
    : TelegramNewsClient :=
  exec (initialize cfg env) init.

(** A client with the run boundary [T0] and an empty database. *)
Definition fresh (T0 : Z) : TelegramNewsClient :=
  set_start_time (Some T0) init.

(** A [channel_settings] table with "@a" deactivated (as by
    [remove_channel] of utils.py) and registered at instant 100. *)
Definition settings_db : Database.DatabaseManager :=
  {| Database.processed_posts := [];
     Database.channel_settings :=
       [ {| Database.ChannelSettings.channel_username := "@a";
            Database.ChannelSettings.last_message_id := 7;
            Database.ChannelSettings.is_active := false;
            Database.ChannelSettings.added_date := 100 |};
         {| Database.ChannelSettings.channel_username := "@b";
            Database.ChannelSettings.last_message_id := 9;
            Database.ChannelSettings.is_active := true;
            Database.ChannelSettings.added_date := 100 |} ];
     Database.statistics := [] |}.

End Scenario.

(** ** Maintenance and the command line: scheduler.py, utils.py, main.py *)

Module Maintenance.

Import Database.

(** [datetime('now', '-30 days')] *)
Definition cutoff (now : Z) : Z := now - 30 * 86400.

(** [WHERE processed_date < datetime('now', '-30 days')] *)
Definition is_stale (now : Z) (r : ProcessedPosts.row) : bool :=
  ProcessedPosts.processed_date r <? cutoff now.

(** [NewsScheduler._cleanup_database] of scheduler.py: the [DELETE] and
    [cursor.rowcount]. *)
Definition cleanup_database (now : Z) (db : DatabaseManager)
    : DatabaseManager * Z :=
  ({| processed_posts :=
        filter (fun r => negb (is_stale now r)) (processed_posts db);
      channel_settings := channel_settings db;
      statistics := statistics db |},
   Z.of_nat (List.length (filter (is_stale now) (processed_posts db)))).

(** [UPDATE channel_settings SET ... WHERE channel_username = ?] *)
Definition update_where (channel_username : string)
    (set : ChannelSettings.row -> ChannelSettings.row)
    (rows : list ChannelSettings.row) : list ChannelSettings.row :=
  map (fun r => if channel_key channel_username r then set r else r) rows.

(** [NewsSnifferUtils.reset_channel] of utils.py *)
Definition reset_channel (db : DatabaseManager) (channel_username : string)
    : DatabaseManager :=
  {| processed_posts :=
       filter (fun r => negb (ProcessedPosts.channel_username r
                              =? channel_username)%string)
              (processed_posts db);
     channel_settings :=
       update_where channel_username
         (fun r => {| ChannelSettings.channel_username :=
                        ChannelSettings.channel_username r;
                      ChannelSettings.last_message_id := 0;
                      ChannelSettings.is_active := ChannelSettings.is_active r;
                      ChannelSettings.added_date := ChannelSettings.added_date r |})
         (channel_settings db);
     statistics := statistics db |}.

(** [NewsSnifferUtils.remove_channel] of utils.py *)
Definition remove_channel (db : DatabaseManager) (channel_username : string)
    : DatabaseManager :=
  {| processed_posts := processed_posts db;
     channel_settings :=
       update_where channel_username
         (fun r => {| ChannelSettings.channel_username :=
                        ChannelSettings.channel_username r;
                      ChannelSettings.last_message_id :=
                        ChannelSettings.last_message_id r;
                      ChannelSettings.is_active := false;
                      ChannelSettings.added_date := ChannelSettings.added_date r |})
         (channel_settings db);
     statistics := statistics db |}.

(** Two of the counts of [show_status] of main.py. *)
Definition total_posts (db : DatabaseManager) : nat :=
  List.length (processed_posts db).

Definition published_posts (db : DatabaseManager) : nat :=
  List.length (filter ProcessedPosts.is_published (processed_posts db)).

(** The active flag of a channel, as [list_channels] of utils.py shows
    it; [None] when the channel has no row. *)
Definition is_active (db : DatabaseManager) (channel_username : string)
    : option bool :=
  option_map ChannelSettings.is_active
    (fetchone (filter (channel_key channel_username) (channel_settings db))).

End Maintenance.

(** ** scheduler.py: one collection cycle *)

Module Scheduler.

Import Client.

(** [NewsScheduler.run_news_collection]; the two readings of the clock and
    [_send_statistics_if_needed] only feed the log. *)
Definition run_news_collection (cfg : Config.t) (env : Telethon.Environment)
    : M TelegramNewsClient unit :=
  try_except
    (now env ;;
     connected <- test_connection env ;;
     if negb connected then ret tt (* return *)
     else
       process_all_channels cfg env ;;
       now env ;;
       ret tt)
    (fun _ => ret tt).

End Scheduler.

(** ** Vocabulary of the further properties *)

Module Invariants.

Import Client Properties.

(** The key of a processed record. *)
Definition post_id (r : Database.ProcessedPosts.row) : string * Z :=
  (Database.ProcessedPosts.channel_username r,
   Database.ProcessedPosts.message_id r).

(** The two UNIQUE constraints of the schema. *)
Definition unique_keys (db : Database.DatabaseManager) : Prop :=
  NoDup (map post_id (Database.processed_posts db))
  /\ NoDup (map Database.ChannelSettings.channel_username
                (Database.channel_settings db)).

Definition keeps_unique_keys (s s' : TelegramNewsClient) : Prop :=
  unique_keys (db s) -> unique_keys (db s').

(** A channel has a row in [channel_settings]. *)
Definition registered (db : Database.DatabaseManager) (ch : string) : bool :=
  existsb (Database.channel_key ch) (Database.channel_settings db).

(** Rows as [add_channel] inserts them into [db]: each is the row of a
    channel that has none in [db], with the defaults of the schema, and
    no two are of the same channel. *)
Definition registrations (db : Database.DatabaseManager)
    (added : list Database.ChannelSettings.row) : Prop :=
  Forall (fun r =>
            registered db (Database.ChannelSettings.channel_username r)
            = false
            /\ Database.ChannelSettings.last_message_id r = 0
            /\ Database.ChannelSettings.is_active r = true) added
  /\ NoDup (map Database.ChannelSettings.channel_username added).

(** Nothing of the pipeline's state is touched but the registrations and
    the count of interactions: same records, same watermarks, same
    statistics, same counters, same boundary once set, same trace; and
    [channel_settings] keeps every row as it is, in its place, the rows
    that come after them being registrations. *)
Definition only_registers (s s' : TelegramNewsClient) : Prop :=
  (forall ch id, Database.is_post_processed (db s') ch id
                 = Database.is_post_processed (db s) ch id)
  /\ (forall ch, Database.get_last_message_id (db s') ch
                 = Database.get_last_message_id (db s) ch)
  /\ Database.processed_posts (db s') = Database.processed_posts (db s)
  /\ Database.statistics (db s') = Database.statistics (db s)
  /\ stats s' = stats s
  /\ trace s' = trace s
  /\ boundary_kept s s'
  /\ exists added,
       Database.channel_settings (db s')
       = Database.channel_settings (db s) ++ added
       /\ registrations (db s) added.

(** Two clients that differ at most in [channel_settings]. *)
Definition same_but_settings (s1 s2 : TelegramNewsClient) : Prop :=
  Database.processed_posts (db s1) = Database.processed_posts (db s2)
  /\ Database.statistics (db s1) = Database.statistics (db s2)
  /\ start_time s1 = start_time s2
  /\ stats s1 = stats s2
  /\ ticks s1 = ticks s2
  /\ trace s1 = trace s2.

Definition same_but_settings_frames (f1 f2 : Frame) : Prop :=
  same_but_settings (self_ f1) (self_ f2) /\ results f1 = results f2.

(** Every record is marked published, with the annotation of a forward. *)
Definition all_published (db : Database.DatabaseManager) : Prop :=
  Forall (fun r => Database.ProcessedPosts.is_published r = true
                   /\ Database.ProcessedPosts.summary r = Some "Переслано")
         (Database.processed_posts db).

Definition keeps_all_published (s s' : TelegramNewsClient) : Prop :=
  all_published (db s) -> all_published (db s').

(** In a stretch of trace, every successful forward is followed at once
    by the delay of one second. *)
Fixpoint forwards_paced (tr : list event) : bool :=
  match tr with
  | [] => true
  | Forwarded _ _ _ :: rest =>
      match rest with
      | Sleep 1 :: rest' => forwards_paced rest'
      | _ => false
      end
  | _ :: rest => forwards_paced rest
  end.

Definition paced_forwards (f f' : Frame) : Prop :=
  exists delta,
    trace (self_ f') = trace (self_ f) ++ delta
    /\ forwards_paced delta = true.

(** The counts of a pass stay consistent: [forwarded] grows by no more
    than [processed], and neither shrinks. *)
Definition counts_bounded (f f' : Frame) : Prop :=
  0 <= forwarded (results f') - forwarded (results f)
    <= processed (results f') - processed (results f).

(** One more interaction with the environment. *)
Definition set_ticks_next (s : TelegramNewsClient) : TelegramNewsClient :=
  set_ticks (S (ticks s)) s.

End Invariants.

(** ** Further concrete runs *)

Module MoreScenarios.

Import Client Properties.

(** The session starts and is authorised, but [get_me] fails from the
    second interaction on: the connection is lost. *)
Definition offline : Telethon.Environment :=
  {| Telethon.start := fun _ => Return tt;
     Telethon.is_user_authorized := fun _ => Return true;
     Telethon.get_me := fun _ => Raise Exception;
     Telethon.iter_messages := fun _ _ _ => ([], None);
     Telethon.forward_messages := fun _ _ _ _ => Return tt;
     Telethon.utcnow := fun n => 1000 + Z.of_nat n |}.

(** The client of the steady scenario after [remove_channel] of "@a". *)
Definition deactivated : TelegramNewsClient :=
  set_db (fun d => Maintenance.remove_channel d "@a")
         (Scenario.started Scenario.one_channel Scenario.steady).

End MoreScenarios.

(** ** database.py with its handlers

    Every method of [DatabaseManager] opens the file anew and runs its one
    statement inside [try: ... except sqlite3.Error]: when the statement
    does not go through, the handler logs, and the method answers its
    default or returns without having written.  [reachable] says whether
    the statement of the call goes through. *)

Module Store.

Import Database.

(** [except sqlite3.Error: ...; return False] *)
Definition is_post_processed (reachable : bool) (db : DatabaseManager)
    (channel_username : string) (message_id : Z) : bool :=
  if reachable
  then Database.is_post_processed db channel_username message_id
  else false.

(** [except sqlite3.Error: logging.error(...)]: nothing is written and
    nothing is raised to the caller. *)
Definition add_processed_post (reachable : bool) (now : Z)
    (db : DatabaseManager) (channel_username : string) (message_id : Z)
    (message_text : string) (post_date : option Z) (summary : option string)
    (is_published : bool) : DatabaseManager :=
  if reachable
  then Database.add_processed_post now db channel_username message_id
         message_text post_date summary is_published
  else db.

Definition update_last_message_id (reachable : bool) (now : Z)
    (db : DatabaseManager) (channel_username : string) (message_id : Z)
    : DatabaseManager :=
  if reachable
  then Database.update_last_message_id now db channel_username message_id
  else db.

Definition add_channel (reachable : bool) (now : Z) (db : DatabaseManager)
    (channel_username : string) : DatabaseManager :=
  if reachable then Database.add_channel now db channel_username else db.

Definition update_statistics (reachable : bool) (now : Z)
    (db : DatabaseManager)
    (posts_processed posts_published posts_filtered : Z) : DatabaseManager :=
  if reachable
  then Database.update_statistics now db posts_processed posts_published
         posts_filtered
  else db.

End Store.

(** ** The client on a database file that may fail and that others write

    The methods of [TelegramNewsClient] once more, each call on [self.db]
    going through its handler, next to the maintenance operations of
    scheduler.py and utils.py, which act on the same file.  [sqlite n] says
    whether the file can be reached when [n] interactions with the
    environment have taken place. *)

Module Degraded.

Import Database Client.

(** What is done to the pipeline's state: a call on the client, or one of
    the maintenance operations. *)
Inductive operation : Type :=
| Call (c : Lifecycle.call)
| CleanupDatabase
    (** [NewsScheduler._cleanup_database], [cleanup_old_posts()] *)
| ResetChannel (channel_username : string)
| RemoveChannel (channel_username : string).

Section Methods.

Variable cfg : Config.t.
Variable env : Telethon.Environment.
Variable sqlite : nat -> bool.

Definition reachable : M TelegramNewsClient bool :=
  gets (fun self => sqlite (ticks self)).

Definition register_channel (channel : string) : M TelegramNewsClient unit :=
  t <- now env ;;
  up <- reachable ;;
  modify (set_db (fun d => Store.add_channel up t d channel)).

Definition initialize : M TelegramNewsClient bool :=
  try_except
    (await (Telethon.start env) ;;
     authorized <- await (Telethon.is_user_authorized env) ;;
     if negb authorized then ret false
     else
       await (Telethon.get_me env) ;;
       st <- gets start_time ;;
       match st with
       | None => t <- now env ;; modify (set_start_time (Some t))
       | Some _ => ret tt
       end ;;
       for_each (Config.SOURCE_CHANNELS cfg) register_channel ;;
       ret true)
    (fun _ => ret false).

(** The write of the record may be dropped by the handler of
    [add_processed_post]; [forward_message] goes on and returns True. *)
Definition forward_message (message : Message.t) (channel_username : string)
    : M TelegramNewsClient bool :=
  try_except
    (await (fun n => Telethon.forward_messages env n
                       (Config.TARGET_CHANNEL cfg) message channel_username) ;;
     modify (log (Forwarded (Config.TARGET_CHANNEL cfg)
                            (Message.id message) channel_username)) ;;
     t <- now env ;;
     up <- reachable ;;
     modify (set_db (fun d =>
       Store.add_processed_post up t d channel_username (Message.id message)
         (match Message.text message with
          | Some (String c s) => String c s
          | _ => "[Медиа сообщение]"
          end)
         (Message.date message) (Some "Переслано") true)) ;;
     modify (fun self => set_stats
       {| posts_processed := posts_processed (stats self) + 1;
          posts_forwarded := posts_forwarded (stats self) + 1 |} self) ;;
     ret true)
    (fun _ =>
       modify (log (ForwardFailed (Message.id message) channel_username)) ;;
       ret false).

Definition forward_new (channel_username : string) (message : Message.t)
    : M Frame unit :=
  seen <- on_self (up <- reachable ;;
                   gets (fun self =>
                     Store.is_post_processed up (db self) channel_username
                                             (Message.id message))) ;;
  if seen then ret tt (* continue *)
  else
    ok <- on_self (forward_message message channel_username) ;;
    if ok then
      modify (set_results (fun r =>
        {| processed := processed r; forwarded := forwarded r + 1 |})) ;;
      on_self (sleep 1)
    else ret tt.

Definition process_channel (channel_username : string) : M Frame unit :=
  try_except
    (messages <- on_self (get_channel_messages env channel_username 50) ;;
     if is_empty messages then ret tt (* continue *)
     else
       match messages with
       | first :: others =>
           on_self (t <- now env ;;
                    up <- reachable ;;
                    modify (set_db (fun d =>
                      Store.update_last_message_id up t d channel_username
                                                   (max_id first others))))
       | [] => ret tt
       end ;;
       for_each messages (forward_new channel_username) ;;
       modify (set_results (fun r =>
         {| processed := processed r + Z.of_nat (List.length messages);
            forwarded := forwarded r |})) ;;
       on_self (sleep 2))
    (fun _ => ret tt (* continue *)).

Definition process_all_channels : M TelegramNewsClient Results :=
  fun self =>
    match for_each (Config.SOURCE_CHANNELS cfg) process_channel
            {| self_ := self;
               results := {| processed := 0; forwarded := 0 |} |} with
    | (Raise e, f) => (Raise e, self_ f)
    | (Return _, f) =>
        (t <- now env ;;
         up <- reachable ;;
         modify (fun self => set_db (fun d =>
           Store.update_statistics up t d (posts_processed (stats self))
                                   (posts_forwarded (stats self)) 0) self) ;;
         modify (set_stats {| posts_processed := 0; posts_forwarded := 0 |}) ;;
         ret (results f)) (self_ f)
    end.

Definition health_check : M TelegramNewsClient unit :=
  try_except
    (is_connected <- test_connection env ;;
     if negb is_connected then initialize ;; ret tt else ret tt)
    (fun _ => ret tt).

(** The purge of scheduler.py ([_cleanup_database]) and of utils.py
    ([cleanup_old_posts] with its default of 30 days): the [DELETE] inside
    [try: ... except]; [datetime('now')] reads the clock. *)
Definition cleanup_database : M TelegramNewsClient unit :=
  t <- now env ;;
  up <- reachable ;;
  modify (set_db (fun d =>
    if up then fst (Maintenance.cleanup_database t d) else d)).

(** [NewsSnifferUtils.reset_channel] inside its [try: ... except]. *)
Definition reset_channel (channel_username : string)
    : M TelegramNewsClient unit :=
  up <- reachable ;;
  modify (set_db (fun d =>
    if up then Maintenance.reset_channel d channel_username else d)).

(** [NewsSnifferUtils.remove_channel] inside its [try: ... except]. *)
Definition remove_channel (channel_username : string)
    : M TelegramNewsClient unit :=
  up <- reachable ;;
  modify (set_db (fun d =>
    if up then Maintenance.remove_channel d channel_username else d)).

Definition perform (o : operation) : M TelegramNewsClient unit :=
  match o with
  | Call Lifecycle.Initialize => initialize ;; ret tt
  | Call Lifecycle.TestConnection => test_connection env ;; ret tt
  | Call Lifecycle.ProcessAllChannels => process_all_channels ;; ret tt
  | Call Lifecycle.HealthCheck => health_check
  | CleanupDatabase => cleanup_database
  | ResetChannel channel_username => reset_channel channel_username
  | RemoveChannel channel_username => remove_channel channel_username
  end.

Definition run (operations : list operation) : M TelegramNewsClient unit :=
  for_each operations perform.

End Methods.

End Degraded.

(** ** Vocabulary of the retention of processed records *)

Module Retention.

Import Client Properties.







End Retention.

(** ** Concrete runs with maintenance and outages *)

Module Outages.

Import Client Properties.





End Outages.

Import Database Client Lifecycle Properties.

(** * Equations of the methods *)

Section Equations.

Variable cfg : Config.t.
Variable env : Telethon.Environment.

Lemma get_channel_messages_unset (ch : string) (limit : nat)
    (s : TelegramNewsClient) :
  start_time s = None ->
  get_channel_messages env ch limit s = (Return [], s).
Proof.
  intros H. unfold get_channel_messages, try_except, bind, gets.
  rewrite H. reflexivity.
Qed.

Lemma get_channel_messages_set (ch : string) (limit : nat)
    (s : TelegramNewsClient) (t0 : Z) :
  start_time s = Some t0 ->
  get_channel_messages env ch limit s =
  let s1 := set_ticks (S (ticks s)) (log (IterMessages ch limit) s) in
  let it := Telethon.iter_messages env (ticks s) ch limit in
  match collect t0 (fst it) (snd it) [] with
  | Return ms => (Return ms, log (Retrieved ch (List.length ms)) s1)
  | Raise (FloodWaitError seconds) => (Return [], log (Sleep seconds) s1)
  | Raise Exception => (Return [], s1)
  end.
Proof.
  intros H. unfold get_channel_messages, try_except, bind, gets.
  rewrite H. cbn.
  destruct (collect t0 _ _ []) as [ms | [secs | ]]; reflexivity.
Qed.

Lemma forward_message_eq (m : Message.t) (ch : string)
    (s : TelegramNewsClient) :
  forward_message cfg env m ch s =
  match Telethon.forward_messages env (ticks s) (Config.TARGET_CHANNEL cfg) m ch with
  | Return _ =>
      (Return true,
       {| db := add_processed_post (Telethon.utcnow env (S (ticks s))) (db s)
                  ch (Message.id m)
                  (match Message.text m with
                   | Some (String c r) => String c r
                   | _ => "[Медиа сообщение]"
                   end)
                  (Message.date m) (Some "Переслано") true;
          start_time := start_time s;
          stats := {| posts_processed := posts_processed (stats s) + 1;
                      posts_forwarded := posts_forwarded (stats s) + 1 |};
          ticks := S (S (ticks s));
          trace := trace s ++ [Forwarded (Config.TARGET_CHANNEL cfg)
                                         (Message.id m) ch] |})
  | Raise _ =>
      (Return false,
       {| db := db s; start_time := start_time s; stats := stats s;
          ticks := S (ticks s);
          trace := trace s ++ [ForwardFailed (Message.id m) ch] |})
  end.
Proof.
  unfold forward_message, try_except, bind, await. cbn.
  destruct (Telethon.forward_messages env _ _ _ _); reflexivity.
Qed.

End Equations.

(** * Loops *)

Section ForEach.

Context {S A : Type}.
Variable body : A -> M S unit.

Lemma returns_exec (m : M S unit) (s : S) :
  fst (m s) = Return tt -> m s = (Return tt, exec m s).
Proof.
  unfold exec. destruct (m s) as [o s']. cbn. intros ->. reflexivity.
Qed.

Lemma for_each_cons (x : A) (l : list A) (s : S) :
  fst (body x s) = Return tt ->
  for_each (x :: l) body s = for_each l body (exec (body x) s).
Proof.
  intros H. cbn [for_each]. unfold bind. rewrite (returns_exec _ _ H).
  reflexivity.
Qed.

(** A loop whose body always returns runs to its end, and whatever
    relation each iteration maintains holds across the loop. *)
Lemma for_each_ind (R : S -> S -> Prop) (l : list A) :
  (forall s, R s s) ->
  (forall s1 s2 s3, R s1 s2 -> R s2 s3 -> R s1 s3) ->
  (forall x s, In x l ->
     fst (body x s) = Return tt /\ R s (exec (body x) s)) ->
  forall s,
    fst (for_each l body s) = Return tt /\ R s (exec (for_each l body) s).
Proof.
  intros Hrefl Htrans. induction l as [| x l IH]; intros Hbody s.
  - split; [reflexivity | apply Hrefl].
  - destruct (Hbody x s (or_introl eq_refl)) as [Hret Hstep].
    unfold exec. rewrite (for_each_cons _ _ _ Hret).
    destruct (IH (fun y s' Hy => Hbody y s' (or_intror Hy))
                 (exec (body x) s)) as [Hret' Hrest].
    split; [exact Hret' |]. eapply Htrans; [exact Hstep | exact Hrest].
Qed.

Lemma for_each_app (l1 l2 : list A) (s : S) :
  (forall x s', In x l1 -> fst (body x s') = Return tt) ->
  for_each (l1 ++ l2) body s = for_each l2 body (exec (for_each l1 body) s).
Proof.
  revert s. induction l1 as [| x l1 IH]; intros s Hbody.
  - reflexivity.
  - cbn [app]. rewrite !for_each_cons by (apply Hbody; left; reflexivity).
    rewrite IH by (intros y s' Hy; apply Hbody; right; exact Hy).
    unfold exec at 3.
    rewrite for_each_cons by (apply Hbody; left; reflexivity).
    reflexivity.
Qed.

End ForEach.

Section Bodies.

Variable cfg : Config.t.
Variable env : Telethon.Environment.

Lemma get_channel_messages_returns (ch : string) (limit : nat)
    (s : TelegramNewsClient) :
  exists ms, fst (get_channel_messages env ch limit s) = Return ms.
Proof.
  destruct (start_time s) as [t0 |] eqn:Hst.
  - rewrite (get_channel_messages_set env ch limit s _ Hst). cbn zeta.
    destruct (collect t0 _ _ []) as [ms | [secs | ]]; eexists; reflexivity.
  - rewrite (get_channel_messages_unset env ch limit s Hst).
    eexists; reflexivity.
Qed.

(** The state after one iteration of the forwarding loop. *)
Lemma forward_new_eq (ch : string) (m : Message.t)
    (s : TelegramNewsClient) (r : Results) :
  forward_new cfg env ch m (BuildFrame s r) =
  (Return tt,
   if is_post_processed (db s) ch (Message.id m) then BuildFrame s r
   else
     match forward_message cfg env m ch s with
     | (Return true, s') =>
         BuildFrame (log (Sleep 1) s')
           {| processed := processed r; forwarded := forwarded r + 1 |}
     | (_, s') => BuildFrame s' r
     end).
Proof.
  unfold forward_new, bind, on_self, gets. cbn.
  destruct (is_post_processed (db s) ch (Message.id m)); [reflexivity |].
  rewrite !forward_message_eq.
  destruct (Telethon.forward_messages env _ _ _ _); reflexivity.
Qed.

Lemma forward_new_returns (ch : string) (m : Message.t) (f : Frame) :
  fst (forward_new cfg env ch m f) = Return tt.
Proof. destruct f as [s r]. rewrite forward_new_eq. reflexivity. Qed.

Lemma forward_loop_returns (ch : string) (ms : list Message.t) (f : Frame) :
  for_each ms (forward_new cfg env ch) f =
  (Return tt, exec (for_each ms (forward_new cfg env ch)) f).
Proof.
  apply returns_exec.
  apply (for_each_ind (forward_new cfg env ch) (fun _ _ => True) ms);
    auto using forward_new_returns.
Qed.

(** The state after the body of the channel loop. *)
Lemma process_channel_eq (ch : string) (s : TelegramNewsClient)
    (r : Results) :
  process_channel cfg env ch (BuildFrame s r) =
  (Return tt,
   match get_channel_messages env ch 50 s with
   | (Return (first :: others), s1) =>
       let s2 :=
         set_db (fun d =>
           update_last_message_id (Telethon.utcnow env (ticks s1)) d ch
                                  (max_id first others))
           (set_ticks (Datatypes.S (ticks s1)) s1) in
       let f3 := exec (for_each (first :: others) (forward_new cfg env ch))
                      (BuildFrame s2 r) in
       BuildFrame (log (Sleep 2) (self_ f3))
         {| processed := processed (results f3)
                         + Z.of_nat (List.length (first :: others));
            forwarded := forwarded (results f3) |}
   | (_, s1) => BuildFrame s1 r
   end).
Proof.
  unfold process_channel, try_except, bind at 1, on_self at 1.
  cbn [self_ results].
  destruct (get_channel_messages_returns ch 50 s) as [ms Hms].
  destruct (get_channel_messages env ch 50 s) as [o s1]. cbn in Hms. subst o.
  destruct ms as [| first others]; [reflexivity |].
  cbn [is_empty]. unfold bind at 1. unfold on_self at 1, bind at 1, now, await.
  cbn [self_ results modify].
  unfold bind at 1. rewrite forward_loop_returns.
  reflexivity.
Qed.

Lemma process_channel_returns (ch : string) (f : Frame) :
  fst (process_channel cfg env ch f) = Return tt.
Proof. destruct f as [s r]. rewrite process_channel_eq. reflexivity. Qed.

Lemma channel_loop_returns (chs : list string) (f : Frame) :
  for_each chs (process_channel cfg env) f =
  (Return tt, exec (for_each chs (process_channel cfg env)) f).
Proof.
  apply returns_exec.
  apply (for_each_ind (process_channel cfg env) (fun _ _ => True) chs);
    auto using process_channel_returns.
Qed.

Lemma process_all_channels_eq (s : TelegramNewsClient) :
  process_all_channels cfg env s =
  let f := exec (for_each (Config.SOURCE_CHANNELS cfg) (process_channel cfg env))
                (BuildFrame s {| processed := 0; forwarded := 0 |}) in
  (Return (results f), finish_pass env (self_ f)).
Proof.
  unfold process_all_channels. rewrite channel_loop_returns. reflexivity.
Qed.

End Bodies.

(** * A reasoning principle for the whole client

    Every state change the client makes is one of a few elementary moves; a
    reflexive and transitive relation that each move maintains holds between
    the states before and after any sequence of calls. *)

Section Moves.

Variable cfg : Config.t.
Variable env : Telethon.Environment.

Variable R : TelegramNewsClient -> TelegramNewsClient -> Prop.

Hypothesis R_refl : forall s, R s s.
Hypothesis R_trans : forall s1 s2 s3, R s1 s2 -> R s2 s3 -> R s1 s3.
Hypothesis R_tick : forall s, R s (set_ticks (S (ticks s)) s).
Hypothesis R_sleep : forall s seconds, R s (log (Sleep seconds) s).
Hypothesis R_failed : forall s i ch, R s (log (ForwardFailed i ch) s).
Hypothesis R_fetch : forall s ch limit, R s (log (IterMessages ch limit) s).
Hypothesis R_retrieved : forall s ch n, R s (log (Retrieved ch n) s).
Hypothesis R_forward : forall s m ch,
  is_post_processed (db s) ch (Message.id m) = false ->
  Telethon.forward_messages env (ticks s) (Config.TARGET_CHANNEL cfg) m ch
    = Return tt ->
  R s (after_forward cfg env m ch s).
Hypothesis R_retrieval : forall s ch t0 first others,
  start_time s = Some t0 ->
  collect t0 (fst (Telethon.iter_messages env (ticks s) ch 50))
             (snd (Telethon.iter_messages env (ticks s) ch 50)) []
    = Return (first :: others) ->
  R s (after_retrieval env ch first others s).
Hypothesis R_finish : forall s, R s (finish_pass env s).
Hypothesis R_boundary : forall s t,
  start_time s = None -> R s (set_start_time (Some t) s).
Hypothesis R_register : forall s t ch,
  R s (set_db (fun d => add_channel t d ch) s).

Lemma forward_new_move (ch : string) (m : Message.t) (f : Frame) :
  (on_frames R) f (exec (forward_new cfg env ch m) f).
Proof.
  destruct f as [s r]. unfold exec, on_frames. rewrite forward_new_eq.
  cbn [fst snd self_].
  destruct (is_post_processed (db s) ch (Message.id m)) eqn:Hseen;
    [apply R_refl |].
  rewrite forward_message_eq.
  destruct (Telethon.forward_messages env (ticks s) _ m ch) as [[] | e] eqn:Hfw;
    cbn [self_].
  - eapply R_trans; [apply (R_forward s m ch Hseen Hfw) |].
    apply R_sleep.
  - eapply R_trans; [apply (R_tick s) |].
    apply (R_failed (set_ticks (S (ticks s)) s)).
Qed.

Lemma forward_loop_move (ch : string) (ms : list Message.t) (f : Frame) :
  (on_frames R) f (exec (for_each ms (forward_new cfg env ch)) f).
Proof.
  apply (for_each_ind (forward_new cfg env ch) (on_frames R) ms); unfold on_frames; eauto.
  intros m f' _. split;
    [apply forward_new_returns | apply forward_new_move].
Qed.

Lemma get_channel_messages_move (ch : string) (limit : nat)
    (s : TelegramNewsClient) :
  R s (exec (get_channel_messages env ch limit) s).
Proof.
  unfold exec. destruct (start_time s) as [t0 |] eqn:Hst.
  - rewrite (get_channel_messages_set env ch limit s _ Hst). cbn zeta.
    assert (H1 : R s (set_ticks (S (ticks s)) (log (IterMessages ch limit) s))).
    { eapply R_trans; [apply (R_fetch s ch limit) |].
      apply (R_tick (log (IterMessages ch limit) s)). }
    destruct (collect t0 _ _ []) as [ms | [secs | ]]; cbn [snd].
    + eapply R_trans; [exact H1 | apply R_retrieved].
    + eapply R_trans; [exact H1 | apply R_sleep].
    + exact H1.
  - rewrite (get_channel_messages_unset env ch limit s Hst). apply R_refl.
Qed.

Lemma process_channel_move (ch : string) (f : Frame) :
  (on_frames R) f (exec (process_channel cfg env ch) f).
Proof.
  destruct f as [s r]. unfold exec, on_frames. rewrite process_channel_eq.
  cbn [fst snd self_].
  pose proof (get_channel_messages_move ch 50 s) as Hget. unfold exec in Hget.
  destruct (get_channel_messages env ch 50 s) as [[[| first others] | e] s1] eqn:Hg;
    cbn [snd self_] in *; try exact Hget.
  cbn zeta. cbn [self_].
  eapply R_trans; [| apply R_sleep].
  eapply R_trans; [| apply (forward_loop_move ch (first :: others))].
  cbn [self_].
  destruct (start_time s) as [t0 |] eqn:Hst.
  - rewrite (get_channel_messages_set env ch 50 s _ Hst) in Hg. cbn zeta in Hg.
    destruct (collect t0 _ _ []) as [ms | [secs | ]] eqn:Hc;
      inversion Hg; subst; clear Hg.
    apply (R_retrieval s ch _ _ _ Hst Hc).
  - rewrite (get_channel_messages_unset env ch 50 s Hst) in Hg. discriminate.
Qed.

Lemma channel_loop_move (chs : list string) (f : Frame) :
  (on_frames R) f (exec (for_each chs (process_channel cfg env)) f).
Proof.
  apply (for_each_ind (process_channel cfg env) (on_frames R) chs); unfold on_frames; eauto.
  intros ch f' _. split;
    [apply process_channel_returns | apply process_channel_move].
Qed.

Lemma process_all_channels_move (s : TelegramNewsClient) :
  R s (exec (process_all_channels cfg env) s).
Proof.
  unfold exec. rewrite process_all_channels_eq. cbn zeta. cbn [snd].
  eapply R_trans; [| apply R_finish].
  exact (channel_loop_move (Config.SOURCE_CHANNELS cfg)
           (BuildFrame s {| processed := 0; forwarded := 0 |})).
Qed.

Lemma test_connection_move (s : TelegramNewsClient) :
  exists b s', test_connection env s = (Return b, s') /\ R s s'.
Proof.
  unfold test_connection, try_except, bind, await, ret.
  destruct (Telethon.get_me env (ticks s)) as [[] | e];
    do 2 eexists; (split; [reflexivity | apply R_tick]).
Qed.

Lemma register_move (chs : list string) (s : TelegramNewsClient) :
  exists s', for_each chs (register_channel env) s = (Return tt, s') /\ R s s'.
Proof.
  exists (exec (for_each chs (register_channel env)) s).
  destruct (for_each_ind (register_channel env) R chs R_refl R_trans) with (s := s)
    as [Hret Hrel].
  - intros ch s' _. split; [reflexivity |].
    unfold exec, register_channel, bind, now, await, modify. cbn [fst snd].
    eapply R_trans; [apply (R_tick s') |]. apply R_register.
  - split; [apply returns_exec; exact Hret | exact Hrel].
Qed.

Lemma initialize_move (s : TelegramNewsClient) :
  exists b s', initialize cfg env s = (Return b, s') /\ R s s'.
Proof.
  unfold initialize, try_except. unfold bind at 1, await at 1.
  pose proof (R_tick s) as H1.
  destruct (Telethon.start env (ticks s)) as [[] | e];
    [| do 2 eexists; split; [reflexivity | exact H1]].
  set (s1 := set_ticks (S (ticks s)) s) in *.
  unfold bind at 1, await at 1.
  assert (H2 : R s (set_ticks (S (ticks s1)) s1))
    by (eapply R_trans; [exact H1 | apply R_tick]).
  destruct (Telethon.is_user_authorized env (ticks s1)) as [[|] | e];
    [| do 2 eexists; split; [reflexivity | exact H2]
     | do 2 eexists; split; [reflexivity | exact H2]].
  set (s2 := set_ticks (S (ticks s1)) s1) in *.
  cbn [negb]. unfold bind at 1, await at 1.
  assert (H3 : R s (set_ticks (S (ticks s2)) s2))
    by (eapply R_trans; [exact H2 | apply R_tick]).
  destruct (Telethon.get_me env (ticks s2)) as [[] | e];
    [| do 2 eexists; split; [reflexivity | exact H3]].
  set (s3 := set_ticks (S (ticks s2)) s2) in *.
  unfold bind at 1, gets at 1. unfold bind at 1.
  assert (H4 : exists s4,
    (match start_time s3 with
     | Some _ => ret tt
     | None => t <- now env ;; modify (set_start_time (Some t))
     end) s3 = (Return tt, s4) /\ R s s4).
  { destruct (start_time s3) eqn:Hst.
    - exists s3. split; [reflexivity | exact H3].
    - eexists. split; [reflexivity |].
      eapply R_trans; [exact H3 |].
      eapply R_trans; [apply (R_tick s3) |].
      apply R_boundary. exact Hst. }
  destruct H4 as (s4 & -> & H4).
  unfold bind at 1.
  destruct (register_move (Config.SOURCE_CHANNELS cfg) s4) as (s5 & -> & Hreg).
  do 2 eexists. split; [reflexivity |].
  eapply R_trans; [exact H4 | exact Hreg].
Qed.

Lemma health_check_move (s : TelegramNewsClient) :
  exists s', health_check cfg env s = (Return tt, s') /\ R s s'.
Proof.
  unfold health_check, try_except. unfold bind at 1.
  destruct (test_connection_move s) as (b & s1 & -> & Ht).
  destruct b; cbn [negb].
  - eexists. split; [reflexivity | exact Ht].
  - unfold bind.
    destruct (initialize_move s1) as (b' & s2 & -> & Hi).
    eexists. split; [reflexivity |]. eapply R_trans; eassumption.
Qed.

Lemma perform_move (c : call) (s : TelegramNewsClient) :
  exists s', perform cfg env c s = (Return tt, s') /\ R s s'.
Proof.
  destruct c; unfold perform, bind.
  - destruct (initialize_move s) as (b & s' & -> & H).
    eexists; split; [reflexivity | exact H].
  - destruct (test_connection_move s) as (b & s' & -> & H).
    eexists; split; [reflexivity | exact H].
  - pose proof (process_all_channels_move s) as Hp. unfold exec in Hp.
    rewrite process_all_channels_eq in *. cbn zeta in *. cbn [snd] in Hp.
    eexists; split; [reflexivity | exact Hp].
  - apply health_check_move.
Qed.

(** Any sequence of calls runs to its end, and the relation holds between
    its first and its last state. *)
Theorem run_move (calls : list call) (s : TelegramNewsClient) :
  run cfg env calls s = (Return tt, exec (run cfg env calls) s) /\
  R s (exec (run cfg env calls) s).
Proof.
  destruct (for_each_ind (perform cfg env) R calls R_refl R_trans) with (s := s)
    as [Hret Hrel].
  - intros c s' _. destruct (perform_move c s') as (s2 & Heq & H).
    unfold exec. rewrite Heq. auto.
  - split; [apply returns_exec; exact Hret | exact Hrel].
Qed.

End Moves.

(** * The tables *)

Section Tables.

Lemma filter_filter_implied {A : Type} (p q : A -> bool) (l : list A) :
  (forall x, p x = true -> q x = true) ->
  filter p (filter q l) = filter p l.
Proof.
  intros H. induction l as [| x l IH]; [reflexivity |]. cbn.
  destruct (q x) eqn:Hq; cbn.
  - rewrite IH. reflexivity.
  - destruct (p x) eqn:Hp; [| exact IH].
    rewrite (H x Hp) in Hq. discriminate.
Qed.

Lemma fetchone_app_last {A : Type} (l : list A) (x : A) :
  exists y, fetchone (l ++ [x]) = Some y.
Proof. destruct l; eexists; reflexivity. Qed.

Lemma post_key_other (ch ch' : string) (id id' : Z) (r : ProcessedPosts.row) :
  (ch' =? ch)%string && (id' =? id) = false ->
  post_key ch id r = true -> negb (post_key ch' id' r) = true.
Proof.
  unfold post_key. intros Hne Hk.
  apply andb_true_iff in Hk. destruct Hk as [Hc Hi].
  apply String.eqb_eq in Hc. apply Z.eqb_eq in Hi. subst.
  rewrite String.eqb_sym, Z.eqb_sym, Hne. reflexivity.
Qed.

Lemma post_key_new (ch ch' : string) (id id' : Z) (text : string)
    (post_date : option Z) (now : Z) (published : bool)
    (summary : option string) :
  post_key ch id
    (ProcessedPosts.Build ch' id' text post_date now published summary)
  = (ch' =? ch)%string && (id' =? id).
Proof. reflexivity. Qed.

Lemma is_post_processed_add (now : Z) (db : DatabaseManager)
    (ch ch' : string) (id id' : Z) (text : string) (post_date : option Z)
    (summary : option string) (published : bool) :
  is_post_processed
    (add_processed_post now db ch' id' text post_date summary published) ch id
  = ((ch' =? ch)%string && (id' =? id)) || is_post_processed db ch id.
Proof.
  unfold is_post_processed, add_processed_post. cbn [processed_posts].
  rewrite filter_app. cbn [filter]. unfold post_key at 3.
  cbn [ProcessedPosts.channel_username ProcessedPosts.message_id].
  destruct ((ch' =? ch)%string && (id' =? id)) eqn:Hk.
  - destruct (fetchone_app_last
                (filter (post_key ch id)
                   (filter (fun r => negb (post_key ch' id' r))
                           (processed_posts db)))
                (ProcessedPosts.Build ch' id' text post_date now published summary))
      as [y ->].
    reflexivity.
  - rewrite app_nil_r.
    rewrite filter_filter_implied by (intros r; apply post_key_other; exact Hk).
    reflexivity.
Qed.

Lemma channel_key_other (ch ch' : string) (r : ChannelSettings.row) :
  ch <> ch' ->
  channel_key ch r = true -> negb (channel_key ch' r) = true.
Proof.
  unfold channel_key. intros Hne Hk. apply String.eqb_eq in Hk. subst.
  apply negb_true_iff. apply String.eqb_neq. exact Hne.
Qed.

Lemma get_last_message_id_update (now : Z) (db : DatabaseManager)
    (ch : string) (id : Z) :
  get_last_message_id (update_last_message_id now db ch id) ch = id.
Proof.
  unfold get_last_message_id, update_last_message_id. cbn [channel_settings].
  rewrite filter_app. cbn [filter]. unfold channel_key at 3.
  cbn [ChannelSettings.channel_username]. rewrite String.eqb_refl.
  replace (filter (channel_key ch)
             (filter (fun r => negb (channel_key ch r)) (channel_settings db)))
    with (@nil ChannelSettings.row); [reflexivity |].
  induction (channel_settings db) as [| r l IH]; [reflexivity |]. cbn.
  destruct (channel_key ch r) eqn:Hk; cbn; [exact IH |].
  rewrite Hk. exact IH.
Qed.

Lemma get_last_message_id_update_other (now : Z) (db : DatabaseManager)
    (ch ch' : string) (id : Z) :
  ch <> ch' ->
  get_last_message_id (update_last_message_id now db ch' id) ch
  = get_last_message_id db ch.
Proof.
  intros Hne.
  unfold get_last_message_id, update_last_message_id. cbn [channel_settings].
  rewrite filter_app. cbn [filter]. unfold channel_key at 3.
  cbn [ChannelSettings.channel_username].
  assert (Hf : (ch' =? ch)%string = false)
    by (apply String.eqb_neq; congruence).
  rewrite Hf, app_nil_r.
  rewrite filter_filter_implied
    by (intros r; apply channel_key_other; exact Hne).
  reflexivity.
Qed.

Lemma get_last_message_id_add_channel (now : Z) (db : DatabaseManager)
    (ch ch' : string) :
  get_last_message_id (add_channel now db ch') ch = get_last_message_id db ch.
Proof.
  unfold add_channel.
  destruct (existsb (channel_key ch') (channel_settings db)) eqn:Hex;
    [reflexivity |].
  unfold get_last_message_id. cbn [channel_settings].
  rewrite filter_app. cbn [filter]. unfold channel_key at 2.
  cbn [ChannelSettings.channel_username].
  destruct (ch' =? ch)%string eqn:Hc.
  - apply String.eqb_eq in Hc. subst ch'.
    replace (filter (channel_key ch) (channel_settings db))
      with (@nil ChannelSettings.row); [reflexivity |].
    induction (channel_settings db) as [| r l IH]; [reflexivity |].
    cbn in Hex. apply orb_false_iff in Hex. destruct Hex as [Hr Hl].
    cbn. rewrite Hr. apply IH. exact Hl.
  - rewrite app_nil_r. reflexivity.
Qed.

Lemma is_post_processed_add_channel (now : Z) (db : DatabaseManager)
    (ch' ch : string) (id : Z) :
  is_post_processed (add_channel now db ch') ch id = is_post_processed db ch id.
Proof.
  unfold add_channel.
  destruct (existsb (channel_key ch') (channel_settings db)); reflexivity.
Qed.

End Tables.

(** * The client when the store answers

    When every statement goes through, the handlers of database.py are
    never entered, and the client with its handlers is the client of
    [Client]. *)

Lemma bind_ext {St A B : Type} (m m' : M St A) (k k' : A -> M St B) :
  (forall s, m s = m' s) -> (forall a s, k a s = k' a s) ->
  forall s, bind m k s = bind m' k' s.
Proof.
  intros Hm Hk s. unfold bind. rewrite Hm.
  destruct (m' s) as [[a | e] s']; [apply Hk | reflexivity].
Qed.

Lemma try_except_ext {St A : Type} (m m' : M St A)
    (handler : error -> M St A) :
  (forall s, m s = m' s) ->
  forall s, try_except m handler s = try_except m' handler s.
Proof. intros Hm s. unfold try_except. rewrite Hm. reflexivity. Qed.

Lemma for_each_ext {St A : Type} (l : list A) (body body' : A -> M St unit) :
  (forall x s, body x s = body' x s) ->
  forall s, for_each l body s = for_each l body' s.
Proof.
  intros Hb. induction l as [| x l IH]; intros s; [reflexivity |].
  cbn [for_each]. apply bind_ext; [apply Hb | intros _; exact IH].
Qed.

Lemma on_self_ext {A : Type} (m m' : M TelegramNewsClient A) :
  (forall s, m s = m' s) -> forall f, on_self m f = on_self m' f.
Proof. intros Hm f. unfold on_self. rewrite Hm. reflexivity. Qed.

Ltac ext_step :=
  cbv beta;
  first [ apply for_each_ext | apply try_except_ext | apply on_self_ext
        | apply bind_ext ].

Section Reachable.

Variable cfg : Config.t.
Variable env : Telethon.Environment.
Variable sqlite : nat -> bool.

Hypothesis up : forall n, sqlite n = true.

Lemma reachable_bind {A : Type} (k : bool -> M TelegramNewsClient A)
    (s : TelegramNewsClient) :
  bind (Degraded.reachable sqlite) k s = k true s.
Proof. unfold bind, Degraded.reachable, gets. rewrite up. reflexivity. Qed.

Lemma register_channel_reachable (channel : string) (s : TelegramNewsClient) :
  Degraded.register_channel env sqlite channel s
  = register_channel env channel s.
Proof.
  unfold Degraded.register_channel, register_channel.
  ext_step; [reflexivity |]. intros t s'. rewrite reachable_bind. reflexivity.
Qed.

Lemma initialize_reachable (s : TelegramNewsClient) :
  Degraded.initialize cfg env sqlite s = initialize cfg env s.
Proof.
  unfold Degraded.initialize, initialize.
  ext_step. clear s. intros s.
  ext_step; [reflexivity |]. intros _ s1.
  ext_step; [reflexivity |]. intros authorized s2.
  destruct (negb authorized); [reflexivity |].
  ext_step; [reflexivity |]. intros _ s3.
  ext_step; [reflexivity |]. intros st s4.
  ext_step; [reflexivity |]. intros _ s5.
  ext_step; [| reflexivity].
  ext_step. apply register_channel_reachable.
Qed.

Lemma forward_message_reachable (m : Message.t) (ch : string)
    (s : TelegramNewsClient) :
  Degraded.forward_message cfg env sqlite m ch s = forward_message cfg env m ch s.
Proof.
  unfold Degraded.forward_message, forward_message.
  ext_step. clear s. intros s.
  ext_step; [reflexivity |]. intros _ s1.
  ext_step; [reflexivity |]. intros _ s2.
  ext_step; [reflexivity |]. intros t s3.
  rewrite reachable_bind. reflexivity.
Qed.

Lemma forward_new_reachable (ch : string) (m : Message.t) (f : Frame) :
  Degraded.forward_new cfg env sqlite ch m f = forward_new cfg env ch m f.
Proof.
  unfold Degraded.forward_new, forward_new.
  ext_step.
  - ext_step. intros s. rewrite reachable_bind. reflexivity.
  - intros seen f'. destruct seen; [reflexivity |].
    ext_step; [| reflexivity].
    ext_step. apply forward_message_reachable.
Qed.

Lemma process_channel_reachable (ch : string) (f : Frame) :
  Degraded.process_channel cfg env sqlite ch f = process_channel cfg env ch f.
Proof.
  unfold Degraded.process_channel, process_channel.
  ext_step. clear f. intros f.
  ext_step; [reflexivity |]. intros messages f1.
  destruct messages as [| first others]; [reflexivity |]. cbn [is_empty].
  ext_step.
  - ext_step. intros s. ext_step; [reflexivity |]. intros t s'.
    rewrite reachable_bind. reflexivity.
  - intros _ f2. ext_step; [| reflexivity].
    ext_step. apply forward_new_reachable.
Qed.

Lemma process_all_channels_reachable (s : TelegramNewsClient) :
  Degraded.process_all_channels cfg env sqlite s = process_all_channels cfg env s.
Proof.
  unfold Degraded.process_all_channels, process_all_channels.
  rewrite (for_each_ext (Config.SOURCE_CHANNELS cfg) _ _
             process_channel_reachable).
  destruct (for_each _ _ _) as [[[] | e] f]; [| reflexivity].
  ext_step; [reflexivity |]. intros t s'. rewrite reachable_bind. reflexivity.
Qed.

Lemma health_check_reachable (s : TelegramNewsClient) :
  Degraded.health_check cfg env sqlite s = health_check cfg env s.
Proof.
  unfold Degraded.health_check, health_check.
  ext_step. clear s. intros s.
  ext_step; [reflexivity |]. intros connected s1.
  destruct (negb connected); [| reflexivity].
  ext_step; [apply initialize_reachable | reflexivity].
Qed.

(** A call on the client goes as in [Lifecycle]. *)
Lemma perform_reachable (c : call) (s : TelegramNewsClient) :
  Degraded.perform cfg env sqlite (Degraded.Call c) s = perform cfg env c s.
Proof.
  destruct c; cbn [Degraded.perform perform].
  - ext_step; [apply initialize_reachable | reflexivity].
  - reflexivity.
  - ext_step; [apply process_all_channels_reachable | reflexivity].
  - apply health_check_reachable.
Qed.

Lemma run_reachable (calls : list call) :
  forall s,
    Degraded.run cfg env sqlite (map Degraded.Call calls) s
    = run cfg env calls s.
Proof.
  induction calls as [| c calls IH]; intros s; [reflexivity |].
  unfold Degraded.run, run in *. cbn [map for_each].
  ext_step; [apply perform_reachable | intros _; exact IH].
Qed.




(** Any sequence of calls and maintenance operations runs to its end, and
    a reflexive and transitive relation that every call and every
    permitted maintenance operation maintains holds between its first and
    its last state. *)

Variable R : TelegramNewsClient -> TelegramNewsClient -> Prop.
Variable permitted : Degraded.operation -> Prop.

Hypothesis R_refl : forall s, R s s.
Hypothesis R_trans : forall s1 s2 s3, R s1 s2 -> R s2 s3 -> R s1 s3.
Hypothesis R_call : forall c s,
  exists s', perform cfg env c s = (Return tt, s') /\ R s s'.
Hypothesis R_purge :
  permitted Degraded.CleanupDatabase ->
  forall s,
    R s (set_db (fun d =>
                   fst (Maintenance.cleanup_database
                          (Telethon.utcnow env (ticks s)) d))
                (set_ticks (S (ticks s)) s)).
Hypothesis R_reset : forall ch,
  permitted (Degraded.ResetChannel ch) ->
  forall s, R s (set_db (fun d => Maintenance.reset_channel d ch) s).
Hypothesis R_remove : forall ch s,
  R s (set_db (fun d => Maintenance.remove_channel d ch) s).



End Reachable.

(** * The retention of processed records *)

Section Retained.

Import Retention.








End Retained.

(** * At-most-once forwarding *)

Section Dedup.

Import Retention.

Variable cfg : Config.t.
Variable env : Telethon.Environment.
Variable sqlite : nat -> bool.
Variable ch : string.
Variable id : Z.
Variable since : Z.
Variable until : nat.







Hypothesis up : forall n, sqlite n = true.


End Dedup.



(** * Candidate filtering *)

Section Filtering.

(** The test of the code is the test of the specification. *)
Lemma has_plain_text_retained (B : Z) (m : Message.t) :
  retained B m =
  match Message.date m with
  | Some d => (B <? d) && has_plain_text m
  | None => false
  end.
Proof.
  unfold retained, has_plain_text.
  destruct (Message.date m) as [d |]; [| reflexivity]. f_equal.
  destruct (Message.text m) as [[| c r] |]; try reflexivity.
  cbn [String.eqb negb andb String.prefix].
  destruct (ascii_dec "/" c) as [<- | Hne].
  - destruct r; reflexivity.
  - assert (Ascii.eqb c "/" = false) as ->
      by (apply Ascii.eqb_neq; congruence).
    reflexivity.
Qed.

(** The list built so far only grows. *)
Lemma collect_acc (B : Z) (finish : option error) (yielded acc : list Message.t) :
  collect B yielded finish acc =
  match collect B yielded finish [] with
  | Return ms => Return (acc ++ ms)
  | Raise e => Raise e
  end.
Proof.
  revert acc. induction yielded as [| m rest IH]; intros acc.
  - cbn. destruct finish; [reflexivity | rewrite app_nil_r; reflexivity].
  - cbn [collect]. destruct (Message.date m) as [d |].
    + destruct (B <? d).
      * destruct (has_plain_text m).
        -- rewrite (IH (acc ++ [m])), (IH ([] ++ [m])).
           destruct (collect B rest finish []); [| reflexivity].
           rewrite <- app_assoc. reflexivity.
        -- apply IH.
      * rewrite app_nil_r. reflexivity.
    + apply IH.
Qed.

Lemma collect_cons (B : Z) (finish : option error) (m : Message.t)
    (rest : list Message.t) :
  collect B (m :: rest) finish [] =
  if at_or_before B m then Return []
  else match collect B rest finish [] with
       | Return ms => Return (if retained B m then m :: ms else ms)
       | Raise e => Raise e
       end.
Proof.
  cbn [collect]. rewrite has_plain_text_retained. unfold at_or_before.
  destruct (Message.date m) as [d |].
  - rewrite Z.leb_antisym. destruct (B <? d); cbn [negb andb].
    + destruct (has_plain_text m).
      * rewrite collect_acc.
        destruct (collect B rest finish []); reflexivity.
      * destruct (collect B rest finish []); reflexivity.
    + reflexivity.
  - destruct (collect B rest finish []); reflexivity.
Qed.

(** Behind a message at or before the boundary, a batch delivered newest
    first holds no candidate. *)
Lemma nothing_retained_behind (B : Z) (m : Message.t) (rest : list Message.t) :
  at_or_before B m = true ->
  Forall (no_older m) rest ->
  filter (retained B) (m :: rest) = [].
Proof.
  unfold at_or_before. intros Hm Hrest.
  destruct (Message.date m) as [d |] eqn:Hd; [| discriminate].
  apply Z.leb_le in Hm.
  assert (Hnone : forall x, no_older m x -> retained B x = false).
  { intros x Hx. unfold retained.
    destruct (Message.date x) as [dx |] eqn:Hdx; [| reflexivity].
    specialize (Hx d dx Hd Hdx).
    assert ((B <? dx) = false) as -> by (apply Z.ltb_ge; lia). reflexivity. }
  cbn [filter].
  assert (retained B m = false) as ->
    by (apply Hnone; intros da db Ha Hb; assert (da = db) by congruence; lia).
  induction Hrest as [| x l Hx Hl IH]; [reflexivity |].
  cbn [filter]. rewrite (Hnone x Hx). exact IH.
Qed.

Lemma collect_newest_first (B : Z) (batch : list Message.t) :
  newest_first batch ->
  collect B batch None [] = Return (filter (retained B) batch).
Proof.
  induction 1 as [| m rest Hsorted IH Hm]; [reflexivity |].
  rewrite collect_cons.
  destruct (at_or_before B m) eqn:Hb.
  - rewrite (@nothing_retained_behind B m rest Hb Hm). reflexivity.
  - rewrite IH. reflexivity.
Qed.

Lemma collect_stops (B : Z) (finish : option error)
    (pre : list Message.t) (m : Message.t) (post : list Message.t) :
  Forall (fun x => at_or_before B x = false) pre ->
  at_or_before B m = true ->
  collect B (pre ++ m :: post) finish [] = Return (filter (retained B) pre).
Proof.
  intros Hpre Hm. induction Hpre as [| x l Hx Hl IH].
  - cbn [app filter]. rewrite collect_cons, Hm. reflexivity.
  - cbn [app filter]. rewrite collect_cons, Hx, IH. reflexivity.
Qed.

End Filtering.

(** C2. Candidate filtering: with the run boundary [B] established, a
    retrieval whose batch is delivered newest first returns exactly the
    messages of the batch whose timestamp is strictly after [B] and whose
    text is non-empty and does not begin with [/], in the order of the
    batch; the walk stops at the first message at or before [B], whatever
    comes behind it; and for [B = T0] the batch of ids 105 ("hi", T0+5),
    104 ("/cmd", T0+3), 103 ("old", T0-1) gives the message 105 alone. *)
Theorem candidate_filtering
    (env : Telethon.Environment) (s : TelegramNewsClient) (B : Z)
    (ch : string) (limit : nat) :
  start_time s = Some B ->
  (forall batch,
     Telethon.iter_messages env (ticks s) ch limit = (batch, None) ->
     newest_first batch ->
     fst (get_channel_messages env ch limit s)
     = Return (filter (retained B) batch))
  /\ (forall pre m post finish,
        Telethon.iter_messages env (ticks s) ch limit
        = (pre ++ m :: post, finish) ->
        Forall (fun x => at_or_before B x = false) pre ->
        at_or_before B m = true ->
        fst (get_channel_messages env ch limit s)
        = Return (filter (retained B) pre))
  /\ (Telethon.iter_messages env (ticks s) ch limit
      = ([message 105 "hi" (B + 5); message 104 "/cmd" (B + 3);
          message 103 "old" (B - 1)], None) ->
      fst (get_channel_messages env ch limit s)
      = Return [message 105 "hi" (B + 5)]).
Proof.
  intros Hst. rewrite (get_channel_messages_set env ch limit s _ Hst). cbn zeta.
  split; [| split].
  - intros batch -> Hsorted. cbn [fst snd].
    rewrite (@collect_newest_first B batch Hsorted). reflexivity.
  - intros pre m post finish -> Hpre Hm. cbn [fst snd].
    rewrite (@collect_stops B finish pre m post Hpre Hm). reflexivity.
  - intros ->. cbn [fst snd].
    rewrite !collect_cons. unfold at_or_before, retained, message.
    cbn [Message.date Message.text].
    assert ((B + 5 <=? B) = false) as -> by (apply Z.leb_gt; lia).
    assert ((B + 3 <=? B) = false) as -> by (apply Z.leb_gt; lia).
    assert ((B - 1 <=? B) = true) as -> by (apply Z.leb_le; lia).
    assert ((B <? B + 5) = true) as -> by (apply Z.ltb_lt; lia).
    assert ((B <? B + 3) = true) as -> by (apply Z.ltb_lt; lia).
    reflexivity.
Qed.

(** * The run boundary *)

Section Boundary.

Variable cfg : Config.t.
Variable env : Telethon.Environment.

Lemma boundary_kept_run (calls : list call) (s : TelegramNewsClient) :
  boundary_kept s (exec (run cfg env calls) s).
Proof.
  apply run_move; unfold boundary_kept; auto.
  - intros s0 t Hnone t' Hsome. congruence.
Qed.

Lemma boundary_kept_initialize (s : TelegramNewsClient) :
  boundary_kept s (exec (initialize cfg env) s).
Proof.
  destruct (initialize_move cfg env boundary_kept) with (s := s)
    as (b & s' & Heq & H); unfold boundary_kept; auto.
  - intros s0 t Hnone t' Hsome. congruence.
  - unfold exec. rewrite Heq. exact H.
Qed.

Lemma boundary_kept_health_check (s : TelegramNewsClient) :
  boundary_kept s (exec (health_check cfg env) s).
Proof.
  destruct (health_check_move cfg env boundary_kept) with (s := s)
    as (s' & Heq & H); unfold boundary_kept; auto.
  - intros s0 t Hnone t' Hsome. congruence.
  - unfold exec. rewrite Heq. exact H.
Qed.

Lemma run_app (calls1 calls2 : list call) (s : TelegramNewsClient) :
  exec (run cfg env (calls1 ++ calls2)) s
  = exec (run cfg env calls2) (exec (run cfg env calls1) s).
Proof.
  unfold exec at 1, run. rewrite for_each_app; [reflexivity |].
  intros c s' _.
  destruct (perform_move cfg env (fun _ _ => True)) with (c := c) (s := s')
    as (s2 & -> & _); auto.
Qed.

End Boundary.

(** C8. Run boundary stability: once [start_time] holds an instant, no call
    on the client changes it: not [initialize] run again, not the liveness
    check that reconnects, not any sequence of calls; so a process sees at
    most one boundary.  And while no boundary is established, a retrieval
    returns the empty list and leaves the client as it was: nothing is
    fetched. *)
Theorem run_boundary_stability
    (cfg : Config.t) (env : Telethon.Environment) (s : TelegramNewsClient) :
  (forall t,
     start_time s = Some t ->
     start_time (exec (initialize cfg env) s) = Some t
     /\ start_time (exec (health_check cfg env) s) = Some t
     /\ forall calls, start_time (exec (run cfg env calls) s) = Some t)
  /\ (forall calls1 calls2 t,
        start_time (exec (run cfg env calls1) s) = Some t ->
        start_time (exec (run cfg env (calls1 ++ calls2)) s) = Some t)
  /\ (forall ch limit,
        start_time s = None ->
        get_channel_messages env ch limit s = (Return [], s)).
Proof.
  split; [| split].
  - intros t Ht. split; [| split].
    + apply (boundary_kept_initialize cfg env s). exact Ht.
    + apply (boundary_kept_health_check cfg env s). exact Ht.
    + intros calls. apply (boundary_kept_run cfg env calls s). exact Ht.
  - intros calls1 calls2 t Ht. rewrite run_app.
    apply (boundary_kept_run cfg env calls2). exact Ht.
  - intros ch limit Hnone. apply get_channel_messages_unset. exact Hnone.
Qed.

(** * Traces *)

Section Traces.

Variable cfg : Config.t.
Variable env : Telethon.Environment.

Lemma extends_same (s s' : TelegramNewsClient) :
  trace s' = trace s -> extends s s'.
Proof. intros H. exists []. rewrite H. symmetry. apply app_nil_r. Qed.

Lemma extends_refl (s : TelegramNewsClient) : extends s s.
Proof. apply extends_same. reflexivity. Qed.

Lemma extends_trans (s1 s2 s3 : TelegramNewsClient) :
  extends s1 s2 -> extends s2 s3 -> extends s1 s3.
Proof.
  intros [d1 H1] [d2 H2]. exists (d1 ++ d2).
  rewrite H2, H1, app_assoc. reflexivity.
Qed.

Lemma extends_log (s : TelegramNewsClient) (e : event) : extends s (log e s).
Proof. exists [e]. reflexivity. Qed.

Lemma extends_forward_loop (ch : string) (ms : list Message.t) (f : Frame) :
  on_frames extends f (exec (for_each ms (forward_new cfg env ch)) f).
Proof.
  apply forward_loop_move.
  - apply extends_refl.
  - apply extends_trans.
  - intros s. apply extends_same. reflexivity.
  - intros s seconds. apply extends_log.
  - intros s i c. apply extends_log.
  - intros s m ch' _ _. eexists. reflexivity.
Qed.

Lemma extends_channel_loop (chs : list string) (f : Frame) :
  on_frames extends f (exec (for_each chs (process_channel cfg env)) f).
Proof.
  apply channel_loop_move.
  - apply extends_refl.
  - apply extends_trans.
  - intros s. apply extends_same. reflexivity.
  - intros s seconds. apply extends_log.
  - intros s i c. apply extends_log.
  - intros s c limit. apply extends_log.
  - intros s c n. apply extends_log.
  - intros s m ch' _ _. eexists. reflexivity.
  - intros s ch t0 first others _ _. unfold after_retrieval, extends.
    cbn [trace]. rewrite <- app_assoc. eexists. reflexivity.
Qed.

(** With the boundary established, the slot of a channel opens with its
    retrieval. *)
Lemma process_channel_fetches_first (ch : string) (s : TelegramNewsClient)
    (r : Results) (B : Z) :
  start_time s = Some B ->
  exists delta,
    trace (self_ (exec (process_channel cfg env ch) (BuildFrame s r)))
    = trace s ++ IterMessages ch 50 :: delta.
Proof.
  intros Hst. unfold exec. rewrite process_channel_eq. cbn [snd].
  rewrite (get_channel_messages_set env ch 50 s B Hst). cbn zeta.
  destruct (collect B _ _ []) as [[| first others] | [secs | ]].
  - cbn. rewrite <- app_assoc. eexists. reflexivity.
  - cbn [self_ log trace].
    match goal with
    | |- context [exec ?m ?f] =>
        destruct (extends_forward_loop ch (first :: others) f) as [d Hd]
    end.
    rewrite Hd. cbn [self_ log set_db set_ticks trace].
    rewrite <- !app_assoc. eexists. reflexivity.
  - cbn. rewrite <- app_assoc. eexists. reflexivity.
  - cbn. eexists. reflexivity.
Qed.

End Traces.

(** C7. Rate-limit handling: when the retrieval for a channel is cut short by
    [FloodWaitError] with a wait of [seconds], [get_channel_messages] sleeps
    for exactly [seconds] and returns the empty list, changing nothing in
    the database; the slot of that channel in the pass consists of that
    retrieval alone (no forward, no second attempt, the counts of the pass
    untouched); and the pass goes on with the remaining channels, the
    retrieval of the next one being the next event. *)
Theorem rate_limit_handling
    (cfg : Config.t) (env : Telethon.Environment) (s : TelegramNewsClient)
    (B : Z) (ch : string) (seconds : Z) (r : Results) :
  start_time s = Some B ->
  collect B (fst (Telethon.iter_messages env (ticks s) ch 50))
            (snd (Telethon.iter_messages env (ticks s) ch 50)) []
  = Raise (FloodWaitError seconds) ->
  get_channel_messages env ch 50 s = (Return [], after_flood_wait ch seconds s)
  /\ process_channel cfg env ch (BuildFrame s r)
     = (Return tt, BuildFrame (after_flood_wait ch seconds s) r)
  /\ (forall rest,
        for_each (ch :: rest) (process_channel cfg env) (BuildFrame s r)
        = for_each rest (process_channel cfg env)
            (BuildFrame (after_flood_wait ch seconds s) r))
  /\ (forall next rest,
        exists delta,
          trace (self_ (exec (for_each (ch :: next :: rest)
                                (process_channel cfg env)) (BuildFrame s r)))
          = trace s ++ [IterMessages ch 50; Sleep seconds; IterMessages next 50]
                    ++ delta).
Proof.
  intros Hst Hflood.
  assert (Hget : get_channel_messages env ch 50 s
                 = (Return [], after_flood_wait ch seconds s)).
  { rewrite (get_channel_messages_set env ch 50 s B Hst). cbn zeta.
    rewrite Hflood. reflexivity. }
  assert (Hslot : process_channel cfg env ch (BuildFrame s r)
                  = (Return tt, BuildFrame (after_flood_wait ch seconds s) r)).
  { rewrite process_channel_eq, Hget. reflexivity. }
  assert (Hrest : forall rest,
            for_each (ch :: rest) (process_channel cfg env) (BuildFrame s r)
            = for_each rest (process_channel cfg env)
                (BuildFrame (after_flood_wait ch seconds s) r)).
  { intros rest. rewrite for_each_cons by apply process_channel_returns.
    unfold exec. rewrite Hslot. reflexivity. }
  split; [exact Hget | split; [exact Hslot | split; [exact Hrest |]]].
  intros next rest. unfold exec. rewrite Hrest.
  rewrite for_each_cons by apply process_channel_returns.
  destruct (process_channel_fetches_first cfg env next
              (after_flood_wait ch seconds s) r B Hst) as [d1 Hd1].
  match goal with
  | |- context [for_each rest ?body ?f] =>
      destruct (extends_channel_loop cfg env rest f) as [d2 Hd2]
  end.
  unfold exec in *. rewrite Hd2, Hd1. cbn [after_flood_wait trace].
  exists (d1 ++ d2). rewrite <- !app_assoc. reflexivity.
Qed.

(** * Error isolation *)

Section Isolation.

Variable cfg : Config.t.
Variable env : Telethon.Environment.

Lemma retrievals_app (tr1 tr2 : list event) :
  retrievals (tr1 ++ tr2) = retrievals tr1 ++ retrievals tr2.
Proof. apply flat_map_app. Qed.

Lemma no_retrieval_forward_loop (ch : string) (ms : list Message.t)
    (f : Frame) :
  on_frames no_retrieval f (exec (for_each ms (forward_new cfg env ch)) f).
Proof.
  apply forward_loop_move.
  - intros s. split; reflexivity.
  - intros s1 s2 s3 [H1 H2] [H3 H4]. split; congruence.
  - intros s. split; reflexivity.
  - intros s seconds. split; [reflexivity |]. cbn [log trace].
    rewrite retrievals_app. apply app_nil_r.
  - intros s i c. split; [reflexivity |]. cbn [log trace].
    rewrite retrievals_app. apply app_nil_r.
  - intros s m ch' _ _. split; [reflexivity |].
    unfold after_forward. cbn [trace]. rewrite retrievals_app.
    apply app_nil_r.
Qed.

(** Whatever happens in the slot of a channel, the slot holds exactly one
    retrieval, that of the channel, and the boundary is the same after it. *)
Lemma process_channel_retrieves (ch : string) (s : TelegramNewsClient)
    (r : Results) (B : Z) :
  start_time s = Some B ->
  let f' := exec (process_channel cfg env ch) (BuildFrame s r) in
  start_time (self_ f') = Some B
  /\ retrievals (trace (self_ f')) = retrievals (trace s) ++ [ch].
Proof.
  intros Hst. unfold exec. rewrite process_channel_eq. cbn [snd].
  rewrite (get_channel_messages_set env ch 50 s B Hst). cbn zeta.
  destruct (collect B _ _ []) as [[| first others] | [secs | ]].
  - cbn. rewrite !retrievals_app. cbn. rewrite app_nil_r. auto.
  - cbn [self_ log trace start_time].
    match goal with
    | |- context [exec ?m ?f] =>
        destruct (no_retrieval_forward_loop ch (first :: others) f)
          as [H1 H2]
    end.
    rewrite H1, retrievals_app, H2.
    cbn [self_ log set_db set_ticks trace start_time].
    rewrite !retrievals_app. cbn. rewrite !app_nil_r. auto.
  - cbn. rewrite !retrievals_app. cbn. rewrite app_nil_r. auto.
  - cbn. rewrite !retrievals_app. cbn. auto.
Qed.

Lemma channel_loop_retrieves (chs : list string) (f : Frame) (B : Z) :
  start_time (self_ f) = Some B ->
  let f' := exec (for_each chs (process_channel cfg env)) f in
  start_time (self_ f') = Some B
  /\ retrievals (trace (self_ f')) = retrievals (trace (self_ f)) ++ chs.
Proof.
  revert f. induction chs as [| ch chs IH]; intros f Hst.
  - cbn. rewrite app_nil_r. auto.
  - cbn zeta. unfold exec.
    rewrite for_each_cons by apply process_channel_returns.
    destruct f as [s r]. cbn [self_] in *.
    destruct (process_channel_retrieves ch s r B Hst) as [H1 H2].
    destruct (IH _ H1) as [H3 H4]. unfold exec in *.
    rewrite H4, H2, <- app_assoc. auto.
Qed.

Lemma forward_new_seen (ch : string) (m : Message.t) (f : Frame) :
  is_post_processed (db (self_ f)) ch (Message.id m) = true ->
  exec (forward_new cfg env ch m) f = f.
Proof.
  destruct f as [s r]. cbn [self_]. intros H.
  unfold exec. rewrite forward_new_eq, H. reflexivity.
Qed.

(** A candidate that is not recorded yet leads to a transport call. *)
Lemma forward_new_attempts (ch : string) (m : Message.t) (f : Frame) :
  is_post_processed (db (self_ f)) ch (Message.id m) = false ->
  let f' := exec (forward_new cfg env ch m) f in
  (exists delta,
     trace (self_ f') = trace (self_ f) ++ delta
     /\ existsb (is_attempt_of ch (Message.id m)) delta = true)
  /\ forall id', id' <> Message.id m ->
       is_post_processed (db (self_ f')) ch id'
       = is_post_processed (db (self_ f)) ch id'.
Proof.
  destruct f as [s r]. cbn [self_]. intros H.
  unfold exec. rewrite forward_new_eq, H, forward_message_eq. cbn [snd].
  destruct (Telethon.forward_messages env (ticks s) _ m ch) as [[] | e];
    cbn [self_ log trace db].
  - split.
    + rewrite <- app_assoc. eexists. split; [reflexivity |].
      cbn. rewrite String.eqb_refl, Z.eqb_refl. reflexivity.
    + intros id' Hne. rewrite is_post_processed_add.
      assert ((Message.id m =? id') = false) as ->
        by (apply Z.eqb_neq; congruence).
      rewrite andb_false_r. reflexivity.
  - split.
    + eexists. split; [reflexivity |].
      cbn. rewrite String.eqb_refl, Z.eqb_refl. reflexivity.
    + reflexivity.
Qed.

Lemma forward_loop_attempts (ch : string) (ms : list Message.t) :
  forall (f : Frame) (m : Message.t),
    In m ms ->
    is_post_processed (db (self_ f)) ch (Message.id m) = false ->
    exists delta,
      trace (self_ (exec (for_each ms (forward_new cfg env ch)) f))
      = trace (self_ f) ++ delta
      /\ existsb (is_attempt_of ch (Message.id m)) delta = true.
Proof.
  induction ms as [| x ms IH]; intros f m Hin Hnew; [destruct Hin |].
  unfold exec. rewrite for_each_cons by apply forward_new_returns.
  fold (exec (for_each ms (forward_new cfg env ch))
             (exec (forward_new cfg env ch x) f)).
  destruct (is_post_processed (db (self_ f)) ch (Message.id x)) eqn:Hx.
  - rewrite (forward_new_seen ch x f Hx).
    destruct Hin as [-> | Hin]; [congruence |].
    apply IH; assumption.
  - destruct (forward_new_attempts ch x f Hx) as [(d1 & Hd1 & Ha1) Hother].
    destruct (Z.eq_dec (Message.id m) (Message.id x)) as [Heq | Hne].
    + destruct (extends_forward_loop cfg env ch ms
                  (exec (forward_new cfg env ch x) f)) as [d2 Hd2].
      exists (d1 ++ d2). rewrite Hd2, Hd1, <- app_assoc.
      split; [reflexivity |].
      rewrite existsb_app, Heq, Ha1. reflexivity.
    + destruct Hin as [-> | Hin]; [congruence |].
      destruct (IH (exec (forward_new cfg env ch x) f) m Hin) as (d2 & Hd2 & Ha2).
      * rewrite (Hother _ Hne). exact Hnew.
      * exists (d1 ++ d2). rewrite Hd2, Hd1, <- app_assoc.
        split; [reflexivity |].
        rewrite existsb_app, Ha2. apply orb_true_r.
Qed.

End Isolation.

(** C4. Error isolation with retry eligibility: when the transport fails to
    forward a candidate, [forward_message] answers false and writes nothing:
    no processed record, so the pair is still unrecorded for the next pass;
    the loop goes on with the next candidates of the channel, each of which,
    if not yet recorded, is handed to the transport in turn; and a pass
    never raises: whatever happens inside the slots of the channels, it
    returns, having invoked the retrieval of every configured channel, once
    each, in the configured order. *)
Theorem error_isolation
    (cfg : Config.t) (env : Telethon.Environment) (s : TelegramNewsClient)
    (ch : string) (m : Message.t) (e : error) (r : Results) :
  is_post_processed (db s) ch (Message.id m) = false ->
  Telethon.forward_messages env (ticks s) (Config.TARGET_CHANNEL cfg) m ch
  = Raise e ->
  forward_message cfg env m ch s = (Return false, after_failure m ch s)
  /\ is_post_processed (db (after_failure m ch s)) ch (Message.id m) = false
  /\ (forall rest,
        for_each (m :: rest) (forward_new cfg env ch) (BuildFrame s r)
        = for_each rest (forward_new cfg env ch)
            (BuildFrame (after_failure m ch s) r))
  /\ (forall rest m',
        In m' rest ->
        is_post_processed (db s) ch (Message.id m') = false ->
        exists delta,
          trace (self_ (exec (for_each (m :: rest) (forward_new cfg env ch))
                             (BuildFrame s r)))
          = trace s ++ delta
          /\ existsb (is_attempt_of ch (Message.id m')) delta = true)
  /\ (forall s0 B,
        start_time s0 = Some B ->
        exists res s',
          process_all_channels cfg env s0 = (Return res, s')
          /\ retrievals (trace s')
             = retrievals (trace s0) ++ Config.SOURCE_CHANNELS cfg).
Proof.
  intros Hnew Hfail.
  assert (Hfw : forward_message cfg env m ch s
                = (Return false, after_failure m ch s))
    by (rewrite forward_message_eq, Hfail; reflexivity).
  split; [exact Hfw |]. split; [exact Hnew |]. split; [| split].
  - intros rest. rewrite for_each_cons by apply forward_new_returns.
    unfold exec. rewrite forward_new_eq, Hnew, Hfw. reflexivity.
  - intros rest m' Hin Hnew'.
    apply (forward_loop_attempts cfg env ch (m :: rest) (BuildFrame s r) m');
      [right; exact Hin | exact Hnew'].
  - intros s0 B Hst. rewrite process_all_channels_eq. cbn zeta.
    do 2 eexists. split; [reflexivity |]. cbn [finish_pass trace].
    apply (channel_loop_retrieves cfg env (Config.SOURCE_CHANNELS cfg)
             (BuildFrame s0 {| processed := 0; forwarded := 0 |}) B Hst).
Qed.

(** * The daily counters and the channel settings *)

Section Counters.

Lemma update_statistics_inserts (now : Z) (db : DatabaseManager) (p q f : Z) :
  List.length (statistics (update_statistics now db p q f))
  = S (List.length (statistics db)).
Proof.
  unfold update_statistics. cbn [statistics].
  rewrite length_app. cbn. lia.
Qed.

Lemma update_statistics_same_table (now : Z) (d1 d2 : DatabaseManager)
    (p q f : Z) :
  statistics d1 = statistics d2 ->
  statistics (update_statistics now d1 p q f)
  = statistics (update_statistics now d2 p q f).
Proof.
  intros H. unfold update_statistics. cbn [statistics]. rewrite H.
  reflexivity.
Qed.

End Counters.

(** C5. Daily counters: three statistics writes on one calendar date (day 0),
    starting from the empty table, of 1, 2 and 4 messages.  The table ends
    with three rows for that date, and the last one holds 5, not the 7 of
    the day: each write inserts a row, computed from the first row of the
    date. *)
Theorem daily_counters_three_writes :
  let db1 := update_statistics 1000 init_database 1 1 0 in
  let db2 := update_statistics 2000 db1 2 2 0 in
  let db3 := update_statistics 3000 db2 4 4 0 in
  CURRENT_DATE 1000 = 0 /\ CURRENT_DATE 2000 = 0 /\ CURRENT_DATE 3000 = 0
  /\ statistics db2
     = [ Statistics.Build 0 1 1 0; Statistics.Build 0 3 3 0 ]
  /\ statistics db3
     = [ Statistics.Build 0 1 1 0; Statistics.Build 0 3 3 0;
         Statistics.Build 0 5 5 0 ].
Proof. repeat split; reflexivity. Qed.

(** C10. Watermark advance on a channel that was deactivated and registered
    at instant 100: [update_last_message_id] for "@a" at instant 200 leaves
    the row of "@b" as it was, but the row of "@a" comes back active and
    registered at instant 200. *)
Theorem update_last_message_id_resets_row :
  channel_settings (update_last_message_id 200 Scenario.settings_db "@a" 105)
  = [ ChannelSettings.Build "@b" 9 true 100;
      ChannelSettings.Build "@a" 105 true 200 ]
  /\ channel_settings Scenario.settings_db
     = [ ChannelSettings.Build "@a" 7 false 100;
         ChannelSettings.Build "@b" 9 true 100 ].
Proof. split; reflexivity. Qed.

(** * Pacing between channels *)

(** C6, as the specification words it, fails: with two configured channels
    and nothing new in either, the pass makes the two retrievals one after
    the other, with no delay between them. *)
Lemma pacing_counterexample :
  let s := Scenario.started Scenario.two_channels Scenario.quiet in
  trace (exec (process_all_channels Scenario.two_channels Scenario.quiet) s)
  = [IterMessages "@a" 50; Retrieved "@a" 0;
     IterMessages "@b" 50; Retrieved "@b" 0]
  /\ ~ paced (trace (exec (process_all_channels Scenario.two_channels
                             Scenario.quiet) s)).
Proof.
  cbv zeta. split; [reflexivity |].
  intros H.
  specialize (H [] "@a" 50%nat [Retrieved "@a" 0] "@b" 50%nat
                [Retrieved "@b" 0] eq_refl).
  destruct H as [H | []]. discriminate H.
Qed.

(** C6, amended.  Inter-channel pacing: in a pass, the slot of a channel
    whose retrieval kept at least one candidate ends with a delay of two
    seconds, whatever became of the forwards; the slot of a channel whose
    retrieval kept nothing (no boundary, an empty batch, a rate limit, a
    failed retrieval) ends with the retrieval, and the only delay it can
    hold is the wait the rate limit asked for. *)
Theorem inter_channel_pacing
    (cfg : Config.t) (env : Telethon.Environment) (s : TelegramNewsClient)
    (r : Results) (ch : string) :
  (forall first others s1,
     get_channel_messages env ch 50 s = (Return (first :: others), s1) ->
     exists f' mid,
       process_channel cfg env ch (BuildFrame s r) = (Return tt, f')
       /\ trace (self_ f') = trace s1 ++ mid ++ [Sleep 2])
  /\ (forall s1,
        get_channel_messages env ch 50 s = (Return [], s1) ->
        process_channel cfg env ch (BuildFrame s r)
        = (Return tt, BuildFrame s1 r)
        /\ forall seconds,
             In (Sleep seconds) (trace s1) ->
             In (Sleep seconds) (trace s)
             \/ exists B,
                  start_time s = Some B
                  /\ collect B
                       (fst (Telethon.iter_messages env (ticks s) ch 50))
                       (snd (Telethon.iter_messages env (ticks s) ch 50)) []
                     = Raise (FloodWaitError seconds)).
Proof.
  split.
  - intros first others s1 Hget.
    rewrite process_channel_eq, Hget. cbn zeta.
    match goal with
    | |- context [exec ?m ?f] =>
        destruct (extends_forward_loop cfg env ch (first :: others) f)
          as [d Hd]
    end.
    do 2 eexists. split; [reflexivity |].
    cbn [self_ log trace]. rewrite Hd. cbn [self_ set_db set_ticks trace].
    rewrite <- app_assoc. reflexivity.
  - intros s1 Hget. split.
    + rewrite process_channel_eq, Hget. reflexivity.
    + intros seconds Hin.
      destruct (start_time s) as [B |] eqn:Hst.
      * rewrite (get_channel_messages_set env ch 50 s B Hst) in Hget.
        cbn zeta in Hget.
        destruct (collect B _ _ []) as [ms | [secs | ]] eqn:Hc;
          inversion Hget; subst; clear Hget; cbn [log set_ticks trace] in Hin.
        -- apply in_app_or in Hin. destruct Hin as [Hin | [Hin | []]];
             [| discriminate Hin].
           apply in_app_or in Hin. destruct Hin as [Hin | [Hin | []]];
             [left; exact Hin | discriminate Hin].
        -- apply in_app_or in Hin. destruct Hin as [Hin | [Hin | []]].
           ++ apply in_app_or in Hin. destruct Hin as [Hin | [Hin | []]];
                [left; exact Hin | discriminate Hin].
           ++ inversion Hin; subst. right. exists B.
              split; [reflexivity | exact Hc].
        -- apply in_app_or in Hin. destruct Hin as [Hin | [Hin | []]];
             [left; exact Hin | discriminate Hin].
      * rewrite (get_channel_messages_unset env ch 50 s Hst) in Hget.
        inversion Hget; subst. left. exact Hin.
Qed.

(** * Pass accounting *)

Section Accounting.

Variable cfg : Config.t.
Variable env : Telethon.Environment.

Lemma retrieved_total_app (tr1 tr2 : list event) :
  retrieved_total (tr1 ++ tr2) = retrieved_total tr1 + retrieved_total tr2.
Proof.
  induction tr1 as [| e tr1 IH]; [reflexivity |].
  cbn [app]. unfold retrieved_total in *. cbn [fold_right].
  destruct e; rewrite IH; lia.
Qed.

Lemma forwarded_total_app (tr1 tr2 : list event) :
  forwarded_total (tr1 ++ tr2) = forwarded_total tr1 + forwarded_total tr2.
Proof.
  induction tr1 as [| e tr1 IH]; [reflexivity |].
  cbn [app]. unfold forwarded_total in *. cbn [fold_right].
  destruct e; rewrite IH; lia.
Qed.

Lemma accounted_refl (f : Frame) : accounted f f.
Proof.
  exists []. rewrite app_nil_r. cbn. repeat split; lia.
Qed.

Lemma accounted_trans (f1 f2 f3 : Frame) :
  accounted f1 f2 -> accounted f2 f3 -> accounted f1 f3.
Proof.
  intros (d1 & T1 & P1 & F1 & SP1 & SF1 & D1)
         (d2 & T2 & P2 & F2 & SP2 & SF2 & D2).
  exists (d1 ++ d2).
  rewrite retrieved_total_app, forwarded_total_app.
  repeat split; try lia; try congruence.
  rewrite T2, T1, app_assoc. reflexivity.
Qed.

Lemma accounted_forward_new (ch : string) (m : Message.t) (f : Frame) :
  accounted f (exec (forward_new cfg env ch m) f).
Proof.
  destruct f as [s r]. unfold exec. rewrite forward_new_eq. cbn [snd].
  destruct (is_post_processed (db s) ch (Message.id m));
    [apply accounted_refl |].
  rewrite forward_message_eq.
  destruct (Telethon.forward_messages env (ticks s) _ m ch) as [[] | e].
  - exists [Forwarded (Config.TARGET_CHANNEL cfg) (Message.id m) ch; Sleep 1].
    cbn. rewrite <- app_assoc. repeat split; lia.
  - exists [ForwardFailed (Message.id m) ch].
    cbn. repeat split; lia.
Qed.

Lemma accounted_forward_loop (ch : string) (ms : list Message.t) (f : Frame) :
  accounted f (exec (for_each ms (forward_new cfg env ch)) f).
Proof.
  apply (for_each_ind (forward_new cfg env ch) accounted ms).
  - apply accounted_refl.
  - apply accounted_trans.
  - intros m f' _. split;
      [apply forward_new_returns | apply accounted_forward_new].
Qed.

Lemma accounted_process_channel (ch : string) (f : Frame) :
  accounted f (exec (process_channel cfg env ch) f).
Proof.
  destruct f as [s r]. unfold exec. rewrite process_channel_eq. cbn [snd].
  destruct (start_time s) as [B |] eqn:Hst.
  - rewrite (get_channel_messages_set env ch 50 s B Hst). cbn zeta.
    destruct (collect B _ _ []) as [[| first others] | [secs | ]].
    + exists [IterMessages ch 50; Retrieved ch 0].
      cbn. rewrite <- app_assoc. repeat split; lia.
    + match goal with
      | |- context [exec ?m ?f] =>
          destruct (accounted_forward_loop ch (first :: others) f)
            as (d & T & P & F & SP & SF & D)
      end.
      cbn [self_ results log set_db set_ticks trace stats db
           processed forwarded] in *.
      exists ([IterMessages ch 50;
               Retrieved ch (List.length (first :: others))]
              ++ d ++ [Sleep 2]).
      rewrite !retrieved_total_app, !forwarded_total_app.
      cbn [self_ results log trace stats db processed forwarded].
      rewrite T.
      assert (Hr : retrieved_total
                     [IterMessages ch 50;
                      Retrieved ch (List.length (first :: others))]
                   = Z.of_nat (List.length (first :: others)))
        by (unfold retrieved_total; cbn [fold_right]; lia).
      rewrite Hr.
      change (retrieved_total [Sleep 2]) with 0.
      change (forwarded_total [Sleep 2]) with 0.
      change (forwarded_total
                [IterMessages ch 50;
                 Retrieved ch (List.length (first :: others))]) with 0.
      repeat split; try lia.
      * rewrite <- !app_assoc. reflexivity.
      * rewrite D. reflexivity.
    + exists [IterMessages ch 50; Sleep secs].
      cbn. rewrite <- app_assoc. repeat split; lia.
    + exists [IterMessages ch 50].
      cbn. repeat split; lia.
  - rewrite (get_channel_messages_unset env ch 50 s Hst).
    apply accounted_refl.
Qed.

Lemma accounted_channel_loop (chs : list string) (f : Frame) :
  accounted f (exec (for_each chs (process_channel cfg env)) f).
Proof.
  apply (for_each_ind (process_channel cfg env) accounted chs).
  - apply accounted_refl.
  - apply accounted_trans.
  - intros ch f' _. split;
      [apply process_channel_returns | apply accounted_process_channel].
Qed.

End Accounting.

(** C9, as the specification words it, fails: a pass that retrieves two
    candidates and forwards none returns a processed count of two and writes
    a processed count of zero. *)
Lemma accounting_counterexample :
  let s := Scenario.started Scenario.one_channel Scenario.refusing in
  fst (process_all_channels Scenario.one_channel Scenario.refusing s)
  = Return {| processed := 2; forwarded := 0 |}
  /\ statistics
       (db (exec (process_all_channels Scenario.one_channel
                    Scenario.refusing) s))
     = [ Statistics.Build 0 0 0 0 ]
  /\ ~ accounting_as_specified Scenario.one_channel Scenario.refusing s.
Proof.
  cbv zeta.
  split; [vm_compute; reflexivity | split; [vm_compute; reflexivity |]].
  intros H. unfold accounting_as_specified in H.
  rewrite process_all_channels_eq in H. cbv zeta in H.
  specialize (H _ _ eq_refl). vm_compute in H. discriminate H.
Qed.

(** C9, amended.  Pass accounting: a pass returns
    {processed: the candidates its retrievals kept, over all channels,
     forwarded: the forwards that succeeded}; what it then writes to the
    daily counters is not that pair but the counters of [self.stats], both
    of which count the successful forwards: the statistics write receives
    the number of successful forwards as processed count and as published
    count, and zero as filtered count; and [self.stats] is reset. *)
Theorem pass_accounting
    (cfg : Config.t) (env : Telethon.Environment) (s : TelegramNewsClient) :
  exists delta,
    let s' := exec (process_all_channels cfg env) s in
    process_all_channels cfg env s
    = (Return {| processed := retrieved_total delta;
                 forwarded := forwarded_total delta |}, s')
    /\ trace s' = trace s ++ delta
    /\ statistics (db s')
       = statistics
           (update_statistics (Telethon.utcnow env (pred (ticks s'))) (db s)
              (posts_processed (stats s) + forwarded_total delta)
              (posts_forwarded (stats s) + forwarded_total delta) 0)
    /\ stats s' = {| posts_processed := 0; posts_forwarded := 0 |}.
Proof.
  destruct (accounted_channel_loop cfg env (Config.SOURCE_CHANNELS cfg)
              (BuildFrame s {| processed := 0; forwarded := 0 |}))
    as (d & T & P & F & SP & SF & D).
  exists d. cbv zeta.
  pose proof (process_all_channels_eq cfg env s) as E. cbv zeta in E.
  set (f := exec (for_each (Config.SOURCE_CHANNELS cfg)
                           (process_channel cfg env)) _) in *.
  assert (Es : exec (process_all_channels cfg env) s
               = finish_pass env (self_ f))
    by (unfold exec at 1; rewrite E; reflexivity).
  rewrite Es, E.
  cbn [self_ results processed forwarded] in *.
  split; [| split; [| split]].
  - f_equal. f_equal. destruct (results f) as [p q]. cbn in *.
    f_equal; lia.
  - exact T.
  - unfold finish_pass. cbn [db ticks pred].
    rewrite SP, SF. apply update_statistics_same_table. exact D.
  - reflexivity.
Qed.

(** * The watermark *)

Section Watermark.

Variable cfg : Config.t.
Variable env : Telethon.Environment.
Variable ch : string.

Lemma fold_max_ge (l : list Z) (a : Z) :
  a <= fold_left Z.max l a /\ forall x, In x l -> x <= fold_left Z.max l a.
Proof.
  revert a. induction l as [| y l IH]; intros a; cbn [fold_left].
  - split; [lia | intros x []].
  - destruct (IH (Z.max a y)) as [H1 H2]. split; [lia |].
    intros x [<- | Hx]; [lia | apply H2; exact Hx].
Qed.

Lemma fold_max_in (l : list Z) (a : Z) :
  fold_left Z.max l a = a \/ In (fold_left Z.max l a) l.
Proof.
  revert a. induction l as [| y l IH]; intros a; cbn [fold_left].
  - left. reflexivity.
  - destruct (IH (Z.max a y)) as [H | H].
    + rewrite H. destruct (Z.max_spec a y) as [[_ ->] | [_ ->]];
        [right; left; reflexivity | left; reflexivity].
    + right. right. exact H.
Qed.

(** [max_id] is the greatest id of the list. *)
Lemma max_id_greatest (first : Message.t) (others : list Message.t) :
  (forall m, In m (first :: others) ->
     Message.id m <= max_id first others)
  /\ exists m, In m (first :: others)
               /\ Message.id m = max_id first others.
Proof.
  unfold max_id. split.
  - destruct (fold_max_ge (map Message.id others) (Message.id first))
      as [H1 H2].
    intros m [<- | Hm]; [exact H1 |]. apply H2. apply in_map. exact Hm.
  - destruct (fold_max_in (map Message.id others) (Message.id first))
      as [H | H].
    + exists first. split; [left; reflexivity | symmetry; exact H].
    + apply in_map_iff in H. destruct H as (m & Hm & Hin).
      exists m. split; [right; exact Hin | exact Hm].
Qed.

Lemma watermark_kept_forward_loop (c : string) (ms : list Message.t)
    (f : Frame) :
  on_frames (watermark_kept ch) f
    (exec (for_each ms (forward_new cfg env c)) f).
Proof.
  apply forward_loop_move; unfold watermark_kept; try reflexivity.
  intros s1 s2 s3 H1 H2. congruence.
Qed.

(** A move that keeps the boundary and the watermark, and does not turn
    the count of interactions back. *)
Lemma advances_same (B : Z) (s s' : TelegramNewsClient) :
  start_time s' = start_time s ->
  (ticks s <= ticks s')%nat ->
  get_last_message_id (db s') ch = get_last_message_id (db s) ch ->
  watermark_advances env B ch s s'.
Proof.
  intros Hst Hticks Hwm HB Hbelow.
  split; [congruence |]. split; [| split; [exact Hticks | lia]].
  intros n x Hn Hx. rewrite Hwm. apply (Hbelow n x); [lia | exact Hx].
Qed.

Lemma watermark_advances_run (B : Z) (calls : list call)
    (s : TelegramNewsClient) :
  top_never_drops env B ch ->
  watermark_advances env B ch s (exec (run cfg env calls) s).
Proof.
  intros Hdrops. apply run_move.
  - intros s0. apply advances_same; reflexivity || lia.
  - intros s1 s2 s3 H12 H23 HB Hbelow.
    destruct (H12 HB Hbelow) as (HB2 & Hbelow2 & Ht12 & Hw12).
    destruct (H23 HB2 Hbelow2) as (HB3 & Hbelow3 & Ht23 & Hw23).
    repeat split; try assumption; lia.
  - intros s0. apply advances_same; cbn; reflexivity || lia.
  - intros s0 seconds. apply advances_same; cbn; reflexivity || lia.
  - intros s0 i c. apply advances_same; cbn; reflexivity || lia.
  - intros s0 c limit. apply advances_same; cbn; reflexivity || lia.
  - intros s0 c n. apply advances_same; cbn; reflexivity || lia.
  - intros s0 m c _ _. apply advances_same; cbn; reflexivity || lia.
  - intros s0 c t0 first others Hst Hc.
    destruct (String.eqb_spec ch c) as [<- | Hne].
    + intros HB Hbelow.
      assert (t0 = B) by congruence. subst t0.
      assert (Htop : top_id (candidates env B ch (ticks s0))
                     = Some (max_id first others))
        by (unfold candidates; rewrite Hc; reflexivity).
      unfold after_retrieval. cbn [db start_time ticks].
      rewrite get_last_message_id_update.
      split; [exact HB |]. split; [| split; [lia |]].
      * intros n x Hn Hx. cbn [db ticks] in *.
        rewrite get_last_message_id_update.
        apply (Hdrops (ticks s0) n); [lia | exact Htop | exact Hx].
      * apply (Hbelow (ticks s0)); [lia | exact Htop].
    + apply advances_same; unfold after_retrieval; cbn [db start_time ticks];
        [reflexivity | lia |].
      apply get_last_message_id_update_other. exact Hne.
  - intros s0. apply advances_same; cbn; reflexivity || lia.
  - intros s0 t Hnone HB. congruence.
  - intros s0 t c. apply advances_same; cbn; try reflexivity; try lia.
    apply get_last_message_id_add_channel.
Qed.

End Watermark.

(** C3, as the specification words it, fails: message 105 is retrieved and
    forwarded, then deleted from the channel; the next pass retrieves the
    older message 104 alone and the stored watermark goes from 105 back to
    104. *)
Lemma watermark_counterexample :
  let s := Scenario.started Scenario.one_channel Scenario.deleting in
  get_last_message_id
    (db (exec (run Scenario.one_channel Scenario.deleting
                 [ProcessAllChannels]) s)) "@a" = 105
  /\ get_last_message_id
       (db (exec (run Scenario.one_channel Scenario.deleting
                    [ProcessAllChannels; ProcessAllChannels]) s)) "@a" = 104
  /\ ~ watermark_never_regresses Scenario.one_channel Scenario.deleting s "@a".
Proof.
  cbv zeta. split; [reflexivity | split; [reflexivity |]].
  intros H.
  specialize (H [ProcessAllChannels] [ProcessAllChannels]).
  vm_compute in H. apply H. reflexivity.
Qed.

(** C3, amended.  Watermark: whenever the retrieval of a channel in a pass
    keeps a non-empty candidate set, the watermark of the channel at the end
    of its slot is the maximum source message id among the candidates,
    written without a look at the stored value; a retrieval that keeps
    nothing leaves the watermark alone.  Hence [get_last_message_id] never
    regresses over a sequence of calls with a fixed run boundary provided
    the transport never takes back the newest candidate: of two retrievals
    of the channel that keep something, the later keeps an id at least as
    great, and the stored value is not above what a retrieval keeps. *)
Theorem monotonic_watermark
    (cfg : Config.t) (env : Telethon.Environment) (s : TelegramNewsClient)
    (ch : string) :
  (forall r first others s1,
     get_channel_messages env ch 50 s = (Return (first :: others), s1) ->
     get_last_message_id
       (db (self_ (exec (process_channel cfg env ch) (BuildFrame s r)))) ch
     = max_id first others
     /\ (forall m, In m (first :: others) ->
           Message.id m <= max_id first others)
     /\ (exists m, In m (first :: others)
                   /\ Message.id m = max_id first others))
  /\ (forall r s1,
        get_channel_messages env ch 50 s = (Return [], s1) ->
        get_last_message_id
          (db (self_ (exec (process_channel cfg env ch) (BuildFrame s r)))) ch
        = get_last_message_id (db s) ch)
  /\ (forall B,
        start_time s = Some B ->
        top_never_drops env B ch ->
        watermark_below env B ch s ->
        forall calls1 calls2,
          get_last_message_id (db (exec (run cfg env calls1) s)) ch
          <= get_last_message_id
               (db (exec (run cfg env (calls1 ++ calls2)) s)) ch).
Proof.
  split; [| split].
  - intros r first others s1 Hget.
    split; [| apply max_id_greatest].
    unfold exec. rewrite process_channel_eq, Hget. cbn zeta. cbn [snd self_ log db].
    match goal with
    | |- context [exec ?m ?f] =>
        pose proof (watermark_kept_forward_loop cfg env ch ch
                      (first :: others) f) as Hkept
    end.
    unfold on_frames, watermark_kept in Hkept. rewrite Hkept.
    cbn [self_ set_db set_ticks db]. apply get_last_message_id_update.
  - intros r s1 Hget.
    unfold exec. rewrite process_channel_eq, Hget. cbn [snd self_].
    pose proof (get_channel_messages_move env
                  (fun a b => get_last_message_id (db b) ch
                              = get_last_message_id (db a) ch)) as Hmove.
    specialize (Hmove (fun a => eq_refl)).
    assert (Htrans : forall a b c : TelegramNewsClient,
              get_last_message_id (db b) ch = get_last_message_id (db a) ch ->
              get_last_message_id (db c) ch = get_last_message_id (db b) ch ->
              get_last_message_id (db c) ch = get_last_message_id (db a) ch)
      by (intros; congruence).
    specialize (Hmove Htrans (fun a => eq_refl) (fun a b => eq_refl)
                      (fun a b c => eq_refl) (fun a b c => eq_refl)
                      ch 50%nat s).
    unfold exec in Hmove. rewrite Hget in Hmove. exact Hmove.
  - intros B HB Hdrops Hbelow calls1 calls2.
    rewrite run_app.
    destruct (watermark_advances_run cfg env ch B calls1 s Hdrops HB Hbelow)
      as (HB1 & Hbelow1 & _ & _).
    destruct (watermark_advances_run cfg env ch B calls2
                (exec (run cfg env calls1) s) Hdrops HB1 Hbelow1)
      as (_ & _ & _ & Hle).
    exact Hle.
Qed.

(** * The properties on concrete runs *)

(** The scenario of the specification, run from [initialize] on: the first
    pass forwards message 105 alone and sets the watermark of "@a" to 105;
    the second pass, which is shown the same batch, forwards nothing. *)
Example spec_scenario_two_passes :
  let env := Scenario.spec_transport 1003 in
  let s0 := Scenario.started Scenario.two_channels env in
  let s1 := exec (process_all_channels Scenario.two_channels env) s0 in
  start_time s0 = Some 1003
  /\ fst (process_all_channels Scenario.two_channels env s0)
     = Return {| processed := 1; forwarded := 1 |}
  /\ trace s1
     = [IterMessages "@a" 50; Retrieved "@a" 1; Forwarded "@target" 105 "@a";
        Sleep 1; Sleep 2; IterMessages "@b" 50; Sleep 30]
  /\ get_last_message_id (db s1) "@a" = 105
  /\ is_post_processed (db s1) "@a" 105 = true
  /\ fst (process_all_channels Scenario.two_channels env s1)
     = Return {| processed := 1; forwarded := 0 |}.
Proof. cbv zeta. repeat split; reflexivity. Qed.

Lemma spec_batch_newest_first (T0 : Z) : newest_first (Scenario.spec_batch T0).
Proof.
  unfold newest_first, Scenario.spec_batch.
  repeat apply SSorted_cons; try apply SSorted_nil;
    repeat apply Forall_cons; try apply Forall_nil;
    intros da db Ha Hb; cbn in Ha, Hb; inversion Ha; inversion Hb; lia.
Qed.

Lemma candidate_filtering_witness :
  start_time (Scenario.fresh 1000) = Some 1000
  /\ fst (get_channel_messages (Scenario.spec_transport 1000) "@a" 50
            (Scenario.fresh 1000))
     = Return (filter (retained 1000) (Scenario.spec_batch 1000))
  /\ fst (get_channel_messages (Scenario.spec_transport 1000) "@a" 50
            (Scenario.fresh 1000))
     = Return [message 105 "hi" (1000 + 5)].
Proof.
  destruct (candidate_filtering (Scenario.spec_transport 1000)
              (Scenario.fresh 1000) 1000 "@a" 50 eq_refl) as (H1 & _ & H3).
  split; [reflexivity |]. split.
  - apply H1; [reflexivity | apply spec_batch_newest_first].
  - apply H3. reflexivity.
Defined.

Lemma monotonic_watermark_witness :
  let s := Scenario.started Scenario.one_channel Scenario.steady in
  get_last_message_id
    (db (self_ (exec (process_channel Scenario.one_channel Scenario.steady "@a")
                     (BuildFrame s {| processed := 0; forwarded := 0 |}))))
    "@a"
  = max_id (message 105 "hi" 2005) [message 104 "yo" 2003]
  /\ get_last_message_id
       (db (exec (run Scenario.one_channel Scenario.steady
                    [ProcessAllChannels]) s)) "@a"
     <= get_last_message_id
          (db (exec (run Scenario.one_channel Scenario.steady
                       ([ProcessAllChannels] ++ [ProcessAllChannels])) s)) "@a".
Proof.
  cbv zeta.
  destruct (monotonic_watermark Scenario.one_channel Scenario.steady
              (Scenario.started Scenario.one_channel Scenario.steady) "@a")
    as (H1 & _ & H3).
  split.
  - apply (H1 {| processed := 0; forwarded := 0 |}
              (message 105 "hi" 2005) [message 104 "yo" 2003]
              (exec (get_channel_messages Scenario.steady "@a" 50)
                    (Scenario.started Scenario.one_channel Scenario.steady))).
    reflexivity.
  - apply (H3 1003); [reflexivity | |].
    + intros n n' x x' _ Hx Hx'. cbn in Hx, Hx'. inversion Hx. inversion Hx'.
      lia.
    + intros n x _ Hx. cbn in Hx. inversion Hx. vm_compute. discriminate.
Defined.

Lemma error_isolation_witness :
  let s := Scenario.started Scenario.one_channel Scenario.refusing in
  let m := message 105 "hi" 2005 in
  forward_message Scenario.one_channel Scenario.refusing m "@a" s
  = (Return false, after_failure m "@a" s)
  /\ is_post_processed (db (after_failure m "@a" s)) "@a" 105 = false
  /\ exists delta,
       trace (self_ (exec (for_each [m; message 104 "yo" 2003]
                             (forward_new Scenario.one_channel
                                Scenario.refusing "@a"))
                          (BuildFrame s {| processed := 0; forwarded := 0 |})))
       = trace s ++ delta
       /\ existsb (is_attempt_of "@a" 104) delta = true.
Proof.
  cbv zeta.
  destruct (error_isolation Scenario.one_channel Scenario.refusing
              (Scenario.started Scenario.one_channel Scenario.refusing)
              "@a" (message 105 "hi" 2005) Exception
              {| processed := 0; forwarded := 0 |} eq_refl eq_refl)
    as (H1 & H2 & _ & H4 & _).
  split; [exact H1 |]. split; [exact H2 |].
  apply (H4 [message 104 "yo" 2003] (message 104 "yo" 2003));
    [left; reflexivity | reflexivity].
Defined.

Lemma inter_channel_pacing_witness :
  let s := Scenario.started Scenario.one_channel Scenario.steady in
  let r := {| processed := 0; forwarded := 0 |} in
  (exists f' mid,
     process_channel Scenario.one_channel Scenario.steady "@a" (BuildFrame s r)
     = (Return tt, f')
     /\ trace (self_ f')
        = trace (exec (get_channel_messages Scenario.steady "@a" 50) s)
          ++ mid ++ [Sleep 2])
  /\ process_channel Scenario.two_channels Scenario.quiet "@a"
       (BuildFrame (Scenario.started Scenario.two_channels Scenario.quiet) r)
     = (Return tt,
        BuildFrame
          (exec (get_channel_messages Scenario.quiet "@a" 50)
                (Scenario.started Scenario.two_channels Scenario.quiet)) r).
Proof.
  cbv zeta. split.
  - destruct (inter_channel_pacing Scenario.one_channel Scenario.steady
                (Scenario.started Scenario.one_channel Scenario.steady)
                {| processed := 0; forwarded := 0 |} "@a") as [H1 _].
    apply (H1 (message 105 "hi" 2005) [message 104 "yo" 2003]).
    reflexivity.
  - destruct (inter_channel_pacing Scenario.two_channels Scenario.quiet
                (Scenario.started Scenario.two_channels Scenario.quiet)
                {| processed := 0; forwarded := 0 |} "@a") as [_ H2].
    apply H2. reflexivity.
Defined.

Lemma rate_limit_handling_witness :
  let s := Scenario.fresh 1000 in
  let env := Scenario.spec_transport 1000 in
  let r := {| processed := 0; forwarded := 0 |} in
  get_channel_messages env "@b" 50 s = (Return [], after_flood_wait "@b" 30 s)
  /\ process_channel Scenario.two_channels env "@b" (BuildFrame s r)
     = (Return tt, BuildFrame (after_flood_wait "@b" 30 s) r)
  /\ exists delta,
       trace (self_ (exec (for_each ["@b"; "@a"]
                             (process_channel Scenario.two_channels env))
                          (BuildFrame s r)))
       = trace s ++ [IterMessages "@b" 50; Sleep 30; IterMessages "@a" 50]
                 ++ delta.
Proof.
  cbv zeta.
  destruct (rate_limit_handling Scenario.two_channels
              (Scenario.spec_transport 1000) (Scenario.fresh 1000) 1000 "@b" 30
              {| processed := 0; forwarded := 0 |} eq_refl eq_refl)
    as (H1 & H2 & _ & H4).
  split; [exact H1 |]. split; [exact H2 |]. apply (H4 "@a" []).
Defined.

Lemma run_boundary_stability_witness :
  let s := Scenario.started Scenario.two_channels Scenario.quiet in
  start_time s = Some 1003
  /\ start_time (exec (initialize Scenario.two_channels Scenario.quiet) s)
     = Some 1003
  /\ start_time (exec (health_check Scenario.two_channels Scenario.quiet) s)
     = Some 1003
  /\ start_time
       (exec (run Scenario.two_channels Scenario.quiet
                [ProcessAllChannels; HealthCheck; Initialize;
                 ProcessAllChannels]) s)
     = Some 1003
  /\ get_channel_messages Scenario.quiet "@a" 50 init = (Return [], init).
Proof.
  cbv zeta.
  destruct (run_boundary_stability Scenario.two_channels Scenario.quiet
              (Scenario.started Scenario.two_channels Scenario.quiet))
    as (H1 & _ & _).
  destruct (H1 1003 eq_refl) as (Hi & Hh & Hr).
  destruct (run_boundary_stability Scenario.two_channels Scenario.quiet init)
    as (_ & _ & H3).
  split; [reflexivity |]. split; [exact Hi |]. split; [exact Hh |].
  split; [apply Hr | apply H3; reflexivity].
Defined.

(** * Further properties of the tables *)

Import Invariants.

Section MoreTables.

Lemma filter_idem {A : Type} (p : A -> bool) (l : list A) :
  filter p (filter p l) = filter p l.
Proof. apply filter_filter_implied. auto. Qed.

Lemma filter_none {A : Type} (p : A -> bool) (l : list A) :
  filter p (filter (fun x => negb (p x)) l) = [].
Proof.
  induction l as [| x l IH]; [reflexivity |]. cbn.
  destruct (p x) eqn:Hp; cbn; [exact IH |]. rewrite Hp. exact IH.
Qed.

Lemma registered_add_channel (now : Z) (db : DatabaseManager)
    (ch ch' : string) :
  registered (Database.add_channel now db ch') ch
  = (ch' =? ch)%string || registered db ch.
Proof.
  unfold registered, Database.add_channel.
  destruct (existsb (channel_key ch') (channel_settings db)) eqn:Hex.
  - destruct (String.eqb_spec ch' ch) as [-> | Hne]; [| reflexivity].
    rewrite Hex. reflexivity.
  - cbn [channel_settings]. rewrite existsb_app. cbn.
    unfold channel_key at 2. cbn. rewrite orb_false_r. apply orb_comm.
Qed.

End MoreTables.

(** X1. Registering a channel is idempotent and never disturbs a row that
    exists: [add_channel] on a registered channel returns the database
    unchanged, whatever the instant; afterwards the channel is registered;
    a second registration changes nothing; and no channel's watermark is
    altered (a new row starts at 0, which is what an unregistered channel
    reads as). *)
Theorem add_channel_idempotent
    (t1 t2 : Z) (db : DatabaseManager) (ch : string) :
  (registered db ch = true -> Database.add_channel t1 db ch = db)
  /\ registered (Database.add_channel t1 db ch) ch = true
  /\ Database.add_channel t2 (Database.add_channel t1 db ch) ch
     = Database.add_channel t1 db ch
  /\ (forall ch', get_last_message_id (Database.add_channel t1 db ch) ch'
                  = get_last_message_id db ch').
Proof.
  assert (H1 : forall d, registered d ch = true ->
                         forall t, Database.add_channel t d ch = d).
  { intros d Hd t. unfold Database.add_channel. unfold registered in Hd.
    rewrite Hd. reflexivity. }
  assert (H2 : registered (Database.add_channel t1 db ch) ch = true)
    by (rewrite registered_add_channel, String.eqb_refl; reflexivity).
  split; [intros H; apply H1; exact H |]. split; [exact H2 |].
  split; [apply H1; exact H2 |].
  intros ch'. apply get_last_message_id_add_channel.
Qed.

(** X2. Recording a post is an upsert: after [add_processed_post] the table
    holds exactly one row for the pair; recording the same pair again
    replaces that row by the latest values, as if the first recording had
    not happened; and the records of every other pair are as before. *)
Theorem add_processed_post_upsert
    (t1 t2 : Z) (db : DatabaseManager) (ch : string) (id : Z)
    (text1 text2 : string) (date1 date2 : option Z)
    (summary1 summary2 : option string) (pub1 pub2 : bool) :
  List.length
    (filter (post_key ch id)
       (processed_posts
          (add_processed_post t1 db ch id text1 date1 summary1 pub1)))
  = 1%nat
  /\ add_processed_post t2
       (add_processed_post t1 db ch id text1 date1 summary1 pub1)
       ch id text2 date2 summary2 pub2
     = add_processed_post t2 db ch id text2 date2 summary2 pub2
  /\ (forall ch' id',
        (ch', id') <> (ch, id) ->
        filter (post_key ch' id')
          (processed_posts
             (add_processed_post t1 db ch id text1 date1 summary1 pub1))
        = filter (post_key ch' id') (processed_posts db)).
Proof.
  split; [| split].
  - unfold add_processed_post. cbn [processed_posts].
    rewrite filter_app, length_app, filter_none. cbn [filter].
    rewrite post_key_new, String.eqb_refl, Z.eqb_refl. reflexivity.
  - unfold add_processed_post. cbn [processed_posts channel_settings statistics].
    f_equal. rewrite filter_app. cbn [filter].
    rewrite post_key_new, String.eqb_refl, Z.eqb_refl. cbn [andb negb].
    rewrite app_nil_r.
    rewrite (filter_idem (fun r => negb (post_key ch id r))). reflexivity.
  - intros ch' id' Hne.
    assert (Hk : (ch =? ch')%string && (id =? id') = false).
    { destruct (String.eqb_spec ch ch') as [-> | Hc]; [| reflexivity].
      destruct (Z.eqb_spec id id') as [-> | Hi]; [| reflexivity].
      congruence. }
    unfold add_processed_post. cbn [processed_posts].
    rewrite filter_app. cbn [filter].
    rewrite post_key_new, Hk, app_nil_r.
    apply filter_filter_implied. intros r. apply post_key_other. exact Hk.
Qed.

(** * Invariants of the running client *)

Section RunInvariants.

Variable cfg : Config.t.
Variable env : Telethon.Environment.

Lemma NoDup_snoc {A : Type} (l : list A) (x : A) :
  NoDup l -> ~ In x l -> NoDup (l ++ [x]).
Proof.
  induction 1 as [| y l Hy Hl IH]; intros Hx; cbn.
  - constructor; [intros [] | constructor].
  - constructor.
    + intros Hin. apply in_app_or in Hin. destruct Hin as [Hin | [-> | []]].
      * exact (Hy Hin).
      * apply Hx. left. reflexivity.
    + apply IH. intros Hin. apply Hx. right. exact Hin.
Qed.

(** Deleting rows cannot make two keys collide. *)
Lemma keys_unique_after_delete {Row Key : Type} (key : Row -> Key)
    (keep : Row -> bool) :
  forall rows : list Row,
    NoDup (map key rows) -> NoDup (map key (filter keep rows)).
Proof.
  intros rows. induction rows as [| row rows IH]; cbn; intros Huniq;
    [constructor |].
  inversion Huniq as [| k ks Hfresh Hrest]; subst.
  destruct (keep row); cbn; [| apply IH; exact Hrest].
  constructor; [| apply IH; exact Hrest].
  intros Hin. apply Hfresh. apply in_map_iff in Hin.
  destruct Hin as (other & Hkey & Hother). apply filter_In in Hother.
  apply in_map_iff. exists other. tauto.
Qed.

Lemma unique_keys_add_processed_post (now : Z) (db : DatabaseManager)
    (ch : string) (id : Z) (text : string) (post_date : option Z)
    (summary : option string) (published : bool) :
  unique_keys db ->
  unique_keys (add_processed_post now db ch id text post_date summary published).
Proof.
  intros [Hp Hc]. split; [| exact Hc].
  unfold add_processed_post. cbn [processed_posts].
  rewrite map_app. cbn [map]. apply NoDup_snoc.
  - apply keys_unique_after_delete. exact Hp.
  - intros Hin. apply in_map_iff in Hin. destruct Hin as (r & Hr & Hrin).
    apply filter_In in Hrin. destruct Hrin as [_ Hneg].
    unfold post_id in Hr. injection Hr as Hc' Hi'.
    unfold post_key in Hneg.
    rewrite Hc', Hi', String.eqb_refl, Z.eqb_refl in Hneg. discriminate.
Qed.

Lemma unique_keys_update_last_message_id (now : Z) (db : DatabaseManager)
    (ch : string) (id : Z) :
  unique_keys db -> unique_keys (update_last_message_id now db ch id).
Proof.
  intros [Hp Hc]. split; [exact Hp |].
  unfold update_last_message_id. cbn [channel_settings].
  rewrite map_app. cbn [map]. apply NoDup_snoc.
  - apply keys_unique_after_delete. exact Hc.
  - intros Hin. apply in_map_iff in Hin. destruct Hin as (r & Hr & Hrin).
    apply filter_In in Hrin. destruct Hrin as [_ Hneg].
    unfold channel_key in Hneg. cbn in Hr.
    rewrite Hr, String.eqb_refl in Hneg. discriminate.
Qed.

Lemma unique_keys_add_channel (now : Z) (db : DatabaseManager) (ch : string) :
  unique_keys db -> unique_keys (Database.add_channel now db ch).
Proof.
  intros [Hp Hc]. unfold Database.add_channel.
  destruct (existsb (channel_key ch) (channel_settings db)) eqn:Hex;
    [split; assumption |].
  split; [exact Hp |]. cbn [channel_settings].
  rewrite map_app. cbn [map]. apply NoDup_snoc; [exact Hc |].
  intros Hin. apply in_map_iff in Hin. destruct Hin as (r & Hr & Hrin).
  assert (Ht : existsb (channel_key ch) (channel_settings db) = true).
  { apply existsb_exists. exists r. split; [exact Hrin |].
    unfold channel_key. rewrite Hr. apply String.eqb_refl. }
  congruence.
Qed.

Lemma keeps_unique_keys_run (calls : list call) (s : TelegramNewsClient) :
  keeps_unique_keys s (exec (run cfg env calls) s).
Proof.
  apply run_move; unfold keeps_unique_keys.
  - auto.
  - auto.
  - intros s0 H. exact H.
  - intros s0 seconds H. exact H.
  - intros s0 i c H. exact H.
  - intros s0 c limit H. exact H.
  - intros s0 c n H. exact H.
  - intros s0 m ch _ _. unfold after_forward. cbn [db].
    apply unique_keys_add_processed_post.
  - intros s0 ch t0 first others _ _. unfold after_retrieval. cbn [db].
    apply unique_keys_update_last_message_id.
  - intros s0 [Hp Hc]. split; assumption.
  - intros s0 t _ H. exact H.
  - intros s0 t ch. cbn [set_db db]. apply unique_keys_add_channel.
Qed.

Lemma keeps_all_published_run (calls : list call) (s : TelegramNewsClient) :
  keeps_all_published s (exec (run cfg env calls) s).
Proof.
  apply run_move; unfold keeps_all_published, all_published.
  - auto.
  - auto.
  - intros s0 H. exact H.
  - intros s0 seconds H. exact H.
  - intros s0 i c H. exact H.
  - intros s0 c limit H. exact H.
  - intros s0 c n H. exact H.
  - intros s0 m ch _ _ H. unfold after_forward. cbn [db].
    unfold add_processed_post. cbn [processed_posts].
    apply Forall_app. split.
    + rewrite Forall_forall in *. intros r Hr. apply filter_In in Hr.
      apply H. tauto.
    + constructor; [split; reflexivity | constructor].
  - intros s0 c t0 first others _ _ H. exact H.
  - intros s0 H. exact H.
  - intros s0 t _ H. exact H.
  - intros s0 t ch H. cbn [set_db db].
    rewrite Forall_forall in *. intros r Hr. apply H.
    unfold Database.add_channel in Hr.
    destruct (existsb (channel_key ch) (channel_settings (db s0)));
      exact Hr.
Qed.

End RunInvariants.

(** X3. The two UNIQUE constraints of the schema are kept by every write of
    the client: from a database with at most one record per (channel,
    message id) and one settings row per channel, any sequence of calls,
    whatever the transport does, ends in such a database; the fresh
    database is one. *)
Theorem unique_keys_invariant
    (cfg : Config.t) (env : Telethon.Environment) (calls : list call)
    (s : TelegramNewsClient) :
  unique_keys (db init)
  /\ (unique_keys (db s) -> unique_keys (db (exec (run cfg env calls) s))).
Proof.
  split.
  - split; constructor.
  - apply keeps_unique_keys_run.
Qed.

(** * No pair is forwarded twice while its record is kept *)

Section Once.

Import Retention.

Variable cfg : Config.t.
Variable env : Telethon.Environment.
Variable sqlite : nat -> bool.
Variable ch : string.
Variable id : Z.
Variable since : Z.
Variable until : nat.

Hypothesis clock :
  forall n, (n < until)%nat -> since <= Telethon.utcnow env n.





Hypothesis up : forall n, sqlite n = true.


End Once.


(** X5. Every record the client writes is marked published and annotated
    as a forward, so on a database that only the client has written,
    [show_status] reports as many published posts as posts in total. *)
Theorem status_counts_agree
    (cfg : Config.t) (env : Telethon.Environment) (calls : list call)
    (s : TelegramNewsClient) :
  all_published (db s) ->
  all_published (db (exec (run cfg env calls) s))
  /\ Maintenance.published_posts (db (exec (run cfg env calls) s))
     = Maintenance.total_posts (db (exec (run cfg env calls) s)).
Proof.
  intros H.
  pose proof (keeps_all_published_run cfg env calls s H) as H'.
  split; [exact H' |].
  unfold Maintenance.published_posts, Maintenance.total_posts.
  unfold all_published in H'.
  induction H' as [| r l [Hr _] Hl IH]; [reflexivity |].
  cbn. rewrite Hr. cbn. rewrite IH. reflexivity.
Qed.

(** * Initialisation and the liveness check *)

Section Reconnect.

Variable cfg : Config.t.
Variable env : Telethon.Environment.

Lemma only_registers_refl (s : TelegramNewsClient) : only_registers s s.
Proof.
  unfold only_registers, boundary_kept. repeat (split; [auto; fail |]).
  exists []. rewrite app_nil_r. repeat constructor.
Qed.

Lemma registered_app (d d' : DatabaseManager)
    (added : list ChannelSettings.row) (ch : string) :
  channel_settings d' = channel_settings d ++ added ->
  registered d' ch
  = registered d ch || existsb (channel_key ch) added.
Proof. intros H. unfold registered. rewrite H. apply existsb_app. Qed.

Lemma not_among (ch : string) (rows : list ChannelSettings.row) :
  existsb (channel_key ch) rows = false ->
  ~ In ch (map ChannelSettings.channel_username rows).
Proof.
  intros H Hin. apply in_map_iff in Hin. destruct Hin as (r & Hr & Hrin).
  assert (Ht : existsb (channel_key ch) rows = true).
  { apply existsb_exists. exists r. split; [exact Hrin |].
    unfold channel_key. rewrite Hr. apply String.eqb_refl. }
  congruence.
Qed.

Lemma NoDup_app_disjoint {A : Type} (l1 l2 : list A) :
  NoDup l1 -> NoDup l2 -> (forall x, In x l2 -> ~ In x l1) ->
  NoDup (l1 ++ l2).
Proof.
  intros H1 H2 Hd. induction H1 as [| x l1 Hx Hl1 IH]; [exact H2 |].
  cbn. constructor.
  - intros Hin. apply in_app_or in Hin. destruct Hin as [Hin | Hin].
    + exact (Hx Hin).
    + apply (Hd x Hin). left. reflexivity.
  - apply IH. intros y Hy Hin. apply (Hd y Hy). right. exact Hin.
Qed.

Lemma only_registers_trans (s1 s2 s3 : TelegramNewsClient) :
  only_registers s1 s2 -> only_registers s2 s3 -> only_registers s1 s3.
Proof.
  intros (A1 & B1 & C1 & D1 & E1 & F1 & G1 & a1 & S1 & R1 & N1)
         (A2 & B2 & C2 & D2 & E2 & F2 & G2 & a2 & S2 & R2 & N2).
  split; [intros ch id; rewrite A2; apply A1 |].
  split; [intros ch; rewrite B2; apply B1 |].
  split; [congruence |]. split; [congruence |]. split; [congruence |].
  split; [congruence |].
  split; [intros t Ht; apply G2; apply G1; exact Ht |].
  exists (a1 ++ a2). split; [rewrite S2, S1, app_assoc; reflexivity |].
  assert (Hnew : forall r, In r a2 ->
            registered (db s1) (ChannelSettings.channel_username r) = false
            /\ existsb (channel_key (ChannelSettings.channel_username r)) a1
               = false).
  { intros r Hr. rewrite Forall_forall in R2. destruct (R2 r Hr) as [Hreg _].
    rewrite (registered_app (db s1) (db s2) a1 _ S1) in Hreg.
    apply orb_false_iff in Hreg. exact Hreg. }
  split.
  - apply Forall_app. split; [exact R1 |].
    rewrite Forall_forall in *. intros r Hr.
    destruct (R2 r Hr) as (_ & Hw & Ha). destruct (Hnew r Hr) as [Hreg _].
    auto.
  - rewrite map_app. apply NoDup_app_disjoint; [exact N1 | exact N2 |].
    intros ch Hin. apply in_map_iff in Hin. destruct Hin as (r & <- & Hr).
    apply not_among. apply (Hnew r Hr).
Qed.

Lemma only_registers_register (s : TelegramNewsClient) (t : Z) (ch : string) :
  only_registers s (set_db (fun d => Database.add_channel t d ch) s).
Proof.
  unfold only_registers, boundary_kept, set_db. cbn [db stats trace start_time].
  split; [intros c id; apply is_post_processed_add_channel |].
  split; [intros c; apply get_last_message_id_add_channel |].
  unfold Database.add_channel, registrations, registered.
  destruct (existsb (channel_key ch) (channel_settings (db s))) eqn:Hex.
  - repeat (split; [auto; fail |]).
    exists []. rewrite app_nil_r. repeat constructor.
  - cbn [processed_posts statistics channel_settings].
    repeat (split; [auto; fail |]).
    eexists. split; [reflexivity |]. split.
    + constructor; [| constructor].
      cbn [ChannelSettings.channel_username ChannelSettings.last_message_id
           ChannelSettings.is_active]. auto.
    + cbn [map]. constructor; [intros [] | constructor].
Qed.

Lemma only_registers_tick (s : TelegramNewsClient) :
  only_registers s (set_ticks (S (ticks s)) s).
Proof.
  unfold only_registers, boundary_kept. repeat (split; [auto; fail |]).
  exists []. cbn [set_ticks db]. rewrite app_nil_r. repeat constructor.
Qed.

Lemma only_registers_boundary (s : TelegramNewsClient) (t : Z) :
  start_time s = None -> only_registers s (set_start_time (Some t) s).
Proof.
  intros Hnone. unfold only_registers, boundary_kept.
  repeat (split; [auto; fail |]).
  split; [intros t0 Ht0; congruence |].
  exists []. cbn [set_start_time db]. rewrite app_nil_r. repeat constructor.
Qed.

Lemma only_registers_initialize (s : TelegramNewsClient) :
  exists b s', initialize cfg env s = (Return b, s') /\ only_registers s s'.
Proof.
  apply initialize_move.
  - apply only_registers_refl.
  - apply only_registers_trans.
  - apply only_registers_tick.
  - apply only_registers_boundary.
  - apply only_registers_register.
Qed.

Lemma only_registers_health_check (s : TelegramNewsClient) :
  exists s', health_check cfg env s = (Return tt, s') /\ only_registers s s'.
Proof.
  apply health_check_move.
  - apply only_registers_refl.
  - apply only_registers_trans.
  - apply only_registers_tick.
  - apply only_registers_boundary.
  - apply only_registers_register.
Qed.

(** After the registration loop every channel of the list has its row,
    and whoever had one keeps it. *)
Lemma register_all (chs : list string) :
  forall s,
    exists s',
      for_each chs (register_channel env) s = (Return tt, s')
      /\ start_time s' = start_time s
      /\ (forall ch, registered (db s) ch = true ->
                     registered (db s') ch = true)
      /\ (forall ch, In ch chs -> registered (db s') ch = true).
Proof.
  induction chs as [| c chs IH]; intros s.
  - exists s. split; [reflexivity |]. split; [reflexivity |].
    split; [auto | intros ch []].
  - rewrite for_each_cons by reflexivity.
    set (s1 := exec (register_channel env c) s).
    assert (H1 : start_time s1 = start_time s) by reflexivity.
    assert (H2 : forall ch, registered (db s1) ch
                            = (c =? ch)%string || registered (db s) ch).
    { intros ch. unfold s1, exec, register_channel, bind, now, await, modify.
      cbn [fst snd set_db set_ticks db]. apply registered_add_channel. }
    destruct (IH s1) as (s' & Heq & Hst & Hkeep & Hall).
    exists s'. split; [exact Heq |]. split; [congruence |]. split.
    + intros ch Hch. apply Hkeep. rewrite H2, Hch. apply orb_true_r.
    + intros ch [<- | Hin].
      * apply Hkeep. rewrite H2, String.eqb_refl. reflexivity.
      * apply Hall. exact Hin.
Qed.

End Reconnect.

(** X6. A reconnect loses nothing: [initialize], run at start or again by the
    liveness check, and the liveness check itself always return, and they
    leave every processed record, every channel's watermark, the statistics
    table, the counters of [self.stats], an established run boundary and
    the trace exactly as they were.  Every row of [channel_settings] stays
    as it is and where it is (watermark, active flag, date); all that is
    added, behind them, are rows of channels that had none, one for each,
    with watermark 0 and the active flag set. *)
Theorem reconnect_preserves_state
    (cfg : Config.t) (env : Telethon.Environment) (s : TelegramNewsClient) :
  (exists b s',
     initialize cfg env s = (Return b, s') /\ only_registers s s')
  /\ (exists s',
        health_check cfg env s = (Return tt, s') /\ only_registers s s').
Proof.
  split;
    [apply only_registers_initialize | apply only_registers_health_check].
Qed.

(** X7. What [initialize] answers.  It returns true exactly when the session
    starts, is authorised and [get_me] answers; then the run boundary is
    established and every configured channel has a settings row.  When it
    returns false (the start or [get_me] raised, or the user is not
    authorised) the database, the boundary and the trace are untouched. *)
Theorem initialize_outcome
    (cfg : Config.t) (env : Telethon.Environment) (s : TelegramNewsClient) :
  exists b s',
    initialize cfg env s = (Return b, s')
    /\ (b = true <->
        Telethon.start env (ticks s) = Return tt
        /\ Telethon.is_user_authorized env (S (ticks s)) = Return true
        /\ Telethon.get_me env (S (S (ticks s))) = Return tt)
    /\ (b = true ->
        (exists t, start_time s' = Some t)
        /\ forall ch, In ch (Config.SOURCE_CHANNELS cfg) ->
                      registered (db s') ch = true)
    /\ (b = false ->
        db s' = db s /\ start_time s' = start_time s /\ trace s' = trace s).
Proof.
  unfold initialize, try_except. unfold bind at 1, await at 1.
  destruct (Telethon.start env (ticks s)) as [[] | e] eqn:Hstart.
  2:{ do 2 eexists. split; [reflexivity |].
      split; [split; [discriminate | intros (H & _); discriminate] |].
      split; [discriminate | intros _; repeat split]. }
  unfold bind at 1, await at 1. cbn [set_ticks ticks].
  destruct (Telethon.is_user_authorized env (S (ticks s)))
    as [[|] | e] eqn:Hauth.
  2:{ do 2 eexists. split; [reflexivity |].
      split; [split; [discriminate | intros (_ & H & _); discriminate] |].
      split; [discriminate | intros _; repeat split]. }
  2:{ do 2 eexists. split; [reflexivity |].
      split; [split; [discriminate | intros (_ & H & _); discriminate] |].
      split; [discriminate | intros _; repeat split]. }
  cbn [negb]. unfold bind at 1, await at 1. cbn [set_ticks ticks].
  destruct (Telethon.get_me env (S (S (ticks s)))) as [[] | e] eqn:Hme.
  2:{ do 2 eexists. split; [reflexivity |].
      split; [split; [discriminate | intros (_ & _ & H); discriminate] |].
      split; [discriminate | intros _; repeat split]. }
  unfold bind at 1, gets at 1. unfold bind at 1.
  match goal with
  | |- context [match start_time ?s3 with _ => _ end ?s3'] =>
      assert (H4 : exists s4,
        (match start_time s3 with
         | Some _ => ret tt
         | None => t <- now env ;; modify (set_start_time (Some t))
         end) s3' = (Return tt, s4)
        /\ (exists t, start_time s4 = Some t))
  end.
  { cbn [set_ticks start_time].
    destruct (start_time s) as [t |] eqn:Hst.
    - eexists. split; [reflexivity |]. cbn. eauto.
    - eexists. split; [reflexivity |]. cbn. eauto. }
  destruct H4 as (s4 & -> & t & Ht).
  unfold bind at 1.
  destruct (register_all env (Config.SOURCE_CHANNELS cfg) s4)
    as (s5 & -> & Hst5 & _ & Hall).
  do 2 eexists. split; [reflexivity |].
  split; [split; [intros _; repeat split; reflexivity | reflexivity] |].
  split; [| discriminate].
  intros _. split; [exists t; congruence | exact Hall].
Qed.

(** * Further properties of a pass *)

Section MorePass.

Variable cfg : Config.t.
Variable env : Telethon.Environment.

(** Whatever the order of the batch and however the iteration ends, what
    the walk keeps comes from the batch and passes the test. *)
Lemma collect_sound (B : Z) (finish : option error) (batch : list Message.t) :
  forall acc ms,
    collect B batch finish acc = Return ms ->
    forall m, In m ms -> In m acc \/ (In m batch /\ retained B m = true).
Proof.
  induction batch as [| x rest IH]; intros acc ms Hc m Hin.
  - cbn in Hc. destruct finish; [discriminate |].
    inversion Hc; subst. left. exact Hin.
  - cbn [collect] in Hc.
    assert (Hx : retained B x =
                 match Message.date x with
                 | Some d => (B <? d) && has_plain_text x
                 | None => false
                 end) by apply has_plain_text_retained.
    destruct (Message.date x) as [d |].
    + destruct (B <? d) eqn:Hd.
      * destruct (has_plain_text x) eqn:Ht.
        -- destruct (IH _ _ Hc m Hin) as [Hacc | [Hr Hm]].
           ++ apply in_app_or in Hacc. destruct Hacc as [Hacc | [<- | []]].
              ** left. exact Hacc.
              ** right. split; [left; reflexivity | exact Hx].
           ++ right. split; [right; exact Hr | exact Hm].
        -- destruct (IH _ _ Hc m Hin) as [Hacc | [Hr Hm]];
             [left; exact Hacc | right; split; [right; exact Hr | exact Hm]].
      * inversion Hc; subst. left. exact Hin.
    + destruct (IH _ _ Hc m Hin) as [Hacc | [Hr Hm]];
        [left; exact Hacc | right; split; [right; exact Hr | exact Hm]].
Qed.

Lemma forwards_paced_app_upto (n : nat) :
  forall d1 d2 : list event,
    (List.length d1 <= n)%nat ->
    forwards_paced d1 = true -> forwards_paced d2 = true ->
    forwards_paced (d1 ++ d2) = true.
Proof.
  induction n as [| n IH]; intros d1 d2 Hlen H1 H2.
  - destruct d1; [exact H2 | cbn in Hlen; lia].
  - destruct d1 as [| e d1]; [exact H2 |]. cbn [List.length] in Hlen.
    destruct e; cbn [app forwards_paced] in *;
      try (apply IH; [lia | exact H1 | exact H2]).
    destruct d1 as [| e' d1]; [discriminate |].
    destruct e'; try discriminate.
    cbn [app]. destruct seconds as [| [p | p |] |]; try discriminate.
    apply IH; [cbn [List.length] in Hlen; lia | exact H1 | exact H2].
Qed.

Lemma forwards_paced_app (d1 d2 : list event) :
  forwards_paced d1 = true -> forwards_paced d2 = true ->
  forwards_paced (d1 ++ d2) = true.
Proof. apply (forwards_paced_app_upto (List.length d1)). lia. Qed.

Lemma paced_forwards_refl (f : Frame) : paced_forwards f f.
Proof. exists []. rewrite app_nil_r. split; reflexivity. Qed.

Lemma paced_forwards_trans (f1 f2 f3 : Frame) :
  paced_forwards f1 f2 -> paced_forwards f2 f3 -> paced_forwards f1 f3.
Proof.
  intros (d1 & T1 & P1) (d2 & T2 & P2). exists (d1 ++ d2). split.
  - rewrite T2, T1, app_assoc. reflexivity.
  - apply forwards_paced_app; assumption.
Qed.

Lemma paced_forwards_forward_new (ch : string) (m : Message.t) (f : Frame) :
  paced_forwards f (exec (forward_new cfg env ch m) f).
Proof.
  destruct f as [s r]. unfold exec. rewrite forward_new_eq. cbn [snd].
  destruct (is_post_processed (db s) ch (Message.id m));
    [apply paced_forwards_refl |].
  rewrite forward_message_eq.
  destruct (Telethon.forward_messages env (ticks s) _ m ch) as [[] | e].
  - exists [Forwarded (Config.TARGET_CHANNEL cfg) (Message.id m) ch; Sleep 1].
    cbn. rewrite <- app_assoc. split; reflexivity.
  - exists [ForwardFailed (Message.id m) ch]. cbn. split; reflexivity.
Qed.

Lemma paced_forwards_forward_loop (ch : string) (ms : list Message.t)
    (f : Frame) :
  paced_forwards f (exec (for_each ms (forward_new cfg env ch)) f).
Proof.
  apply (for_each_ind (forward_new cfg env ch) paced_forwards ms).
  - apply paced_forwards_refl.
  - apply paced_forwards_trans.
  - intros m f' _. split;
      [apply forward_new_returns | apply paced_forwards_forward_new].
Qed.

Lemma paced_forwards_process_channel (ch : string) (f : Frame) :
  paced_forwards f (exec (process_channel cfg env ch) f).
Proof.
  destruct f as [s r]. unfold exec. rewrite process_channel_eq. cbn [snd].
  destruct (start_time s) as [B |] eqn:Hst.
  - rewrite (get_channel_messages_set env ch 50 s B Hst). cbn zeta.
    destruct (collect B _ _ []) as [[| first others] | [secs | ]].
    + exists [IterMessages ch 50; Retrieved ch 0].
      cbn. rewrite <- app_assoc. split; reflexivity.
    + match goal with
      | |- context [exec ?m ?f] =>
          destruct (paced_forwards_forward_loop ch (first :: others) f)
            as (d & T & P)
      end.
      cbn [self_ log set_db set_ticks trace] in *.
      exists ([IterMessages ch 50;
               Retrieved ch (List.length (first :: others))]
              ++ d ++ [Sleep 2]).
      split.
      * unfold paced_forwards. cbn [self_ log trace]. rewrite T.
        rewrite <- !app_assoc. reflexivity.
      * apply (forwards_paced_app
                 [IterMessages ch 50;
                  Retrieved ch (List.length (first :: others))]);
          [reflexivity |].
        apply forwards_paced_app; [exact P | reflexivity].
    + exists [IterMessages ch 50; Sleep secs].
      cbn. rewrite <- app_assoc. split; reflexivity.
    + exists [IterMessages ch 50]. cbn. split; reflexivity.
  - rewrite (get_channel_messages_unset env ch 50 s Hst).
    apply paced_forwards_refl.
Qed.

Lemma counts_bounded_forward_loop (ch : string) (ms : list Message.t) :
  forall f,
    let f' := exec (for_each ms (forward_new cfg env ch)) f in
    processed (results f') = processed (results f)
    /\ 0 <= forwarded (results f') - forwarded (results f)
         <= Z.of_nat (List.length ms).
Proof.
  induction ms as [| m ms IH]; intros f.
  - cbn. split; lia.
  - cbn zeta. unfold exec.
    rewrite for_each_cons by apply forward_new_returns.
    fold (exec (for_each ms (forward_new cfg env ch))
               (exec (forward_new cfg env ch m) f)).
    destruct (IH (exec (forward_new cfg env ch m) f)) as [Hp Hf].
    assert (H1 : processed (results (exec (forward_new cfg env ch m) f))
                 = processed (results f)
                 /\ 0 <= forwarded (results (exec (forward_new cfg env ch m) f))
                         - forwarded (results f) <= 1).
    { destruct f as [s r]. unfold exec. rewrite forward_new_eq. cbn [snd].
      destruct (is_post_processed (db s) ch (Message.id m));
        [cbn; split; lia |].
      rewrite forward_message_eq.
      destruct (Telethon.forward_messages env (ticks s) _ m ch);
        cbn; split; lia. }
    destruct H1 as [H1 H2]. cbn [List.length]. split; [congruence | lia].
Qed.

Lemma counts_bounded_process_channel (ch : string) (f : Frame) :
  counts_bounded f (exec (process_channel cfg env ch) f).
Proof.
  destruct f as [s r]. unfold exec, counts_bounded.
  rewrite process_channel_eq. cbn [snd].
  destruct (get_channel_messages env ch 50 s)
    as [[[| first others] | e] s1]; cbn [results]; try lia.
  cbn zeta. cbn [results processed forwarded].
  match goal with
  | |- context [exec ?m ?f] =>
      destruct (counts_bounded_forward_loop ch (first :: others) f)
        as [Hp Hf]
  end.
  cbn [results] in *. lia.
Qed.

End MorePass.

(** X8. Retrieval is sound for every batch, in any order and even when the
    iteration breaks off: each message [get_channel_messages] returns was
    yielded by the transport for that call, is strictly after the run
    boundary, and carries a non-empty text that does not begin with [/];
    so a command message is never a candidate, whatever its timestamp, and
    nothing is returned while no boundary is established. *)
Theorem retrieval_sound
    (env : Telethon.Environment) (s : TelegramNewsClient) (ch : string)
    (limit : nat) (ms : list Message.t) (m : Message.t) :
  fst (get_channel_messages env ch limit s) = Return ms ->
  In m ms ->
  exists B,
    start_time s = Some B
    /\ In m (fst (Telethon.iter_messages env (ticks s) ch limit))
    /\ retained B m = true
    /\ (forall text, Message.text m = Some text ->
                     String.prefix "/" text = false /\ text <> "").
Proof.
  intros Hget Hin.
  destruct (start_time s) as [B |] eqn:Hst.
  - exists B. split; [reflexivity |].
    rewrite (get_channel_messages_set env ch limit s B Hst) in Hget.
    cbn zeta in Hget.
    destruct (collect B _ _ []) as [ms' | [secs | ]] eqn:Hc;
      cbn [fst] in Hget; inversion Hget; subst; try destruct Hin.
    destruct (collect_sound B _ _ [] ms Hc m Hin) as [[] | [Hb Hr]].
    split; [exact Hb |]. split; [exact Hr |].
    intros text Htext. unfold retained in Hr. rewrite Htext in Hr.
    apply andb_true_iff in Hr. destruct Hr as [_ Hr].
    apply andb_true_iff in Hr. destruct Hr as [Hne Hpre].
    apply negb_true_iff in Hne. apply negb_true_iff in Hpre.
    split; [exact Hpre |]. apply String.eqb_neq. exact Hne.
  - rewrite (get_channel_messages_unset env ch limit s Hst) in Hget.
    inversion Hget; subst. destruct Hin.
Qed.

(** X9. A pass on a client whose run boundary was never established fetches
    nothing and forwards nothing: whatever the configured channels, it
    returns zero counts, adds no event to the trace, and its only effect is
    the statistics write that ends every pass. *)
Theorem pass_without_boundary
    (cfg : Config.t) (env : Telethon.Environment) (s : TelegramNewsClient) :
  start_time s = None ->
  process_all_channels cfg env s
  = (Return {| processed := 0; forwarded := 0 |}, finish_pass env s).
Proof.
  intros Hst. rewrite process_all_channels_eq. cbn zeta.
  assert (H : forall chs r,
            exec (for_each chs (process_channel cfg env)) (BuildFrame s r)
            = BuildFrame s r).
  { induction chs as [| ch chs IH]; intros r; [reflexivity |].
    unfold exec. rewrite for_each_cons by apply process_channel_returns.
    unfold exec. rewrite process_channel_eq.
    rewrite (get_channel_messages_unset env ch 50 s Hst). cbn [snd].
    exact (IH r). }
  rewrite H. reflexivity.
Qed.

(** X10. The counts a pass returns are consistent: zero or more messages
    were forwarded, and never more than were retrieved. *)
Theorem forwarded_at_most_processed
    (cfg : Config.t) (env : Telethon.Environment) (s : TelegramNewsClient) :
  exists res,
    fst (process_all_channels cfg env s) = Return res
    /\ 0 <= forwarded res <= processed res.
Proof.
  rewrite process_all_channels_eq. cbn zeta. eexists. split; [reflexivity |].
  destruct (for_each_ind (process_channel cfg env) counts_bounded
              (Config.SOURCE_CHANNELS cfg)) with
    (s := BuildFrame s {| processed := 0; forwarded := 0 |}) as [_ H].
  - intros f. unfold counts_bounded. lia.
  - intros f1 f2 f3. unfold counts_bounded. lia.
  - intros ch f _. split;
      [apply process_channel_returns | apply counts_bounded_process_channel].
  - unfold counts_bounded in H. cbn [results processed forwarded] in H. lia.
Qed.

(** X11. The delay after a forward: in the events a pass adds to the trace,
    every successful forward is followed at once by the sleep of one
    second, before the next forward or retrieval. *)
Theorem forward_delay
    (cfg : Config.t) (env : Telethon.Environment) (s : TelegramNewsClient) :
  exists delta,
    trace (exec (process_all_channels cfg env) s) = trace s ++ delta
    /\ forwards_paced delta = true.
Proof.
  unfold exec. rewrite process_all_channels_eq. cbn zeta. cbn [snd].
  destruct (for_each_ind (process_channel cfg env) paced_forwards
              (Config.SOURCE_CHANNELS cfg)) with
    (s := BuildFrame s {| processed := 0; forwarded := 0 |}) as [_ H].
  - apply paced_forwards_refl.
  - apply paced_forwards_trans.
  - intros ch f _. split;
      [apply process_channel_returns | apply paced_forwards_process_channel].
  - exact H.
Qed.

(** * What a pass does not read *)

Section Settings.

Variable cfg : Config.t.
Variable env : Telethon.Environment.

(** Two runs of a loop from related states stay related. *)
Lemma for_each_sim {S A : Type} (Q : S -> S -> Prop) (body : A -> M S unit)
    (l : list A) :
  (forall x s1 s2, Q s1 s2 ->
     fst (body x s1) = Return tt /\ fst (body x s2) = Return tt
     /\ Q (exec (body x) s1) (exec (body x) s2)) ->
  forall s1 s2, Q s1 s2 ->
    Q (exec (for_each l body) s1) (exec (for_each l body) s2).
Proof.
  intros Hbody. induction l as [| x l IH]; intros s1 s2 HQ; [exact HQ |].
  destruct (Hbody x s1 s2 HQ) as (H1 & H2 & H3).
  unfold exec. rewrite !for_each_cons by assumption.
  apply IH. exact H3.
Qed.

Lemma is_post_processed_same (d1 d2 : DatabaseManager) (ch : string) (id : Z) :
  processed_posts d1 = processed_posts d2 ->
  is_post_processed d1 ch id = is_post_processed d2 ch id.
Proof. unfold is_post_processed. intros ->. reflexivity. Qed.

Lemma get_channel_messages_sim (ch : string) (s1 s2 : TelegramNewsClient) :
  same_but_settings s1 s2 ->
  fst (get_channel_messages env ch 50 s1)
  = fst (get_channel_messages env ch 50 s2)
  /\ same_but_settings (snd (get_channel_messages env ch 50 s1))
                       (snd (get_channel_messages env ch 50 s2)).
Proof.
  intros (Hp & Hs & Hst & Hstats & Hticks & Htrace).
  destruct (start_time s1) as [B |] eqn:H1.
  - rewrite (get_channel_messages_set env ch 50 s1 B H1).
    rewrite (get_channel_messages_set env ch 50 s2 B) by congruence.
    cbn zeta. rewrite <- Hticks.
    destruct (collect B _ _ []) as [ms | [secs | ]]; cbn [fst snd];
      (split; [reflexivity |]);
      unfold same_but_settings; cbn; repeat split; congruence.
  - rewrite (get_channel_messages_unset env ch 50 s1 H1).
    rewrite (get_channel_messages_unset env ch 50 s2) by congruence.
    cbn [fst snd]. split; [reflexivity |]. repeat split; congruence.
Qed.

Lemma forward_new_sim (ch : string) (m : Message.t) (f1 f2 : Frame) :
  same_but_settings_frames f1 f2 ->
  same_but_settings_frames (exec (forward_new cfg env ch m) f1)
                           (exec (forward_new cfg env ch m) f2).
Proof.
  destruct f1 as [s1 r1], f2 as [s2 r2].
  intros [(Hp & Hs & Hst & Hstats & Hticks & Htrace) Hr].
  cbn [self_ results] in *. subst r2.
  unfold exec. rewrite !forward_new_eq. cbn [snd].
  rewrite (is_post_processed_same (db s1) (db s2) ch (Message.id m) Hp).
  destruct (is_post_processed (db s2) ch (Message.id m)).
  - split; [repeat split; assumption | reflexivity].
  - rewrite !forward_message_eq. rewrite <- Hticks.
    destruct (Telethon.forward_messages env (ticks s1) _ m ch) as [[] | e].
    + split; [| reflexivity].
      unfold same_but_settings. cbn. rewrite Hp, Hs, Hst, Hstats, Htrace.
      repeat split.
    + split; [| reflexivity].
      unfold same_but_settings. cbn. rewrite Htrace.
      repeat split; assumption.
Qed.

Lemma process_channel_sim (ch : string) (f1 f2 : Frame) :
  same_but_settings_frames f1 f2 ->
  same_but_settings_frames (exec (process_channel cfg env ch) f1)
                           (exec (process_channel cfg env ch) f2).
Proof.
  destruct f1 as [s1 r1], f2 as [s2 r2]. intros [Hs Hr].
  cbn [self_ results] in *. subst r2.
  unfold exec. rewrite !process_channel_eq. cbn [snd].
  destruct (get_channel_messages_sim ch s1 s2 Hs) as [Ho Hsim].
  destruct (get_channel_messages env ch 50 s1) as [o1 a1].
  destruct (get_channel_messages env ch 50 s2) as [o2 a2].
  cbn [fst snd] in *. subst o2.
  destruct o1 as [[| first others] | e];
    try (split; [exact Hsim | reflexivity]).
  cbn zeta.
  match goal with
  | |- same_but_settings_frames
         (BuildFrame (log _ (self_ (exec ?m ?g1))) _)
         (BuildFrame (log _ (self_ (exec ?m ?g2))) _) =>
      assert (Hloop : same_but_settings_frames (exec m g1) (exec m g2))
  end.
  { apply (for_each_sim same_but_settings_frames).
    - intros m f1 f2 H. split; [apply forward_new_returns |].
      split; [apply forward_new_returns | apply forward_new_sim; exact H].
    - destruct Hsim as (Hp & Hst' & Hb & Hstats & Hticks & Htrace).
      split; [| reflexivity]. unfold same_but_settings. cbn.
      rewrite Hticks. repeat split; assumption. }
  destruct Hloop as [(Hp & Hst' & Hb & Hstats & Hticks & Htrace) Hres].
  split.
  - unfold same_but_settings.
    cbn [self_ log db start_time stats ticks trace]. rewrite Htrace.
    repeat split; assumption.
  - cbn [results]. rewrite Hres. reflexivity.
Qed.

End Settings.

(** X12. A pass never reads [channel_settings]: the stored watermark and the
    active flag are written or left alone, never consulted.  Two clients
    that differ at most in that table return the same counts from a pass,
    add the same events to the trace, and end with the same processed
    records and the same statistics; so a channel deactivated by
    [remove_channel] is polled and forwarded like any other. *)
Theorem pass_ignores_channel_settings
    (cfg : Config.t) (env : Telethon.Environment)
    (s1 s2 : TelegramNewsClient) :
  same_but_settings s1 s2 ->
  fst (process_all_channels cfg env s1) = fst (process_all_channels cfg env s2)
  /\ same_but_settings (exec (process_all_channels cfg env) s1)
                       (exec (process_all_channels cfg env) s2).
Proof.
  intros Hs. unfold exec. rewrite !process_all_channels_eq. cbn zeta.
  cbn [fst snd].
  assert (Hloop : same_but_settings_frames
            (exec (for_each (Config.SOURCE_CHANNELS cfg)
                            (process_channel cfg env))
                  (BuildFrame s1 {| processed := 0; forwarded := 0 |}))
            (exec (for_each (Config.SOURCE_CHANNELS cfg)
                            (process_channel cfg env))
                  (BuildFrame s2 {| processed := 0; forwarded := 0 |}))).
  { apply (for_each_sim same_but_settings_frames).
    - intros ch f1 f2 H. split; [apply process_channel_returns |].
      split; [apply process_channel_returns |].
      apply process_channel_sim. exact H.
    - split; [exact Hs | reflexivity]. }
  destruct Hloop as [(Hp & Hst & Hb & Hstats & Hticks & Htrace) Hres].
  split; [rewrite Hres; reflexivity |].
  unfold same_but_settings, finish_pass. cbn [db start_time stats ticks trace].
  unfold update_statistics. cbn [processed_posts statistics].
  rewrite Hst, Hstats, Hticks. repeat split; assumption.
Qed.

(** * The collection cycle and the maintenance operations *)

Section Upkeep.

Lemma is_post_processed_iff (db : DatabaseManager) (ch : string) (id : Z) :
  is_post_processed db ch id = true
  <-> exists r, In r (processed_posts db) /\ post_key ch id r = true.
Proof.
  unfold is_post_processed, fetchone. split.
  - destruct (filter (post_key ch id) (processed_posts db)) as [| r l] eqn:Hf;
      [discriminate |].
    intros _. exists r. apply filter_In. rewrite Hf. left. reflexivity.
  - intros (r & Hr). apply filter_In in Hr.
    destruct (filter (post_key ch id) (processed_posts db));
      [destruct Hr | reflexivity].
Qed.

(** An [UPDATE] that leaves the names alone commutes with a selection by
    name. *)
Lemma filter_update_where (c ch : string)
    (set : ChannelSettings.row -> ChannelSettings.row)
    (rows : list ChannelSettings.row) :
  (forall r, ChannelSettings.channel_username (set r)
             = ChannelSettings.channel_username r) ->
  filter (channel_key c) (Maintenance.update_where ch set rows)
  = Maintenance.update_where ch set (filter (channel_key c) rows).
Proof.
  intros Hname. unfold Maintenance.update_where.
  induction rows as [| r rows IH]; [reflexivity |]. cbn [map filter].
  assert (Hk : channel_key c (if channel_key ch r then set r else r)
               = channel_key c r).
  { destruct (channel_key ch r); [| reflexivity].
    unfold channel_key. rewrite Hname. reflexivity. }
  rewrite Hk. destruct (channel_key c r); cbn [map]; rewrite IH; reflexivity.
Qed.

Lemma registered_fetch (db : DatabaseManager) (ch : string) :
  registered db ch = true ->
  exists r rest,
    filter (channel_key ch) (channel_settings db) = r :: rest
    /\ channel_key ch r = true.
Proof.
  unfold registered. intros H. apply existsb_exists in H.
  destruct H as (r & Hin & Hk).
  assert (Hf : In r (filter (channel_key ch) (channel_settings db)))
    by (apply filter_In; auto).
  destruct (filter (channel_key ch) (channel_settings db)) as [| r0 rest] eqn:E;
    [destruct Hf |].
  exists r0, rest. split; [reflexivity |].
  assert (H0 : In r0 (filter (channel_key ch) (channel_settings db)))
    by (rewrite E; left; reflexivity).
  apply filter_In in H0. tauto.
Qed.

End Upkeep.

(** X13. One collection cycle of the scheduler never raises.  When the
    connection test fails, the cycle is over at once: nothing is fetched,
    forwarded or written, and only the count of interactions moves.  When
    the test succeeds, the cycle is a pass of the client. *)
Theorem collection_cycle
    (cfg : Config.t) (env : Telethon.Environment) (s : TelegramNewsClient) :
  (exists s', Scheduler.run_news_collection cfg env s = (Return tt, s'))
  /\ (forall e,
        Telethon.get_me env (S (ticks s)) = Raise e ->
        Scheduler.run_news_collection cfg env s
        = (Return tt, set_ticks (S (S (ticks s))) s))
  /\ (Telethon.get_me env (S (ticks s)) = Return tt ->
      Scheduler.run_news_collection cfg env s
      = (Return tt,
         set_ticks_next
           (exec (process_all_channels cfg env)
                 (set_ticks (S (S (ticks s))) s)))).
Proof.
  assert (H : Scheduler.run_news_collection cfg env s
              = match Telethon.get_me env (S (ticks s)) with
                | Return _ =>
                    (Return tt,
                     set_ticks_next
                       (exec (process_all_channels cfg env)
                             (set_ticks (S (S (ticks s))) s)))
                | Raise _ => (Return tt, set_ticks (S (S (ticks s))) s)
                end).
  { unfold Scheduler.run_news_collection, try_except.
    unfold bind at 1, now at 1, await at 1.
    unfold bind at 1, test_connection, try_except, bind at 1, await at 1.
    cbn [set_ticks ticks].
    destruct (Telethon.get_me env (S (ticks s))) as [[] | e]; cbn [ret negb].
    - change (set_ticks (S (S (ticks s))) (set_ticks (S (ticks s)) s))
        with (set_ticks (S (S (ticks s))) s).
      unfold bind, exec. rewrite process_all_channels_eq. cbn zeta.
      reflexivity.
    - reflexivity. }
  split; [| split].
  - rewrite H. destruct (Telethon.get_me env (S (ticks s)));
      eexists; reflexivity.
  - intros e He. rewrite H, He. reflexivity.
  - intros He. rewrite H, He. reflexivity.
Qed.

(** X14. The retention purge deletes exactly the records processed more than
    thirty days before [now]: what remains are the records of the table
    that are not that old, in their order; the count it reports is the
    number of rows deleted; the settings and the statistics are not
    touched; a second purge at the same instant deletes nothing.  So a pair
    stays deduplicated as long as it has a record younger than thirty days,
    and no longer. *)
Theorem cleanup_database_purges (now : Z) (db : DatabaseManager) :
  let db' := fst (Maintenance.cleanup_database now db) in
  let deleted := snd (Maintenance.cleanup_database now db) in
  (forall r, In r (processed_posts db')
             <-> In r (processed_posts db)
                 /\ now - 30 * 86400 <= ProcessedPosts.processed_date r)
  /\ deleted + Z.of_nat (List.length (processed_posts db'))
     = Z.of_nat (List.length (processed_posts db))
  /\ channel_settings db' = channel_settings db
  /\ statistics db' = statistics db
  /\ Maintenance.cleanup_database now db' = (db', 0)
  /\ (forall ch id,
        is_post_processed db' ch id = true
        <-> exists r, In r (processed_posts db)
                      /\ post_key ch id r = true
                      /\ now - 30 * 86400 <= ProcessedPosts.processed_date r).
Proof.
  cbv zeta. unfold Maintenance.cleanup_database.
  cbn [fst snd processed_posts channel_settings statistics].
  assert (Hin : forall r,
            In r (filter (fun r => negb (Maintenance.is_stale now r))
                         (processed_posts db))
            <-> In r (processed_posts db)
                /\ now - 30 * 86400 <= ProcessedPosts.processed_date r).
  { intros r. rewrite filter_In.
    unfold Maintenance.is_stale, Maintenance.cutoff.
    rewrite negb_true_iff, Z.ltb_ge. tauto. }
  split; [exact Hin |]. split; [| split; [reflexivity | split; [reflexivity |]]].
  - rewrite <- Nat2Z.inj_add. f_equal. apply filter_length.
  - split.
    + f_equal.
      * f_equal. apply filter_idem.
      * rewrite filter_none. reflexivity.
    + intros ch id. rewrite is_post_processed_iff. cbn [processed_posts].
      split.
      * intros (r & Hr & Hk). apply Hin in Hr. exists r. tauto.
      * intros (r & Hr & Hk & Hd). exists r. split; [| exact Hk].
        apply Hin. tauto.
Qed.

(** X15. Resetting a channel forgets its history and nothing else: no
    message of the channel counts as processed any more and its watermark
    reads 0, while its active flag, the records and watermarks of the other
    channels, and the statistics are as before. *)
Theorem reset_channel_forgets (db : DatabaseManager) (ch : string) :
  let db' := Maintenance.reset_channel db ch in
  (forall id, is_post_processed db' ch id = false)
  /\ get_last_message_id db' ch = 0
  /\ (forall c, Maintenance.is_active db' c = Maintenance.is_active db c)
  /\ (forall c id, c <> ch ->
        is_post_processed db' c id = is_post_processed db c id)
  /\ (forall c, c <> ch ->
        get_last_message_id db' c = get_last_message_id db c)
  /\ statistics db' = statistics db.
Proof.
  cbv zeta.
  assert (Hname : forall r : ChannelSettings.row,
            ChannelSettings.channel_username
              {| ChannelSettings.channel_username :=
                   ChannelSettings.channel_username r;
                 ChannelSettings.last_message_id := 0;
                 ChannelSettings.is_active := ChannelSettings.is_active r;
                 ChannelSettings.added_date := ChannelSettings.added_date r |}
            = ChannelSettings.channel_username r) by reflexivity.
  split; [| split; [| split; [| split; [| split; [| reflexivity]]]]].
  - intros id. destruct (is_post_processed _ ch id) eqn:H; [| reflexivity].
    apply is_post_processed_iff in H. destruct H as (r & Hr & Hk).
    unfold Maintenance.reset_channel in Hr. cbn [processed_posts] in Hr.
    apply filter_In in Hr. destruct Hr as [_ Hneg].
    unfold post_key in Hk. apply andb_true_iff in Hk. destruct Hk as [Hc _].
    rewrite Hc in Hneg. discriminate.
  - unfold get_last_message_id, Maintenance.reset_channel.
    cbn [channel_settings]. rewrite filter_update_where by exact Hname.
    unfold Maintenance.update_where.
    destruct (filter (channel_key ch) (channel_settings db)) as [| r l] eqn:Hf;
      [reflexivity |].
    assert (Hk : channel_key ch r = true).
    { assert (Hin : In r (filter (channel_key ch) (channel_settings db)))
        by (rewrite Hf; left; reflexivity).
      apply filter_In in Hin. tauto. }
    cbn [map fetchone hd_error]. rewrite Hk. reflexivity.
  - intros c. unfold Maintenance.is_active, Maintenance.reset_channel.
    cbn [channel_settings]. rewrite filter_update_where by exact Hname.
    unfold Maintenance.update_where.
    destruct (filter (channel_key c) (channel_settings db)) as [| r l];
      [reflexivity |].
    cbn [map fetchone hd_error option_map].
    destruct (channel_key ch r); reflexivity.
  - intros c id Hne. unfold is_post_processed, Maintenance.reset_channel.
    cbn [processed_posts].
    rewrite filter_filter_implied; [reflexivity |].
    intros r Hk. unfold post_key in Hk. apply andb_true_iff in Hk.
    destruct Hk as [Hc _]. apply String.eqb_eq in Hc. rewrite Hc.
    apply negb_true_iff. apply String.eqb_neq. exact Hne.
  - intros c Hne. unfold get_last_message_id, Maintenance.reset_channel.
    cbn [channel_settings]. rewrite filter_update_where by exact Hname.
    unfold Maintenance.update_where.
    destruct (filter (channel_key c) (channel_settings db)) as [| r l] eqn:Hf;
      [reflexivity |].
    assert (Hk : channel_key c r = true).
    { assert (Hin : In r (filter (channel_key c) (channel_settings db)))
        by (rewrite Hf; left; reflexivity).
      apply filter_In in Hin. tauto. }
    cbn [map fetchone hd_error].
    assert (Hk' : channel_key ch r = false).
    { unfold channel_key in *. apply String.eqb_eq in Hk. rewrite Hk.
      apply String.eqb_neq. exact Hne. }
    rewrite Hk'. reflexivity.
Qed.

(** X16. Removing a channel deactivates it and nothing else: a registered
    channel reads inactive afterwards, an unregistered one still has no
    row; every watermark, the flag of every other channel and every
    processed record are as before.  Registering the channel again does not
    bring it back: the row exists, so the insert is ignored and the channel
    stays inactive. *)
Theorem remove_channel_deactivates (db : DatabaseManager) (ch : string) (t : Z) :
  let db' := Maintenance.remove_channel db ch in
  (registered db ch = true -> Maintenance.is_active db' ch = Some false)
  /\ (registered db ch = false -> Maintenance.is_active db' ch = None)
  /\ (forall c, c <> ch ->
        Maintenance.is_active db' c = Maintenance.is_active db c)
  /\ (forall c, get_last_message_id db' c = get_last_message_id db c)
  /\ processed_posts db' = processed_posts db
  /\ (registered db ch = true ->
      Maintenance.is_active (Database.add_channel t db' ch) ch = Some false).
Proof.
  cbv zeta.
  assert (Hname : forall r : ChannelSettings.row,
            ChannelSettings.channel_username
              {| ChannelSettings.channel_username :=
                   ChannelSettings.channel_username r;
                 ChannelSettings.last_message_id :=
                   ChannelSettings.last_message_id r;
                 ChannelSettings.is_active := false;
                 ChannelSettings.added_date := ChannelSettings.added_date r |}
            = ChannelSettings.channel_username r) by reflexivity.
  assert (Hoff : registered db ch = true ->
                 Maintenance.is_active (Maintenance.remove_channel db ch) ch
                 = Some false).
  { intros Hreg. destruct (registered_fetch db ch Hreg) as (r & rest & Hf & Hk).
    unfold Maintenance.is_active, Maintenance.remove_channel.
    cbn [channel_settings]. rewrite filter_update_where by exact Hname.
    rewrite Hf. unfold Maintenance.update_where.
    cbn [map fetchone hd_error option_map]. rewrite Hk. reflexivity. }
  assert (Hkeep : forall c,
            registered (Maintenance.remove_channel db ch) c = registered db c).
  { intros c. unfold registered, Maintenance.remove_channel.
    cbn [channel_settings]. unfold Maintenance.update_where.
    induction (channel_settings db) as [| r l IH]; [reflexivity |].
    cbn [map existsb]. rewrite IH. f_equal.
    destruct (channel_key ch r); reflexivity. }
  split; [exact Hoff |]. split; [| split; [| split; [| split]]].
  - intros Hreg. unfold Maintenance.is_active, Maintenance.remove_channel.
    cbn [channel_settings]. rewrite filter_update_where by exact Hname.
    replace (filter (channel_key ch) (channel_settings db))
      with (@nil ChannelSettings.row); [reflexivity |].
    unfold registered in Hreg.
    induction (channel_settings db) as [| r l IH]; [reflexivity |].
    cbn in Hreg. apply orb_false_iff in Hreg. destruct Hreg as [Hr Hl].
    cbn. rewrite Hr. apply IH. exact Hl.
  - intros c Hne. unfold Maintenance.is_active, Maintenance.remove_channel.
    cbn [channel_settings]. rewrite filter_update_where by exact Hname.
    unfold Maintenance.update_where.
    destruct (filter (channel_key c) (channel_settings db)) as [| r l] eqn:Hf;
      [reflexivity |].
    assert (Hk : channel_key c r = true).
    { assert (Hin : In r (filter (channel_key c) (channel_settings db)))
        by (rewrite Hf; left; reflexivity).
      apply filter_In in Hin. tauto. }
    cbn [map fetchone hd_error option_map].
    assert (Hk' : channel_key ch r = false).
    { unfold channel_key in *. apply String.eqb_eq in Hk. rewrite Hk.
      apply String.eqb_neq. exact Hne. }
    rewrite Hk'. reflexivity.
  - intros c. unfold get_last_message_id, Maintenance.remove_channel.
    cbn [channel_settings]. rewrite filter_update_where by exact Hname.
    unfold Maintenance.update_where.
    destruct (filter (channel_key c) (channel_settings db)) as [| r l];
      [reflexivity |].
    cbn [map fetchone hd_error]. destruct (channel_key ch r); reflexivity.
  - reflexivity.
  - intros Hreg. unfold Database.add_channel.
    fold (registered (Maintenance.remove_channel db ch) ch).
    rewrite Hkeep, Hreg. apply Hoff. exact Hreg.
Qed.

(** * The further properties on concrete runs *)

Lemma add_channel_idempotent_witness :
  registered Scenario.settings_db "@a" = true
  /\ Database.add_channel 300 Scenario.settings_db "@a" = Scenario.settings_db.
Proof.
  split; [reflexivity |].
  destruct (add_channel_idempotent 300 400 Scenario.settings_db "@a")
    as (H1 & _).
  apply H1. reflexivity.
Defined.

Lemma add_processed_post_upsert_witness :
  ("@a", 104) <> ("@a", 105)
  /\ filter (post_key "@a" 104)
       (processed_posts
          (add_processed_post 10 init_database "@a" 105 "hi" None None true))
     = filter (post_key "@a" 104) (processed_posts init_database).
Proof.
  split; [discriminate |].
  destruct (add_processed_post_upsert 10 20 init_database "@a" 105 "hi" "ho"
              None None None None true true) as (_ & _ & H3).
  apply H3. discriminate.
Defined.

Lemma unique_keys_invariant_witness :
  unique_keys (db init)
  /\ unique_keys
       (db (exec (run Scenario.one_channel Scenario.steady
                    [Initialize; ProcessAllChannels; ProcessAllChannels])
                 init)).
Proof.
  destruct (unique_keys_invariant Scenario.one_channel Scenario.steady
              [Initialize; ProcessAllChannels; ProcessAllChannels] init)
    as [H1 H2].
  split; [exact H1 | apply H2; exact H1].
Defined.




Lemma status_counts_agree_witness :
  all_published (db init)
  /\ Maintenance.published_posts
       (db (exec (run Scenario.one_channel Scenario.steady
                    [Initialize; ProcessAllChannels]) init))
     = Maintenance.total_posts
         (db (exec (run Scenario.one_channel Scenario.steady
                      [Initialize; ProcessAllChannels]) init)).
Proof.
  assert (H0 : all_published (db init)) by constructor.
  split; [exact H0 |].
  apply (status_counts_agree Scenario.one_channel Scenario.steady
           [Initialize; ProcessAllChannels] init H0).
Defined.

Lemma initialize_outcome_witness :
  exists s',
    initialize Scenario.two_channels Scenario.quiet init = (Return true, s')
    /\ registered (db s') "@a" = true
    /\ registered (db s') "@b" = true.
Proof.
  destruct (initialize_outcome Scenario.two_channels Scenario.quiet init)
    as (b & s' & Heq & Hiff & Htrue & _).
  assert (Hb : b = true)
    by (apply Hiff; repeat split; reflexivity).
  subst b. exists s'. split; [exact Heq |].
  destruct (Htrue eq_refl) as [_ Hall].
  split; apply Hall; cbn; auto.
Defined.

Lemma retrieval_sound_witness :
  exists B,
    start_time (Scenario.fresh 1000) = Some B
    /\ In (message 105 "hi" 1005)
          (fst (Telethon.iter_messages (Scenario.spec_transport 1000)
                  (ticks (Scenario.fresh 1000)) "@a" 50))
    /\ retained B (message 105 "hi" 1005) = true
    /\ (forall text,
          Message.text (message 105 "hi" 1005) = Some text ->
          String.prefix "/" text = false /\ text <> "").
Proof.
  apply (retrieval_sound (Scenario.spec_transport 1000) (Scenario.fresh 1000)
           "@a" 50 [message 105 "hi" 1005] (message 105 "hi" 1005)).
  - reflexivity.
  - left. reflexivity.
Defined.

Lemma pass_without_boundary_witness :
  start_time init = None
  /\ process_all_channels Scenario.two_channels Scenario.steady init
     = (Return {| processed := 0; forwarded := 0 |},
        finish_pass Scenario.steady init).
Proof.
  split; [reflexivity |].
  apply (pass_without_boundary Scenario.two_channels Scenario.steady init).
  reflexivity.
Defined.

Lemma pass_ignores_channel_settings_witness :
  same_but_settings
    (Scenario.started Scenario.one_channel Scenario.steady)
    MoreScenarios.deactivated
  /\ fst (process_all_channels Scenario.one_channel Scenario.steady
            (Scenario.started Scenario.one_channel Scenario.steady))
     = fst (process_all_channels Scenario.one_channel Scenario.steady
              MoreScenarios.deactivated).
Proof.
  assert (H0 : same_but_settings
                 (Scenario.started Scenario.one_channel Scenario.steady)
                 MoreScenarios.deactivated)
    by (repeat split; reflexivity).
  split; [exact H0 |].
  apply (pass_ignores_channel_settings Scenario.one_channel Scenario.steady
           _ _ H0).
Defined.

Lemma collection_cycle_witness :
  Scheduler.run_news_collection Scenario.one_channel MoreScenarios.offline
    (Scenario.fresh 1000)
  = (Return tt, set_ticks 2 (Scenario.fresh 1000))
  /\ Scheduler.run_news_collection Scenario.one_channel Scenario.steady
       (Scenario.fresh 1000)
     = (Return tt,
        set_ticks_next
          (exec (process_all_channels Scenario.one_channel Scenario.steady)
                (set_ticks 2 (Scenario.fresh 1000)))).
Proof.
  split.
  - destruct (collection_cycle Scenario.one_channel MoreScenarios.offline
                (Scenario.fresh 1000)) as (_ & H2 & _).
    apply (H2 Exception). reflexivity.
  - destruct (collection_cycle Scenario.one_channel Scenario.steady
                (Scenario.fresh 1000)) as (_ & _ & H3).
    apply H3. reflexivity.
Defined.

Lemma reset_channel_forgets_witness :
  "@b" <> "@a"
  /\ get_last_message_id (Maintenance.reset_channel Scenario.settings_db "@a")
       "@a" = 0
  /\ get_last_message_id (Maintenance.reset_channel Scenario.settings_db "@a")
       "@b"
     = get_last_message_id Scenario.settings_db "@b".
Proof.
  destruct (reset_channel_forgets Scenario.settings_db "@a")
    as (_ & H2 & _ & _ & H5 & _).
  split; [discriminate |]. split; [exact H2 |]. apply H5. discriminate.
Defined.

Lemma remove_channel_deactivates_witness :
  registered Scenario.settings_db "@b" = true
  /\ Maintenance.is_active
       (Maintenance.remove_channel Scenario.settings_db "@b") "@b"
     = Some false
  /\ Maintenance.is_active
       (Database.add_channel 300
          (Maintenance.remove_channel Scenario.settings_db "@b") "@b") "@b"
     = Some false.
Proof.
  destruct (remove_channel_deactivates Scenario.settings_db "@b" 300)
    as (H1 & _ & _ & _ & _ & H6).
  split; [reflexivity |]. split; [apply H1 | apply H6]; reflexivity.
Defined.
